(** * Crypto Sentinel: the ingestion-to-notification pipeline

    A shallow embedding of the parts of the Python sources that the
    specification's testable properties are about:

    - [app/utils/validators.py]    suspicion score of a token name/symbol,
    - [app/websocket_listener.py]  reconnect loop, ERC20 probe, hand-off,
    - [app/gpt_analyzer.py]        response validation and the TTL cache,
    - [app/telegram_notifier.py]   the outbound message queue and its worker,
    - [app/dexscanner.py]          the per-instance rate limiter.

    Conventions.  A Python [int] is a [Z].  A Python [float] is modelled by
    the rational number it denotes ([Q]); where a float comes from untrusted
    JSON the two infinities and NaN are separate constructors ([pyfloat]).
    Comparisons of floats are exact on the denoted values, so they are
    modelled exactly; a literal that is not a double itself stands for the
    double it denotes; arithmetic on clock readings is modelled without
    rounding, and no statement rests on the value of another rounded
    operation.  A [str] is a [string]; the builtin string methods, the regular
    expression engine, the JSON parser and the type coercions of the model
    library are collaborators of the code and are taken as an interface
    ([PyRuntime]).  A raised exception is a value of type [exn]; code that
    can raise returns a [result]. *)

From stdpp Require Import gmap strings list.
From Stdlib Require Import QArith Qminmax Lqa.

Set Warnings "-register-all".
Open Scope string_scope.

(** ** Python values, exceptions, results *)

Module Py.

(** Subclasses of [Exception] that the sources name or that the builtins
    raise on the paths modelled here. *)
Inductive exn : Type :=
| TypeError
| ValueError
| KeyError
| AttributeError
| IndexError
| OverflowError
| JSONDecodeError
| ValidationError
| TimeoutError
| RateLimitError
| APIError
| ContractLogicError
| ConnectionClosed
| InvalidStatusCode
| OSError
| OtherError.

Inductive result (A : Type) : Type :=
| Ok (a : A)
| Raise (e : exn).
Arguments Ok {A} a.
Arguments Raise {A} e.

Definition bind {A B : Type} (m : result A) (k : A -> result B) : result B :=
  match m with
  | Ok a => k a
  | Raise e => Raise e
  end.

Definition is_ok {A : Type} (m : result A) : bool :=
  match m with Ok _ => true | Raise _ => false end.

(** A float that may come from untrusted input. *)
Inductive pyfloat : Type :=
| Fin (q : Q)
| PosInf
| NegInf
| NaN.

(** [a <= b] on floats (IEEE: every comparison with NaN is false). *)
Definition fle (a b : pyfloat) : bool :=
  match a, b with
  | NaN, _ | _, NaN => false
  | NegInf, _ => true
  | _, PosInf => true
  | Fin x, Fin y => Qle_bool x y
  | _, _ => false
  end.

(** The chained comparison [lo <= x <= hi]. *)
Definition between (lo hi : Q) (x : pyfloat) : bool :=
  fle (Fin lo) x && fle x (Fin hi).

(** [a < b] on floats. *)
Definition flt (a b : pyfloat) : bool :=
  match a, b with
  | NaN, _ | _, NaN => false
  | PosInf, _ => false
  | _, NegInf => false
  | Fin x, Fin y => negb (Qle_bool y x)
  | _, _ => true
  end.

(** [a < b] and [a >= b] on rationals, as booleans. *)
Definition Qlt_bool (a b : Q) : bool := negb (Qle_bool b a).
Definition Qge_bool (a b : Q) : bool := Qle_bool b a.

(** The builtin [min(a, b)]: the first argument unless the second is
    strictly smaller. *)
Definition py_min (a b : Q) : Q := if Qlt_bool b a then b else a.

(** JSON documents as [json.loads] returns them. *)
Inductive json : Type :=
| JNull
| JBool (b : bool)
| JInt (z : Z)
| JFloat (f : pyfloat)
| JStr (s : string)
| JList (l : list json)
| JObj (d : gmap string json).

(** What the code takes from the interpreter and from third-party
    libraries. *)
Class PyRuntime : Type := {
  (** [str.lower], [str.upper], [str.isupper] *)
  str_lower : string -> string;
  str_upper : string -> string;
  str_isupper : string -> bool;
  (** [re.search(pattern, text) is not None] *)
  re_search : string -> string -> bool;
  (** [json.loads]; [None] stands for [JSONDecodeError] *)
  json_loads : string -> option json;
  (** the builtin [float(v)] on a JSON value *)
  py_float : json -> result pyfloat;
  (** the model library's coercion of a raw value to a [str] field, a
      [List[str]] field and an [Optional[float]] field; [None] stands for a
      validation error *)
  coerce_str : json -> option string;
  coerce_str_list : json -> option (list string);
  coerce_opt_float : json -> option (option pyfloat)
}.

End Py.
Export Py.

Notation "'let*' x ':=' m 'in' k" := (Py.bind m (fun x => k))
  (at level 10, x name, m at level 100, k at level 200, only parsing).

(** ** app/config.py *)

Module Config.

(** The fields of [Settings] that the modelled code reads. *)
Record Settings : Type := {
  WEBSOCKET_RECONNECT_DELAY : Z;
  MAX_RECONNECT_ATTEMPTS : Z;
  AI_ANALYSIS_TIMEOUT : Z;
  MIN_NOTIFICATION_SCORE : Q;
  MAX_CONCURRENT_ANALYSES : Z;
  CACHE_TTL_SECONDS : Z;
  NOTIFICATION_COOLDOWN_MINUTES : Z;
  DEBUG : bool
}.

(** The defaults declared in the class body. *)
Definition settings : Settings := {|
  WEBSOCKET_RECONNECT_DELAY := 5;
  MAX_RECONNECT_ATTEMPTS := 10;
  AI_ANALYSIS_TIMEOUT := 30;
  MIN_NOTIFICATION_SCORE := 7.0;
  MAX_CONCURRENT_ANALYSES := 5;
  CACHE_TTL_SECONDS := 300;
  NOTIFICATION_COOLDOWN_MINUTES := 30;
  DEBUG := false
|}.

End Config.

(** ** app/models.py *)

Module Models.
Section WithRuntime.
Context {rt : PyRuntime}.

Inductive TokenSource : Type :=
| ETHEREUM_WEBSOCKET | DEXSCREENER | DEXTOOLS | TELEGRAM | TWITTER | MANUAL.

Inductive AnalysisStatus : Type :=
| PENDING | PROCESSING | COMPLETED | FAILED | SKIPPED.

Inductive Recommendation : Type :=
| BUY | HOLD | AVOID | RESEARCH.

(** [Recommendation(value)]: the member with that value; [None] stands
    for the [ValueError] of an unknown value. *)
Definition Recommendation_of_value (value : string) : option Recommendation :=
  if String.eqb value "buy" then Some BUY
  else if String.eqb value "hold" then Some HOLD
  else if String.eqb value "avoid" then Some AVOID
  else if String.eqb value "research" then Some RESEARCH
  else None.

Record TokenInfo : Type := {
  contract_address : string;
  name : option string;
  symbol : option string;
  decimals : option Z;
  total_supply : option Q;
  price_usd : option Q;
  market_cap_usd : option Q;
  liquidity_usd : option Q;
  volume_24h_usd : option Q;
  price_change_24h : option Q;
  holder_count : option Z;
  transaction_count : option Z;
  creation_block : option Z;
  creation_timestamp : option Q;
  source : TokenSource;
  detected_at : Q
}.

(** [startswith('0x')] *)
Definition startswith_0x (v : string) : bool := String.prefix "0x" v.

(** The [validate_contract_address] validator: rejects, or lower-cases. *)
Definition validate_contract_address (v : string) : result string :=
  if String.eqb v "" || negb (Nat.eqb (String.length v) 42) || negb (startswith_0x v)
  then Raise ValidationError
  else Ok (str_lower v).

(** The [validate_positive_amounts] validator. *)
Definition validate_positive_amounts (v : option Q) : result (option Q) :=
  match v with
  | Some q => if Qlt_bool q 0 then Raise ValidationError else Ok v
  | None => Ok v
  end.

(** Construction of a [TokenInfo] from already typed fields: the
    validators run, in field order. *)
Definition TokenInfo_new (t : TokenInfo) : result TokenInfo :=
  let* addr := validate_contract_address (contract_address t) in
  let* _ := validate_positive_amounts (price_usd t) in
  let* _ := validate_positive_amounts (market_cap_usd t) in
  let* _ := validate_positive_amounts (liquidity_usd t) in
  let* _ := validate_positive_amounts (volume_24h_usd t) in
  Ok {| contract_address := addr;
        name := name t; symbol := symbol t; decimals := decimals t;
        total_supply := total_supply t; price_usd := price_usd t;
        market_cap_usd := market_cap_usd t; liquidity_usd := liquidity_usd t;
        volume_24h_usd := volume_24h_usd t; price_change_24h := price_change_24h t;
        holder_count := holder_count t; transaction_count := transaction_count t;
        creation_block := creation_block t; creation_timestamp := creation_timestamp t;
        source := source t; detected_at := detected_at t |}.

Record AIAnalysis : Type := {
  score : pyfloat;
  reasoning : string;
  risks : list string;
  opportunities : list string;
  recommendation : Recommendation;
  confidence : pyfloat;
  virality_score : option pyfloat;
  liquidity_score : option pyfloat;
  technical_score : option pyfloat;
  community_score : option pyfloat;
  model_used : string;
  analysis_duration : option Q;
  tokens_used : option Z
}.

(** A [Field(..., ge=lo, le=hi)] constraint on a float. *)
Definition field_ge_le (lo hi : Q) (v : pyfloat) : result pyfloat :=
  if between lo hi v then Ok v else Raise ValidationError.

(** The same constraint on an [Optional[float]] field. *)
Definition opt_field_ge_le (lo hi : Q) (v : option pyfloat) : result (option pyfloat) :=
  match v with
  | Some x => let* _ := field_ge_le lo hi x in Ok v
  | None => Ok v
  end.

(** The model library's verdict on a raw value, as a [result]. *)
Definition validated {A : Type} (o : option A) : result A :=
  match o with
  | Some a => Ok a
  | None => Raise ValidationError
  end.

(** [AIAnalysis(score=..., reasoning=..., ...)] as [_parse_ai_response]
    calls it: [reasoning], [risks], [opportunities] and the four detailed
    scores are raw JSON values (absent detailed scores are [None], absent
    lists are the default). *)
Definition AIAnalysis_new
    (score_ : pyfloat) (reasoning_ : json) (risks_ opportunities_ : option json)
    (recommendation_ : Recommendation) (confidence_ : pyfloat)
    (virality_ liquidity_ technical_ community_ : option json)
    (model_used_ : string) (analysis_duration_ : Q) (tokens_used_ : Z)
    : result AIAnalysis :=
  let list_field (raw : option json) : result (list string) :=
    match raw with
    | Some v => validated (coerce_str_list v)
    | None => Ok []
    end in
  let score_field (raw : option json) : result (option pyfloat) :=
    match raw with
    | Some v => let* f := validated (coerce_opt_float v) in opt_field_ge_le 0 10 f
    | None => Ok None
    end in
  let* s := field_ge_le 0 10 score_ in
  let* r := validated (coerce_str reasoning_) in
  let* rk := list_field risks_ in
  let* op := list_field opportunities_ in
  let* c := field_ge_le 0 1 confidence_ in
  let* vs := score_field virality_ in
  let* ls := score_field liquidity_ in
  let* ts := score_field technical_ in
  let* cs := score_field community_ in
  Ok {| score := s; reasoning := r; risks := rk; opportunities := op;
        recommendation := recommendation_; confidence := c;
        virality_score := vs; liquidity_score := ls;
        technical_score := ts; community_score := cs;
        model_used := model_used_;
        analysis_duration := Some analysis_duration_;
        tokens_used := Some tokens_used_ |}.

Record TokenAnalysis : Type := {
  token_info : TokenInfo;
  ai_analysis : option AIAnalysis;
  status : AnalysisStatus;
  error_message : option string;
  created_at : Q;
  updated_at : Q;
  analyzed_at : option Q;
  notification_sent : bool;
  notification_sent_at : option Q
}.

(** The [ai_score] property. *)
Definition ai_score (a : TokenAnalysis) : option pyfloat :=
  match ai_analysis a with
  | Some ai => Some (score ai)
  | None => None
  end.

(** [create_token_analysis(token_info)]; [utcnow] is the reading the two
    default factories take. *)
Definition create_token_analysis (t : TokenInfo) (utcnow : Q) : TokenAnalysis :=
  {| token_info := t; ai_analysis := None; status := PENDING;
     error_message := None; created_at := utcnow; updated_at := utcnow;
     analyzed_at := None; notification_sent := false;
     notification_sent_at := None |}.

End WithRuntime.
End Models.

(** ** app/models.py: derived properties *)

Module ModelsMore.
Import Models.

Inductive RiskLevel : Type :=
| LOW | MEDIUM | HIGH | CRITICAL.

(** [a >= b] for a float [a] and a literal [b]. *)
Definition fge (a : pyfloat) (b : Q) : bool := fle (Fin b) a.

(** The [risk_level] property of [AIAnalysis]. *)
Definition risk_level (a : AIAnalysis) : RiskLevel :=
  if fge (score a) 8 then LOW
  else if fge (score a) 6 then MEDIUM
  else if fge (score a) 4 then HIGH
  else CRITICAL.

(** The number the literal [0.7] denotes: the double nearest to seven
    tenths, which lies a little below.  ([7.0] and the thresholds of
    [risk_level] are doubles themselves.) *)
Definition double_0_7 : Q := 3152519739159347 # 4503599627370496.

(** The [is_high_potential] property. *)
Definition is_high_potential (a : AIAnalysis) : bool :=
  fge (score a) 7.0 && fge (confidence a) double_0_7.

Definition is_completed (s : AnalysisStatus) : bool :=
  match s with
  | COMPLETED => true
  | _ => false
  end.

(** The [should_notify] property of [TokenAnalysis]. *)
Definition should_notify (t : TokenAnalysis) : bool :=
  negb (notification_sent t)
  && match ai_analysis t with
     | Some ai => is_high_potential ai
     | None => false
     end
  && is_completed (status t).

(** [mark_notified]; the two readings of [datetime.utcnow()]. *)
Definition mark_notified (t : TokenAnalysis) (sent_at updated : Q) : TokenAnalysis :=
  {| token_info := token_info t;
     ai_analysis := ai_analysis t;
     status := status t;
     error_message := error_message t;
     created_at := created_at t;
     updated_at := updated;
     analyzed_at := analyzed_at t;
     notification_sent := true;
     notification_sent_at := Some sent_at |}.

(** The [age_hours] property of [TokenInfo] at the reading [utcnow]. *)
Definition age_hours (t : TokenInfo) (utcnow : Q) : option Q :=
  match creation_timestamp t with
  | Some ts => Some ((utcnow - ts) / 3600)
  | None => None
  end.

(** The [is_new_token] property. *)
Definition is_new_token (t : TokenInfo) (utcnow : Q) : bool :=
  match age_hours t utcnow with
  | Some age => Qlt_bool age 24
  | None => false
  end.

(** How bad a risk level is. *)
Definition severity (r : RiskLevel) : nat :=
  match r with
  | LOW => 0
  | MEDIUM => 1
  | HIGH => 2
  | CRITICAL => 3
  end.

End ModelsMore.

(** ** app/utils/validators.py *)

Module Validators.
Section WithRuntime.
Context {rt : PyRuntime}.

(** The regular expressions of [SUSPICIOUS_PATTERNS], in source order. *)
Definition SUSPICIOUS_PATTERNS : list string :=
  [ "(?i)\b(elon|musk|tesla|spacex|doge|shib|pepe)\b";
    "(?i)\b(moon|rocket|lambo|diamond|hands)\b";
    "(?i)\b(safe|baby|mini|micro|nano)\b";
    "(?i)\b(inu|coin|token|finance|swap)\b";
    "(?i)\b(pump|dump|scam|rug|pull)\b";
    "[\u200b-\u200f\u2060-\u206f]";
    "[\u0300-\u036f]";
    "[\u2000-\u206f]";
    "(.)\1{4,}";
    "\b(\w+)\s+\1\b";
    "(?i)\b(uniswap|pancake|sushi|compound|aave|maker)\b";
    "(?i)\b(bitcoin|ethereum|binance|coinbase|kraken)\b";
    "\d{10,}";
    "\b(420|69|1337|9999)\b";
    "(?i)\b(revolutionary|innovative|disruptive|game.?changer)\b";
    "(?i)\b(guaranteed|profit|returns|investment)\b";
    "(?i)\b(exclusive|limited|presale|whitelist)\b" ].

(** [detect_suspicious_patterns(text)]: the patterns that match, and
    whether there is one. *)
Definition detect_suspicious_patterns (text : string) : bool * list string :=
  if String.eqb text "" then (false, [])
  else
    let matched_patterns :=
      List.filter (fun pattern => re_search pattern text) SUSPICIOUS_PATTERNS in
    (Nat.ltb 0 (length matched_patterns), matched_patterns).

Definition len (s : string) : Z := Z.of_nat (String.length s).

(** One [if cond: score += w] statement. *)
Definition add_if (cond : bool) (w : Q) (score : Q) : Q :=
  if cond then score + w else score.

(** [calculate_suspicion_score(name, symbol, description)]. *)
Definition calculate_suspicion_score (name symbol description : string) : Q :=
  let score := 0 in
  let '(name_suspicious, name_patterns) := detect_suspicious_patterns name in
  let score := add_if name_suspicious (inject_Z (Z.of_nat (length name_patterns)) * 1.5) score in
  let '(symbol_suspicious, symbol_patterns) := detect_suspicious_patterns symbol in
  let score := add_if symbol_suspicious (inject_Z (Z.of_nat (length symbol_patterns)) * 2.0) score in
  let score :=
    if String.eqb description "" then score
    else
      let '(desc_suspicious, desc_patterns) := detect_suspicious_patterns description in
      add_if desc_suspicious (inject_Z (Z.of_nat (length desc_patterns)) * 1.0) score in
  let score := add_if ((len name <? 3)%Z || (50 <? len name)%Z) 1.0 score in
  let score := add_if ((len symbol <? 2)%Z || (10 <? len symbol)%Z) 1.5 score in
  let score := add_if (str_isupper name && (5 <? len name)%Z) 0.5 score in
  let score := add_if (re_search "\d" symbol) 1.0 score in
  let score := add_if (re_search "[^a-zA-Z0-9]" symbol) 1.5 score in
  py_min score 10.0.

End WithRuntime.
End Validators.

(** ** app/gpt_analyzer.py *)

Module Analyzer.
Import Models.
Section WithRuntime.
Context {rt : PyRuntime}.

(** The dictionary [_call_openai_api] builds from a response:
    [content] (which the client library may leave [None]), [tokens_used]
    and [model]. *)
Record ai_result : Type := {
  content : option string;
  tokens_used_ : Z;
  model : string
}.

(** What the awaited call to the scoring collaborator does: it yields a
    response, or an exception comes out of [asyncio.wait_for]. *)
Inductive api_outcome : Type :=
| ApiReturns (r : ai_result)
| ApiRaises (e : exn).

Record GPTAnalyzerService : Type := {
  model_name : string;
  analyses_completed : Z;
  total_tokens_used : Z;
  total_cost_usd : Q;
  average_analysis_time : Q;
  last_analysis_time : option Q;
  _analysis_cache : gmap string (AIAnalysis * Q);
  _cache_ttl : Z
}.

(** [GPTAnalyzerService.__init__]. *)
Definition init (s : Config.Settings) (openai_model : string) : GPTAnalyzerService :=
  {| model_name := openai_model;
     analyses_completed := 0;
     total_tokens_used := 0;
     total_cost_usd := 0;
     average_analysis_time := 0;
     last_analysis_time := None;
     _analysis_cache := ∅;
     _cache_ttl := Config.CACHE_TTL_SECONDS s |}.

Definition set_cache (self : GPTAnalyzerService)
    (c : gmap string (AIAnalysis * Q)) : GPTAnalyzerService :=
  {| model_name := model_name self;
     analyses_completed := analyses_completed self;
     total_tokens_used := total_tokens_used self;
     total_cost_usd := total_cost_usd self;
     average_analysis_time := average_analysis_time self;
     last_analysis_time := last_analysis_time self;
     _analysis_cache := c;
     _cache_ttl := _cache_ttl self |}.

(** [_call_openai_api]: every [except] branch logs and returns [None]. *)
Definition _call_openai_api (o : api_outcome) : option ai_result :=
  match o with
  | ApiReturns r => Some r
  | ApiRaises TimeoutError => None
  | ApiRaises RateLimitError => None
  | ApiRaises APIError => None
  | ApiRaises _ => None
  end.

Definition required_fields : list string :=
  ["score"; "reasoning"; "recommendation"; "confidence"].

(** [data[key]] on a dictionary. *)
Definition getitem (data : gmap string json) (key : string) : result json :=
  match data !! key with
  | Some v => Ok v
  | None => Raise KeyError
  end.

(** The [try] block of [_parse_ai_response].  [Ok None] is an explicit
    [return None]; [Raise e] is an exception on its way to the handlers. *)
Definition parse_try (self : GPTAnalyzerService) (r : ai_result)
    (start_time now : Q) : result (option AIAnalysis) :=
  let* text :=
    match content r with
    | Some c => Ok c
    | None => Raise TypeError
    end in
  let* parsed :=
    match json_loads text with
    | Some d => Ok d
    | None => Raise JSONDecodeError
    end in
  match parsed with
  | JObj data =>
      if negb (forallb (fun field => bool_decide (is_Some (data !! field)))
                       required_fields)
      then Ok None
      else
        let* raw_score := getitem data "score" in
        let* score := py_float raw_score in
        if negb (between 0 10 score) then Ok None
        else
          let* raw_confidence := getitem data "confidence" in
          let* confidence := py_float raw_confidence in
          if negb (between 0 1 confidence) then Ok None
          else
            let* raw_recommendation := getitem data "recommendation" in
            let* recommendation_str :=
              match raw_recommendation with
              | JStr s => Ok (str_upper s)
              | _ => Raise AttributeError
              end in
            let recommendation :=
              match Recommendation_of_value (str_lower recommendation_str) with
              | Some v => v
              | None => RESEARCH
              end in
            let* raw_reasoning := getitem data "reasoning" in
            let* analysis :=
              AIAnalysis_new score raw_reasoning
                (data !! "risks") (data !! "opportunities")
                recommendation confidence
                (data !! "virality_score") (data !! "liquidity_score")
                (data !! "technical_score") (data !! "community_score")
                (model r) (now - start_time) (tokens_used_ r) in
            Ok (Some analysis)
  | _ =>
      (* not a dictionary: either the membership test reports a missing
         field, or subscripting with a string raises *)
      Raise TypeError
  end.

(** [_parse_ai_response]: the three handlers all return [None]. *)
Definition _parse_ai_response (self : GPTAnalyzerService) (r : ai_result)
    (start_time now : Q) : option AIAnalysis :=
  match parse_try self r start_time now with
  | Ok a => a
  | Raise JSONDecodeError => None
  | Raise ValueError => None
  | Raise KeyError => None
  | Raise _ => None
  end.

(** [_get_cached_analysis]: a fresh entry is returned, a stale one is
    deleted. *)
Definition _get_cached_analysis (self : GPTAnalyzerService)
    (contract_address : string) (now : Q)
    : option AIAnalysis * GPTAnalyzerService :=
  let cache_key := str_lower contract_address in
  match _analysis_cache self !! cache_key with
  | Some (cached_analysis, timestamp) =>
      if Qlt_bool (now - timestamp) (inject_Z (_cache_ttl self))
      then (Some cached_analysis, self)
      else (None, set_cache self (delete cache_key (_analysis_cache self)))
  | None => (None, self)
  end.

(** [_cleanup_cache]: drops the entries whose age has reached the TTL. *)
Definition _cleanup_cache (self : GPTAnalyzerService) (current_time : Q)
    : GPTAnalyzerService :=
  set_cache self
    (filter (fun kv : string * (AIAnalysis * Q) =>
               Qge_bool (current_time - snd (snd kv))
                        (inject_Z (_cache_ttl self)) = false)
            (_analysis_cache self)).

(** [_cache_analysis]; [now] and [cleanup_time] are the two readings of
    [time.time()]. *)
Definition _cache_analysis (self : GPTAnalyzerService)
    (contract_address : string) (analysis : AIAnalysis) (now cleanup_time : Q)
    : GPTAnalyzerService :=
  let cache_key := str_lower contract_address in
  let self := set_cache self (<[cache_key := (analysis, now)]> (_analysis_cache self)) in
  if (1000 <? Z.of_nat (size (_analysis_cache self)))%Z
  then _cleanup_cache self cleanup_time
  else self.

(** [_update_stats].  The two counters are integers.  The cost and the
    running mean are written with the exact values of their expressions,
    which the code evaluates in double precision: they stand for the
    rounded values, and no statement is made about them. *)
Definition _update_stats (self : GPTAnalyzerService) (analysis : AIAnalysis)
    (start_time now utcnow : Q) : GPTAnalyzerService :=
  let completed := (analyses_completed self + 1)%Z in
  let used := default 0%Z (tokens_used analysis) in
  let cost :=
    if (used =? 0)%Z then total_cost_usd self
    else total_cost_usd self + (inject_Z used / 1000) * 0.00003 in
  let analysis_time := now - start_time in
  let average :=
    if Qeq_bool (average_analysis_time self) 0 then analysis_time
    else (average_analysis_time self * inject_Z (completed - 1) + analysis_time)
         / inject_Z completed in
  {| model_name := model_name self;
     analyses_completed := completed;
     total_tokens_used := (total_tokens_used self + used)%Z;
     total_cost_usd := cost;
     average_analysis_time := average;
     last_analysis_time := Some utcnow;
     _analysis_cache := _analysis_cache self;
     _cache_ttl := _cache_ttl self |}.

(** The readings of the clocks during one call of [analyze_token], in
    the order the code takes them. *)
Record clock : Type := {
  t_start : Q;
  utc_created : Q;
  t_lookup : Q;
  t_parsed : Q;
  utc_analyzed : Q;
  t_cached : Q;
  t_cleanup : Q;
  t_stats : Q;
  utc_stats : Q
}.

Definition set_outcome (analysis : TokenAnalysis) (ai : option AIAnalysis)
    (st : AnalysisStatus) (err : option string) (at_ : option Q) : TokenAnalysis :=
  {| token_info := token_info analysis;
     ai_analysis := ai;
     status := st;
     error_message := err;
     created_at := created_at analysis;
     updated_at := updated_at analysis;
     analyzed_at := at_;
     notification_sent := notification_sent analysis;
     notification_sent_at := notification_sent_at analysis |}.

(** [analyze_token].  The third component counts the requests made to the
    scoring collaborator.  Nothing in the [try] block raises on a typed
    [TokenInfo], so the outer handler is not reached. *)
Definition analyze_token (self : GPTAnalyzerService) (token_info : TokenInfo)
    (api : api_outcome) (clk : clock)
    : TokenAnalysis * GPTAnalyzerService * nat :=
  let start_time := t_start clk in
  let analysis := create_token_analysis token_info (utc_created clk) in
  let analysis := set_outcome analysis None PROCESSING None None in
  let '(cached_result, self) :=
    _get_cached_analysis self (contract_address token_info) (t_lookup clk) in
  match cached_result with
  | Some cached =>
      (set_outcome analysis (Some cached) COMPLETED None (Some (utc_analyzed clk)),
       self, 0%nat)
  | None =>
      match _call_openai_api api with
      | Some ai_result =>
          match _parse_ai_response self ai_result start_time (t_parsed clk) with
          | Some ai_analysis =>
              let analysis :=
                set_outcome analysis (Some ai_analysis) COMPLETED None
                            (Some (utc_analyzed clk)) in
              let self :=
                _cache_analysis self (contract_address token_info) ai_analysis
                                (t_cached clk) (t_cleanup clk) in
              let self :=
                _update_stats self ai_analysis start_time (t_stats clk) (utc_stats clk) in
              (analysis, self, 1%nat)
          | None =>
              (set_outcome analysis None FAILED
                 (Some "Erreur lors du parsing de la réponse IA") None,
               self, 1%nat)
          end
      | None =>
          (set_outcome analysis None FAILED
             (Some "Erreur lors de l'appel à l'API OpenAI") None,
           self, 1%nat)
      end
  end.

(** *** Vocabulary of the properties *)

(** The scoring step yields nothing: the call raised (a timeout, for
    one), or its answer did not pass [_parse_ai_response]. *)
Definition scoring_fails (self : GPTAnalyzerService) (api : api_outcome)
    (start_time now : Q) : Prop :=
  _call_openai_api api = None \/
  exists r, _call_openai_api api = Some r /\
            _parse_ai_response self r start_time now = None.

(** The recommendation [_parse_ai_response] settles on for the string
    found in the answer. *)
Definition coerced (recommendation_str : string) : Recommendation :=
  default RESEARCH (Recommendation_of_value (str_lower (str_upper recommendation_str))).

(** [_parse_ai_response] on an answer that decodes to a dictionary, as
    one nest of matches. *)
Definition on_dict (data : gmap string json) (mu : string) (ad : Q) (tu : Z)
    : option AIAnalysis :=
  match data !! "score", data !! "reasoning",
        data !! "recommendation", data !! "confidence" with
  | Some rs, Some rr, Some rrec, Some rc =>
      match py_float rs with
      | Ok sc =>
          if between 0 10 sc then
            match py_float rc with
            | Ok cf =>
                if between 0 1 cf then
                  match rrec with
                  | JStr str =>
                      match AIAnalysis_new sc rr (data !! "risks")
                              (data !! "opportunities") (coerced str) cf
                              (data !! "virality_score") (data !! "liquidity_score")
                              (data !! "technical_score") (data !! "community_score")
                              mu ad tu with
                      | Ok a => Some a
                      | Raise _ => None
                      end
                  | _ => None
                  end
                else None
            | Raise _ => None
            end
          else None
      | Raise _ => None
      end
  | _, _, _, _ => None
  end.

End WithRuntime.
End Analyzer.

(** ** app/websocket_listener.py *)

Module Listener.
Import Models.
Section WithRuntime.
Context {rt : PyRuntime}.

Record EthereumWebSocketListener : Type := {
  is_running : bool;
  websocket_set : bool;
  reconnect_attempts : Z;
  max_reconnect_attempts : Z;
  reconnect_delay : Z;
  contracts_detected : Z;
  tokens_processed : Z
}.

(** [EthereumWebSocketListener.__init__]. *)
Definition init (s : Config.Settings) : EthereumWebSocketListener :=
  {| is_running := false;
     websocket_set := false;
     reconnect_attempts := 0;
     max_reconnect_attempts := Config.MAX_RECONNECT_ATTEMPTS s;
     reconnect_delay := Config.WEBSOCKET_RECONNECT_DELAY s;
     contracts_detected := 0;
     tokens_processed := 0 |}.

Definition set_running (self : EthereumWebSocketListener) (b : bool) :=
  {| is_running := b;
     websocket_set := websocket_set self;
     reconnect_attempts := reconnect_attempts self;
     max_reconnect_attempts := max_reconnect_attempts self;
     reconnect_delay := reconnect_delay self;
     contracts_detected := contracts_detected self;
     tokens_processed := tokens_processed self |}.

Definition set_attempts (self : EthereumWebSocketListener) (n : Z) :=
  {| is_running := is_running self;
     websocket_set := websocket_set self;
     reconnect_attempts := n;
     max_reconnect_attempts := max_reconnect_attempts self;
     reconnect_delay := reconnect_delay self;
     contracts_detected := contracts_detected self;
     tokens_processed := tokens_processed self |}.

(** Entering the [async with websockets.connect(...)] body:
    [self.websocket = websocket; self.reconnect_attempts = 0]. *)
Definition connected (self : EthereumWebSocketListener) :=
  {| is_running := is_running self;
     websocket_set := true;
     reconnect_attempts := 0;
     max_reconnect_attempts := max_reconnect_attempts self;
     reconnect_delay := reconnect_delay self;
     contracts_detected := contracts_detected self;
     tokens_processed := tokens_processed self |}.

(** What the node does to one connection attempt. *)
Inductive connect_outcome : Type :=
| ConnectRaises (e : exn)   (* [websockets.connect] raises: no session *)
| SessionRaises (e : exn)   (* connected; [e] raised while subscribing or listening *)
| SessionEnds.              (* connected; the message stream ends *)

(** [_connect_and_listen]: [ConnectionClosed] and [InvalidStatusCode] are
    logged and absorbed, any other exception is logged and raised again. *)
Definition _connect_and_listen (self : EthereumWebSocketListener)
    (o : connect_outcome) : EthereumWebSocketListener * result unit :=
  let '(self, r) :=
    match o with
    | ConnectRaises e => (self, Raise e)
    | SessionRaises e => (connected self, Raise e)
    | SessionEnds => (connected self, Ok tt)
    end in
  match r with
  | Ok _ => (self, Ok tt)
  | Raise ConnectionClosed => (self, Ok tt)
  | Raise InvalidStatusCode => (self, Ok tt)
  | Raise e => (self, Raise e)
  end.

(** One turn of the [while] loop of [start]: what the connection attempt
    does, and whether [stop()] runs at one of the turn's suspension
    points. *)
Record cycle : Type := {
  outcome : connect_outcome;
  stop_called : bool
}.

Definition after_cycle (c : cycle) (self : EthereumWebSocketListener) :=
  if stop_called c then set_running self false else self.

(** How a run of the loop ends. *)
Inductive loop_exit : Type :=
| Looping      (* the script is used up, the loop is still alive *)
| Stopped      (* [is_running] was false at the loop head *)
| GaveUp.      (* the [break] after the last permitted attempt *)

(** The [while self.is_running] loop of [start], run against a script of
    connection attempts.  The list is the sequence of [asyncio.sleep]
    delays. *)
Fixpoint start_loop (self : EthereumWebSocketListener) (script : list cycle)
    : EthereumWebSocketListener * list Z * loop_exit :=
  match script with
  | [] => (self, [], if is_running self then Looping else Stopped)
  | c :: rest =>
      if negb (is_running self) then (self, [], Stopped)
      else
        let '(self, r) := _connect_and_listen self (outcome c) in
        match r with
        | Ok _ => start_loop (after_cycle c self) rest
        | Raise _ =>
            if (reconnect_attempts self <? max_reconnect_attempts self)%Z
            then
              let self := set_attempts self (reconnect_attempts self + 1) in
              let wait_time := (reconnect_delay self * reconnect_attempts self)%Z in
              let '(final, sleeps, ex) := start_loop (after_cycle c self) rest in
              (final, wait_time :: sleeps, ex)
            else (self, [], GaveUp)
        end
  end.

(** [start]. *)
Definition start (self : EthereumWebSocketListener) (script : list cycle) :=
  start_loop (set_running self true) script.

(** *** The ERC20 probe *)

(** A value returned by a contract call. *)
Inductive pyval : Type :=
| VStr (s : string)
| VInt (z : Z)
| VBool (b : bool)
| VBytes (s : string)
| VNone.

(** [isinstance(v, str)] with the string. *)
Definition as_str (v : pyval) : option string :=
  match v with
  | VStr s => Some s
  | _ => None
  end.

(** [isinstance(v, int)] with the integer ([bool] is a subclass of [int]). *)
Definition as_int (v : pyval) : option Z :=
  match v with
  | VInt z => Some z
  | VBool b => Some (if b then 1 else 0)%Z
  | _ => None
  end.

(** The contract's answers to the four calls, which are made in this
    order until one raises. *)
Record erc20_calls : Type := {
  call_name : result pyval;
  call_symbol : result pyval;
  call_decimals : result pyval;
  call_totalSupply : result pyval
}.

(** The HTTP provider: [Web3.to_checksum_address] ([None] when it raises)
    and the contract at a checksummed address. *)
Record Web3 : Type := {
  to_checksum_address : string -> option string;
  contract : string -> erc20_calls
}.

(** The "Vérifications de base" on the four returned values. *)
Definition basic_checks (name symbol decimals total_supply : pyval) : bool :=
  match as_str name, as_str symbol, as_int decimals, as_int total_supply with
  | Some n, Some s, Some d, Some t =>
      (0 <? Z.of_nat (String.length n))%Z && (0 <? Z.of_nat (String.length s))%Z
      && ((0 <=? d)%Z && (d <=? 18)%Z) && (0 <? t)%Z
  | _, _, _, _ => false
  end.

(** The inner [try] block, with the exception that leaves it. *)
Definition probe_try (c : erc20_calls) : result bool :=
  let* name := call_name c in
  let* symbol := call_symbol c in
  let* decimals := call_decimals c in
  let* total_supply := call_totalSupply c in
  Ok (basic_checks name symbol decimals total_supply).

(** [_is_erc20_token]. *)
Definition _is_erc20_token (web3 : option Web3) (contract_address : string) : bool :=
  match web3 with
  | None => false
  | Some w =>
      match to_checksum_address w contract_address with
      | None => false                       (* outer [except Exception] *)
      | Some checksummed =>
          match probe_try (contract w checksummed) with
          | Ok verdict => verdict
          | Raise ContractLogicError => false
          | Raise _ => false                (* outer [except Exception] *)
          end
      end
  end.

(** *** Hand-off of a detected token *)

Record transaction : Type := {
  tx_hash : string;
  tx_to : option string;
  tx_input : option string;
  tx_blockNumber : option Z
}.

(** [_is_contract_creation]. *)
Definition _is_contract_creation (tx : transaction) : bool :=
  match tx_to tx, tx_input tx with
  | None, Some input => (2 <? Z.of_nat (String.length input))%Z
  | _, _ => false
  end.

(** The collaborators injected into the listener. *)
Record services : Type := {
  token_exists : string -> result bool;                 (* [db] *)
  save_token_analysis : TokenAnalysis -> result unit;   (* [db] *)
  scan_token : string -> result (option TokenInfo);     (* [token_scanner] *)
  send_alert : TokenAnalysis -> result unit             (* [notifier] *)
}.

Definition bump_tokens_processed (self : EthereumWebSocketListener) :=
  {| is_running := is_running self;
     websocket_set := websocket_set self;
     reconnect_attempts := reconnect_attempts self;
     max_reconnect_attempts := max_reconnect_attempts self;
     reconnect_delay := reconnect_delay self;
     contracts_detected := contracts_detected self;
     tokens_processed := (tokens_processed self + 1)%Z |}.

(** The [try] block of [_handle_new_erc20_token]: the [TokenInfo] handed
    to [asyncio.create_task(self._analyze_token_async(token_info))], or
    [None] after the early [return]. *)
Definition handle_try (svc : services) (contract_address : string)
    (tx : transaction) (utcnow : Q) : result (option TokenInfo) :=
  let* exists_ := token_exists svc contract_address in
  if exists_ then Ok None
  else
    let* token_info :=
      TokenInfo_new
        {| contract_address := contract_address;
           name := None; symbol := None; decimals := None;
           total_supply := None; price_usd := None; market_cap_usd := None;
           liquidity_usd := None; volume_24h_usd := None;
           price_change_24h := None; holder_count := None;
           transaction_count := None;
           creation_block := tx_blockNumber tx;
           creation_timestamp := Some utcnow;
           source := ETHEREUM_WEBSOCKET;
           detected_at := utcnow |} in
    Ok (Some token_info).

(** [_handle_new_erc20_token]: the listener afterwards, and the analysis
    task it created, if any. *)
Definition _handle_new_erc20_token (self : EthereumWebSocketListener)
    (svc : services) (contract_address : string) (tx : transaction) (utcnow : Q)
    : EthereumWebSocketListener * option TokenInfo :=
  let self := bump_tokens_processed self in
  match handle_try svc contract_address tx utcnow with
  | Ok task => (self, task)
  | Raise _ => (self, None)
  end.

(** What [_analyze_token_async] did to the outside world. *)
Record effects : Type := {
  saved : list TokenAnalysis;     (* [db.save_token_analysis] calls *)
  alerts : list TokenAnalysis;    (* [notifier.send_alert] calls *)
  api_calls : nat;                (* requests to the scoring collaborator *)
  logged : option exn             (* the exception the handler logged *)
}.

(** [a >= b] between the [ai_score] property and the threshold: ordering
    [None] against a float is a [TypeError]. *)
Definition score_ge (a : option pyfloat) (b : Q) : result bool :=
  match a with
  | Some x => Ok (fle (Fin b) x)
  | None => Raise TypeError
  end.

(** The three assignments that copy the origin of the detection onto the
    scanned token. *)
Definition with_origin (complete token_info : TokenInfo) : TokenInfo :=
  {| contract_address := contract_address complete;
     name := name complete; symbol := symbol complete;
     decimals := decimals complete; total_supply := total_supply complete;
     price_usd := price_usd complete; market_cap_usd := market_cap_usd complete;
     liquidity_usd := liquidity_usd complete;
     volume_24h_usd := volume_24h_usd complete;
     price_change_24h := price_change_24h complete;
     holder_count := holder_count complete;
     transaction_count := transaction_count complete;
     creation_block := creation_block token_info;
     creation_timestamp := creation_timestamp token_info;
     source := source token_info;
     detected_at := detected_at complete |}.

(** [_analyze_token_async]. *)
Definition _analyze_token_async (svc : services) (cfg : Config.Settings)
    (gpt : Analyzer.GPTAnalyzerService) (token_info : TokenInfo)
    (api : Analyzer.api_outcome) (clk : Analyzer.clock)
    : Analyzer.GPTAnalyzerService * effects :=
  match scan_token svc (contract_address token_info) with
  | Raise e => (gpt, {| saved := []; alerts := []; api_calls := 0; logged := Some e |})
  | Ok None => (gpt, {| saved := []; alerts := []; api_calls := 0; logged := None |})
  | Ok (Some complete) =>
      let complete_token_info := with_origin complete token_info in
      let '(analysis, gpt, n) :=
        Analyzer.analyze_token gpt complete_token_info api clk in
      match save_token_analysis svc analysis with
      | Raise e =>
          (gpt, {| saved := [analysis]; alerts := []; api_calls := n; logged := Some e |})
      | Ok _ =>
          match score_ge (ai_score analysis) (Config.MIN_NOTIFICATION_SCORE cfg) with
          | Raise e =>
              (gpt, {| saved := [analysis]; alerts := []; api_calls := n;
                       logged := Some e |})
          | Ok false =>
              (gpt, {| saved := [analysis]; alerts := []; api_calls := n;
                       logged := None |})
          | Ok true =>
              match send_alert svc analysis with
              | Raise e =>
                  (gpt, {| saved := [analysis]; alerts := [analysis];
                           api_calls := n; logged := Some e |})
              | Ok _ =>
                  (gpt, {| saved := [analysis]; alerts := [analysis];
                           api_calls := n; logged := None |})
              end
          end
      end
  end.

(** *** Vocabulary of the properties *)

(** A connection attempt that fails before a session exists, with no
    [stop()] in the meantime. *)
Definition failing (e : exn) : cycle :=
  {| outcome := ConnectRaises e; stop_called := false |}.

(** A connection attempt that succeeds and a session that fails
    afterwards, while subscribing or listening, with no [stop()] in the
    meantime. *)
Definition failing_session (e : exn) : cycle :=
  {| outcome := SessionRaises e; stop_called := false |}.

(** The exceptions [_connect_and_listen] lets through to [start]. *)
Definition propagates (e : exn) : Prop :=
  e <> ConnectionClosed /\ e <> InvalidStatusCode.

Fixpoint nondecreasing (l : list Z) : Prop :=
  match l with
  | a :: (b :: _) as rest => (a <= b)%Z /\ nondecreasing rest
  | _ => True
  end.

(** All four interface calls succeed on the probed contract and the
    returned values pass the checks. *)
Definition probe_accepts (web3 : option Web3) (contract_address : string) : Prop :=
  exists w a vn vs vd vt n s d t,
    web3 = Some w /\ to_checksum_address w contract_address = Some a /\
    call_name (contract w a) = Ok vn /\
    call_symbol (contract w a) = Ok vs /\
    call_decimals (contract w a) = Ok vd /\
    call_totalSupply (contract w a) = Ok vt /\
    as_str vn = Some n /\ n <> "" /\
    as_str vs = Some s /\ s <> "" /\
    as_int vd = Some d /\ (0 <= d <= 18)%Z /\
    as_int vt = Some t /\ (0 < t)%Z.

(** One of the four interface calls raises. *)
Definition some_call_fails (c : erc20_calls) : Prop :=
  is_ok (call_name c) = false \/ is_ok (call_symbol c) = false \/
  is_ok (call_decimals c) = false \/ is_ok (call_totalSupply c) = false.

End WithRuntime.
End Listener.

(** ** app/telegram_notifier.py *)

Module Notifier.
Import Models.
Section WithFormatters.

(** [AnalysisResult] is imported from [app.models], which does not
    declare it; the only attribute the control flow reads is
    [overall_score]. *)
Context {AnalysisResult : Type} (overall_score : AnalysisResult -> pyfloat).

(** The three message formatters build text from their arguments and the
    wall clock; [_format_token_notification] can raise.  The methods below
    are written for any formatters; the token formatter of the source is
    [NotifierFormat._format_token_notification]. *)
Context {Status : Type}
  (_format_token_notification : TokenInfo -> AnalysisResult -> Q -> result string)
  (_format_alert_message : string -> string -> string -> Q -> string)
  (_format_system_status : Status -> Q -> string).

(** An entry of [message_queue]. *)
Record queued : Type := {
  message : string;
  priority : string;
  timestamp : Q
}.

Record TelegramNotifierService : Type := {
  chat_ids : list string;
  message_queue : list queued;     (* [asyncio.Queue()]: first in, first out *)
  is_running : bool
}.

(** [TelegramNotifierService.__init__]. *)
Definition init (chats : list string) : TelegramNotifierService :=
  {| chat_ids := chats; message_queue := []; is_running := false |}.

Definition set_queue (self : TelegramNotifierService) (q : list queued) :=
  {| chat_ids := chat_ids self; message_queue := q; is_running := is_running self |}.

Definition set_running (self : TelegramNotifierService) (b : bool) :=
  {| chat_ids := chat_ids self; message_queue := message_queue self; is_running := b |}.

(** [_queue_message]: [put] appends at the tail. *)
Definition _queue_message (self : TelegramNotifierService)
    (msg prio : string) (now : Q) : TelegramNotifierService :=
  set_queue self
    (message_queue self ++ [{| message := msg; priority := prio; timestamp := now |}])%list.

(** [notify_new_token]. *)
Definition notify_new_token (cfg : Config.Settings) (self : TelegramNotifierService)
    (token_info : TokenInfo) (analysis_result : AnalysisResult) (now : Q)
    : TelegramNotifierService :=
  if flt (overall_score analysis_result) (Fin (Config.MIN_NOTIFICATION_SCORE cfg))
  then self
  else
    match _format_token_notification token_info analysis_result now with
    | Ok msg => _queue_message self msg "normal" now
    | Raise _ => self
    end.

(** [notify_alert]. *)
Definition notify_alert (self : TelegramNotifierService)
    (title msg prio : string) (now : Q) : TelegramNotifierService :=
  let alert_message := _format_alert_message title msg prio now in
  _queue_message self alert_message
    (if String.eqb prio "critical" then "high" else "normal") now.

(** [notify_system_status]. *)
Definition notify_system_status (self : TelegramNotifierService)
    (st : Status) (now : Q) : TelegramNotifierService :=
  _queue_message self (_format_system_status st now) "low" now.

(** [_send_message_to_all_chats]: one [sendMessage] request per chat;
    [_send_message] absorbs every failure. *)
Definition _send_message_to_all_chats (self : TelegramNotifierService)
    (msg : string) : list (string * string) :=
  List.map (fun chat_id => (chat_id, msg)) (chat_ids self).

(** One turn of the [while] loop of [_message_worker] with no producer
    running in between: [get] takes the head of the queue; on an empty
    queue [wait_for] times out and the loop continues. *)
Definition worker_turn (self : TelegramNotifierService)
    : TelegramNotifierService * list (string * string) :=
  match message_queue self with
  | [] => (self, [])
  | message_data :: rest =>
      (set_queue self rest, _send_message_to_all_chats self (message message_data))
  end.

(** [_message_worker] for at most [turns] turns of its loop. *)
Fixpoint _message_worker (turns : nat) (self : TelegramNotifierService)
    : TelegramNotifierService * list (string * string) :=
  match turns with
  | O => (self, [])
  | S n =>
      if negb (is_running self) then (self, [])
      else
        let '(self, sent) := worker_turn self in
        let '(final, more) := _message_worker n self in
        (final, (sent ++ more)%list)
  end.

(** The rank the specification gives to a priority tag
    (critical > normal > low); [notify_alert] tags a critical alert
    ["high"]. *)
Definition rank (prio : string) : Z :=
  if String.eqb prio "high" || String.eqb prio "critical" then 2
  else if String.eqb prio "normal" then 1
  else 0.

End WithFormatters.
End Notifier.

(** ** app/telegram_notifier.py: the token message *)

Module NotifierFormat.
Import Models.
Section WithHelpers.

Context {AnalysisResult : Type} (overall_score : AnalysisResult -> pyfloat).

(** [get_score_emoji] and [get_price_change_emoji] are imported from
    [app.utils.helpers], which does not declare them, and the lines about
    the analysis are built from attributes of [AnalysisResult], which is
    not declared either: they are taken as they come, with the exception
    they may raise.  The texts built from the token alone are total:
    [format_usd] and [format_percentage] answer for [None] too. *)
Context (get_score_emoji : pyfloat -> result string)
        (get_price_change_emoji : option Q -> result string)
        (score_lines : AnalysisResult -> string -> result string)
        (detail_lines : AnalysisResult -> result string)
        (token_lines : TokenInfo -> string -> string)
        (market_lines : TokenInfo -> string -> string)
        (age_line : Q -> string)
        (links : TokenInfo -> option string -> string)
        (footer : TokenInfo -> Q -> string).

(** The line with [f"{token_info.age_hours:.1f}h"]: [None] has no such
    format. *)
Definition age_text (age_hours : option Q) : result string :=
  match age_hours with
  | Some age => Ok (age_line age)
  | None => Raise TypeError
  end.

(** [token_info.dex_pair_address]: [TokenInfo] declares no such field, and
    reading an attribute that a model does not have raises. *)
Definition dex_pair_address (token_info : TokenInfo) : result (option string) :=
  Raise AttributeError.

(** [_format_token_notification]; [now] is the reading of the clock. *)
Definition _format_token_notification (token_info : TokenInfo)
    (analysis_result : AnalysisResult) (now : Q) : result string :=
  let* score_emoji := get_score_emoji (overall_score analysis_result) in
  let* price_emoji := get_price_change_emoji (price_change_24h token_info) in
  let message := token_lines token_info score_emoji in
  let* scores := score_lines analysis_result score_emoji in
  let message := message ++ scores ++ market_lines token_info price_emoji in
  let* age := age_text (ModelsMore.age_hours token_info now) in
  let message := message ++ age in
  let* details := detail_lines analysis_result in
  let message := message ++ details in
  let* pair_address := dex_pair_address token_info in
  let message := message ++ links token_info pair_address in
  Ok (message ++ footer token_info now).

End WithHelpers.
End NotifierFormat.

(** ** app/dexscanner.py *)

Module Dexscanner.

Record DexscannerService : Type := {
  rate_limiter : nat;            (* free permits of [asyncio.Semaphore(5)] *)
  last_request_time : Q;
  min_request_interval : Q
}.

(** [DexscannerService.__init__]. *)
Definition init : DexscannerService :=
  {| rate_limiter := 5; last_request_time := 0; min_request_interval := 1.0 |}.

Definition set_last (self : DexscannerService) (t : Q) : DexscannerService :=
  {| rate_limiter := rate_limiter self;
     last_request_time := t;
     min_request_interval := min_request_interval self |}.

Definition set_permits (self : DexscannerService) (n : nat) : DexscannerService :=
  {| rate_limiter := n;
     last_request_time := last_request_time self;
     min_request_interval := min_request_interval self |}.

(** The part of [_respect_rate_limit] before its suspension point: the
    delay it asks [asyncio.sleep] for, if any. *)
Definition sleep_time (self : DexscannerService) (current_time : Q) : option Q :=
  let time_since_last := current_time - last_request_time self in
  if Qlt_bool time_since_last (min_request_interval self)
  then Some (min_request_interval self - time_since_last)
  else None.

(** [_respect_rate_limit] run without interleaving: [current_time] is the
    first reading of the loop clock, [after] the one on the last line. *)
Definition _respect_rate_limit (self : DexscannerService) (current_time after : Q)
    : DexscannerService * option Q :=
  (set_last self after, sleep_time self current_time).

(** Calls made one after the other, each with its two clock readings.
    The request of a call leaves when [_respect_rate_limit] returns, at
    the instant the method has just recorded in [last_request_time]. *)
Fixpoint requests_in_turn (self : DexscannerService) (calls : list (Q * Q))
    : DexscannerService * list Q :=
  match calls with
  | [] => (self, [])
  | (current_time, after) :: rest =>
      let '(self, _) := _respect_rate_limit self current_time after in
      let '(final, sent) := requests_in_turn self rest in
      (final, last_request_time self :: sent)
  end.

(** The clock behaves for a sequence of calls made one after the other,
    the first not before [t0]: readings do not go back, and a sleep lasts
    at least as long as the method asked for.  What it asks for, and the
    state the next call finds, are those of [_respect_rate_limit]. *)
Fixpoint well_timed (self : DexscannerService) (t0 : Q) (calls : list (Q * Q)) : Prop :=
  match calls with
  | [] => True
  | (current_time, after) :: rest =>
      let '(next, asked) := _respect_rate_limit self current_time after in
      t0 <= current_time /\
      current_time + default 0 asked <= after /\
      well_timed next after rest
  end.

(** Consecutive elements are at least [d] apart. *)
Fixpoint spaced (d : Q) (ts : list Q) : Prop :=
  match ts with
  | a :: (b :: _) as rest => a + d <= b /\ spaced d rest
  | _ => True
  end.

(** *** Interleaved callers

    The service methods are coroutines; between two suspension points a
    coroutine runs alone.  A caller of [get_token_data], [get_pair_data]
    or [_get_latest_pairs] goes through: taking a permit and the first
    half of [_respect_rate_limit] ([Call]); after a sleep, the second
    half and the HTTP request ([Wake]); the end of the request, which
    releases the permit ([Finish]). *)
Inductive phase : Type :=
| Sleeping (until : Q)
| InFlight.

Inductive event : Type :=
| Call (id : nat) (current_time after : Q)
| Wake (id : nat) (now : Q)
| Finish (id : nat) (now : Q).

Record world : Type := {
  service : DexscannerService;
  tasks : gmap nat phase;
  now_ : Q;                       (* the latest clock reading *)
  sent : list (nat * Q);          (* requests that left: caller, instant *)
  overlap : nat                   (* most requests in flight at once so far *)
}.

Definition init_world : world :=
  {| service := init; tasks := ∅; now_ := 0; sent := []; overlap := 0 |}.

Definition is_in_flight (p : phase) : bool :=
  match p with
  | InFlight => true
  | Sleeping _ => false
  end.

Definition in_flight (ts : gmap nat phase) : nat :=
  size (filter (fun kv : nat * phase => is_in_flight (snd kv) = true) ts).

Definition send (w : world) (svc : DexscannerService) (id : nat) (t : Q) : world :=
  let ts := <[id := InFlight]> (tasks w) in
  {| service := set_last svc t;
     tasks := ts;
     now_ := t;
     sent := (sent w ++ [(id, t)])%list;
     overlap := Nat.max (overlap w) (in_flight ts) |}.

(** One event; [None] when the event cannot happen in this state (no
    free permit, a clock reading in the past, a sleep cut short, ...). *)
Definition step (w : world) (ev : event) : option world :=
  match ev with
  | Call id current_time after =>
      match tasks w !! id, rate_limiter (service w) with
      | None, S free =>
          if Qle_bool (now_ w) current_time && Qle_bool current_time after then
            let svc := set_permits (service w) free in
            match sleep_time svc current_time with
            | Some d =>
                Some {| service := svc;
                        tasks := <[id := Sleeping (current_time + d)]> (tasks w);
                        now_ := current_time;
                        sent := sent w;
                        overlap := overlap w |}
            | None => Some (send w svc id after)
            end
          else None
      | _, _ => None
      end
  | Wake id now =>
      match tasks w !! id with
      | Some (Sleeping until) =>
          if Qle_bool (now_ w) now && Qle_bool until now
          then Some (send w (service w) id now)
          else None
      | _ => None
      end
  | Finish id now =>
      match tasks w !! id with
      | Some InFlight =>
          if Qle_bool (now_ w) now then
            Some {| service := set_permits (service w) (S (rate_limiter (service w)));
                    tasks := delete id (tasks w);
                    now_ := now;
                    sent := sent w;
                    overlap := overlap w |}
          else None
      | _ => None
      end
  end.

Fixpoint run (w : world) (evs : list event) : option world :=
  match evs with
  | [] => Some w
  | ev :: rest =>
      match step w ev with
      | Some w' => run w' rest
      | None => None
      end
  end.

(** Two of the listed requests left less than [d] apart. *)
Definition too_close (d : Q) (l : list (nat * Q)) : Prop :=
  exists i j a b, (i < j)%nat /\ l !! i = Some a /\ l !! j = Some b /\
                  snd b - snd a < d /\ snd a - snd b < d.

(** The specification's reading of the rate limiter, for callers that
    may interleave: no two requests of an instance leave less than the
    minimum interval apart, and no two are in flight together. *)
Definition rate_limit_claim : Prop :=
  forall evs w,
    run init_world evs = Some w ->
    ~ too_close (min_request_interval (service w)) (sent w) /\ (overlap w <= 1)%nat.

(** What every reachable state satisfies: a permit is held by each task
    under way, out of five. *)
Definition permits_accounted (w : world) : Prop :=
  (rate_limiter (service w) + size (tasks w) = 5)%nat /\
  (overlap w <= 5)%nat /\
  min_request_interval (service w) = min_request_interval init.

End Dexscanner.

(** ** A small runtime for running the model on examples

    ASCII case mapping, two character-class searches, one JSON document
    per sample text. *)

Module Sample.
Import Models.

Definition is_upper_ascii (c : Ascii.ascii) : bool :=
  let n := Ascii.nat_of_ascii c in (65 <=? n)%nat && (n <=? 90)%nat.

Definition is_lower_ascii (c : Ascii.ascii) : bool :=
  let n := Ascii.nat_of_ascii c in (97 <=? n)%nat && (n <=? 122)%nat.

Definition is_digit_ascii (c : Ascii.ascii) : bool :=
  let n := Ascii.nat_of_ascii c in (48 <=? n)%nat && (n <=? 57)%nat.

Definition lower_ascii (c : Ascii.ascii) : Ascii.ascii :=
  if is_upper_ascii c then Ascii.ascii_of_nat (Ascii.nat_of_ascii c + 32) else c.

Definition upper_ascii (c : Ascii.ascii) : Ascii.ascii :=
  if is_lower_ascii c then Ascii.ascii_of_nat (Ascii.nat_of_ascii c - 32) else c.

Fixpoint map_string (f : Ascii.ascii -> Ascii.ascii) (s : string) : string :=
  match s with
  | EmptyString => EmptyString
  | String c rest => String (f c) (map_string f rest)
  end.

Fixpoint exists_string (p : Ascii.ascii -> bool) (s : string) : bool :=
  match s with
  | EmptyString => false
  | String c rest => p c || exists_string p rest
  end.

Definition isupper (s : string) : bool :=
  exists_string is_upper_ascii s && negb (exists_string is_lower_ascii s).

Definition search (pattern text : string) : bool :=
  if String.eqb pattern "\d" then exists_string is_digit_ascii text
  else if String.eqb pattern "[^a-zA-Z0-9]" then
    exists_string
      (fun c => negb (is_upper_ascii c || is_lower_ascii c || is_digit_ascii c)) text
  else false.

Definition float_of (v : json) : result pyfloat :=
  match v with
  | JInt z => Ok (Fin (inject_Z z))
  | JFloat f => Ok f
  | JBool b => Ok (Fin (if b then 1 else 0))
  | JStr _ => Raise ValueError
  | _ => Raise TypeError
  end.

Definition str_of (v : json) : option string :=
  match v with
  | JStr s => Some s
  | _ => None
  end.

Definition str_list_of (v : json) : option (list string) :=
  match v with
  | JList l => mapM str_of l
  | _ => None
  end.

Definition opt_float_of (v : json) : option (option pyfloat) :=
  match v with
  | JNull => Some None
  | JInt z => Some (Some (Fin (inject_Z z)))
  | JFloat f => Some (Some f)
  | _ => None
  end.

(** A well-formed answer of the scoring collaborator whose
    recommendation is not a member of the enumeration, and one whose
    score is out of range. *)
Definition strong_buy_doc : gmap string json :=
  <["score" := JFloat (Fin 8.2)]>
  (<["reasoning" := JStr "liquid and young"]>
  (<["recommendation" := JStr "STRONG_BUY"]>
  (<["confidence" := JFloat (Fin 0.9)]> ∅))).

Definition loads (text : string) : option json :=
  if String.eqb text "strong-buy" then Some (JObj strong_buy_doc)
  else if String.eqb text "research" then
    Some (JObj (<["recommendation" := JStr "research"]> strong_buy_doc))
  else if String.eqb text "score-11" then
    Some (JObj (<["score" := JInt 11]> strong_buy_doc))
  else None.

#[local] Instance runtime : PyRuntime := {|
  str_lower := map_string lower_ascii;
  str_upper := map_string upper_ascii;
  str_isupper := isupper;
  re_search := search;
  json_loads := loads;
  py_float := float_of;
  coerce_str := str_of;
  coerce_str_list := str_list_of;
  coerce_opt_float := opt_float_of
|}.

Definition address : string := "0x1234567890123456789012345678901234567890".

Definition token : TokenInfo :=
  {| contract_address := address;
     name := Some "Foo"; symbol := Some "FOO"; decimals := Some 18%Z;
     total_supply := Some 1000; price_usd := None; market_cap_usd := None;
     liquidity_usd := Some 50000; volume_24h_usd := Some 20000;
     price_change_24h := None; holder_count := None; transaction_count := None;
     creation_block := None; creation_timestamp := None;
     source := DEXSCREENER; detected_at := 0 |}.

(** All readings of one call at the same instant. *)
Definition at_time (t : Q) : Analyzer.clock :=
  {| Analyzer.t_start := t; Analyzer.utc_created := t; Analyzer.t_lookup := t;
     Analyzer.t_parsed := t; Analyzer.utc_analyzed := t; Analyzer.t_cached := t;
     Analyzer.t_cleanup := t; Analyzer.t_stats := t; Analyzer.utc_stats := t |}.

Definition reply (text : string) : Analyzer.api_outcome :=
  Analyzer.ApiReturns
    {| Analyzer.content := Some text; Analyzer.tokens_used_ := 350;
       Analyzer.model := "gpt-4-turbo-preview" |}.

Definition analyzer : Analyzer.GPTAnalyzerService :=
  Analyzer.init Config.settings "gpt-4-turbo-preview".

(** The contract of the specification's example: name "Foo", symbol
    "FOO", 18 decimals, a total supply of 10^21. *)
Definition foo_calls : Listener.erc20_calls :=
  {| Listener.call_name := Ok (Listener.VStr "Foo");
     Listener.call_symbol := Ok (Listener.VStr "FOO");
     Listener.call_decimals := Ok (Listener.VInt 18);
     Listener.call_totalSupply := Ok (Listener.VInt (10 ^ 21)) |}.

(** The same contract with a [decimals] that reverts. *)
Definition reverting_calls : Listener.erc20_calls :=
  {| Listener.call_name := Ok (Listener.VStr "Foo");
     Listener.call_symbol := Ok (Listener.VStr "FOO");
     Listener.call_decimals := Raise ContractLogicError;
     Listener.call_totalSupply := Ok (Listener.VInt (10 ^ 21)) |}.

Definition web3_of (c : Listener.erc20_calls) : option Listener.Web3 :=
  Some {| Listener.to_checksum_address := fun a => Some a;
          Listener.contract := fun _ => c |}.

(** Collaborators that never fail; [known] is what the store answers to
    [token_exists]. *)
Definition services_with (known : bool) : Listener.services :=
  {| Listener.token_exists := fun _ => Ok known;
     Listener.save_token_analysis := fun _ => Ok tt;
     Listener.scan_token := fun _ => Ok (Some token);
     Listener.send_alert := fun _ => Ok tt |}.

Definition creation_tx : Listener.transaction :=
  {| Listener.tx_hash := "0xabc"; Listener.tx_to := None;
     Listener.tx_input := Some "0x60806040"; Listener.tx_blockNumber := Some 19000000%Z |}.

(** Formatters for the notifier examples: the analysis result is its
    score, a status is its text.  The token message is the one of the
    source, with helpers that answer. *)
Definition format_token (t : TokenInfo) (overall : pyfloat) (now : Q) : result string :=
  NotifierFormat._format_token_notification (fun s : pyfloat => s)
    (fun _ => Ok "*") (fun _ => Ok "+")
    (fun _ emoji => Ok (" score " ++ emoji)) (fun _ => Ok "")
    (fun t emoji => "NOUVEAU TOKEN " ++ contract_address t ++ " " ++ emoji)
    (fun _ emoji => " " ++ emoji) (fun _ => " age") (fun _ _ => "") (fun _ _ => "")
    t overall now.

Definition format_alert (title msg prio : string) (now : Q) : string :=
  title ++ ": " ++ msg.

Definition format_status (st : string) (now : Q) : string := st.

(** A started notifier with one chat. *)
Definition notifier : Notifier.TelegramNotifierService :=
  Notifier.set_running (Notifier.init ["chat-1"]) true.

(** A status report queued at time 0, then a critical alert at time 1. *)
Definition status_then_critical : Notifier.TelegramNotifierService :=
  Notifier.notify_alert format_alert
    (Notifier.notify_system_status format_status notifier "uptime 3h" 0)
    "health" "fewer than half of the services are healthy" "critical" 1.

(** Three callers of one [DexscannerService]: the first request leaves at
    100.0; the second and third callers arrive at 100.2 and 100.4, both
    see [last_request_time = 100.0], and both wake at 101.0. *)
Definition three_callers : list Dexscanner.event :=
  [ Dexscanner.Call 1 100 100;
    Dexscanner.Call 2 100.2 100.2;
    Dexscanner.Call 3 100.4 100.4;
    Dexscanner.Wake 2 101;
    Dexscanner.Wake 3 101 ].

(** Three calls made one after the other. *)
Definition calls_in_turn : list (Q * Q) :=
  [ (100, 100); (100.2, 101); (101.5, 102) ].

End Sample.

(** ** app/gpt_analyzer.py: statistics and the liquidity ratio *)

Module AnalyzerMore.
Import Models Analyzer.

(** [not v] for an optional amount: [None] and zero are falsy. *)
Definition falsy (v : option Q) : bool :=
  match v with
  | Some q => Qeq_bool q 0
  | None => true
  end.

Section WithDivision.

(** The quotient of two doubles as the machine gives it: the double
    nearest to the exact quotient, whatever that is. *)
Context (truediv : Q -> Q -> Q).

(** [_calculate_liquidity_ratio]. *)
Definition _calculate_liquidity_ratio (t : TokenInfo) : Q :=
  if falsy (liquidity_usd t) || falsy (market_cap_usd t) then 0.0
  else
    match liquidity_usd t, market_cap_usd t with
    | Some liquidity, Some market_cap =>
        if Qeq_bool market_cap 0 then 0.0 else truediv liquidity market_cap
    | _, _ => 0.0
    end.

End WithDivision.

Section WithRuntime.
Context {rt : PyRuntime}.

(** One call of [analyze_token]: the token, what the scoring collaborator
    does, and the readings of the clocks. *)
Record call : Type := {
  call_token : TokenInfo;
  call_api : api_outcome;
  call_clock : clock
}.

(** Calls of [analyze_token] made one after the other on one service:
    the analyses returned, each with the number of requests its call made. *)
Fixpoint analyze_all (self : GPTAnalyzerService) (calls : list call)
    : list (TokenAnalysis * nat) * GPTAnalyzerService :=
  match calls with
  | [] => ([], self)
  | c :: rest =>
      let '(analysis, self, requests) :=
        analyze_token self (call_token c) (call_api c) (call_clock c) in
      let '(more, final) := analyze_all self rest in
      ((analysis, requests) :: more, final)
  end.

(** The result of a call that asked the scoring collaborator and
    completed, as opposed to one served from the cache or failed. *)
Definition scored_by (outcome : TokenAnalysis * nat) : option AIAnalysis :=
  if ModelsMore.is_completed (status (fst outcome)) && (0 <? snd outcome)%nat
  then ai_analysis (fst outcome)
  else None.

Definition scored (outcomes : list (TokenAnalysis * nat)) : list AIAnalysis :=
  omap scored_by outcomes.

Definition tokens_of (analyses : list AIAnalysis) : Z :=
  fold_right (fun a acc => (default 0 (tokens_used a) + acc)%Z) 0%Z analyses.

Definition requests_of (outcomes : list (TokenAnalysis * nat)) : nat :=
  fold_right (fun o acc => (snd o + acc)%nat) 0%nat outcomes.

End WithRuntime.
End AnalyzerMore.

(** ** More sample values *)

Module SampleMore.
Import Models.

Definition analysis_of (s c : Q) (tokens : Z) : AIAnalysis :=
  {| score := Fin s; reasoning := "liquid and young"; risks := [];
     opportunities := []; recommendation := BUY; confidence := Fin c;
     virality_score := None; liquidity_score := None;
     technical_score := None; community_score := None;
     model_used := "gpt-4-turbo-preview";
     analysis_duration := Some 2; tokens_used := Some tokens |}.

(** Score 8.2 with confidence 0.9. *)
Definition strong : AIAnalysis := analysis_of 8.2 0.9 350.

(** Score 5.5 with confidence 0.9. *)
Definition middling : AIAnalysis := analysis_of 5.5 0.9 200.

(** Three calls for the sample token: a well-formed answer at time 10,
    the same token again at time 20, and, once the entry has expired, a
    timeout at time 1000. *)
Definition three_calls : list AnalyzerMore.call :=
  [ {| AnalyzerMore.call_token := Sample.token;
       AnalyzerMore.call_api := Sample.reply "research";
       AnalyzerMore.call_clock := Sample.at_time 10 |};
    {| AnalyzerMore.call_token := Sample.token;
       AnalyzerMore.call_api := Sample.reply "research";
       AnalyzerMore.call_clock := Sample.at_time 20 |};
    {| AnalyzerMore.call_token := Sample.token;
       AnalyzerMore.call_api := Analyzer.ApiRaises TimeoutError;
       AnalyzerMore.call_clock := Sample.at_time 1000 |} ].

(** A division that is exact on the sample amounts. *)
Definition truediv (a b : Q) : Q := a / b.

(** The sample service after the strong result was stored for the sample
    token at time 0. *)
Definition stored : Analyzer.GPTAnalyzerService :=
  Analyzer._cache_analysis (rt := Sample.runtime) Sample.analyzer Sample.address
    strong 0 0.

(** A completed analysis of the sample token with the strong result. *)
Definition completed : TokenAnalysis :=
  {| token_info := Sample.token; ai_analysis := Some strong; status := COMPLETED;
     error_message := None; created_at := 0; updated_at := 0;
     analyzed_at := Some 2; notification_sent := false;
     notification_sent_at := None |}.

(** A completed analysis on the thresholds: score 7, confidence the
    double 0.7. *)
Definition borderline : TokenAnalysis :=
  {| token_info := Sample.token;
     ai_analysis := Some (analysis_of 7 ModelsMore.double_0_7 200);
     status := COMPLETED;
     error_message := None; created_at := 0; updated_at := 0;
     analyzed_at := Some 2; notification_sent := false;
     notification_sent_at := None |}.

(** The sample token with a market capitalisation of 200000. *)
Definition capitalised : TokenInfo :=
  {| contract_address := Sample.address;
     name := Some "Foo"; symbol := Some "FOO"; decimals := Some 18%Z;
     total_supply := Some 1000; price_usd := Some 200;
     market_cap_usd := Some 200000; liquidity_usd := Some 50000;
     volume_24h_usd := Some 20000; price_change_24h := None;
     holder_count := None; transaction_count := None;
     creation_block := None; creation_timestamp := None;
     source := DEXSCREENER; detected_at := 0 |}.

End SampleMore.

(** ** app/websocket_listener.py: from a block to the hand-off *)

Module ListenerMore.
Import Models Listener.
Section WithRuntime.
Context {rt : PyRuntime}.

(** The part of a transaction receipt the listener reads. *)
Record receipt : Type := {
  contractAddress : option string
}.

(** The node behind [self.web3]: the provider, if it was initialised, and
    [eth.get_transaction_receipt]. *)
Record node : Type := {
  web3 : option Web3;
  get_transaction_receipt : string -> result receipt
}.

(** [_get_transaction_receipt]: [None] without a provider or when the
    call raises. *)
Definition _get_transaction_receipt (n : node) (hash : string) : option receipt :=
  match web3 n with
  | None => None
  | Some _ =>
      match get_transaction_receipt n hash with
      | Ok r => Some r
      | Raise _ => None
      end
  end.

Definition bump_contracts_detected (self : EthereumWebSocketListener) :=
  {| is_running := is_running self;
     websocket_set := websocket_set self;
     reconnect_attempts := reconnect_attempts self;
     max_reconnect_attempts := max_reconnect_attempts self;
     reconnect_delay := reconnect_delay self;
     contracts_detected := (contracts_detected self + 1)%Z;
     tokens_processed := tokens_processed self |}.

(** [_process_contract_creation]: the listener afterwards and the
    analysis task created, if any.  [utcnow] is the reading taken when the
    token is handed off. *)
Definition _process_contract_creation (self : EthereumWebSocketListener)
    (svc : services) (n : node) (tx : transaction) (utcnow : Q)
    : EthereumWebSocketListener * option TokenInfo :=
  let self := bump_contracts_detected self in
  match _get_transaction_receipt n (tx_hash tx) with
  | Some r =>
      match contractAddress r with
      | Some contract_address =>
          if String.eqb contract_address "" then (self, None)
          else if _is_erc20_token (web3 n) contract_address
          then _handle_new_erc20_token self svc contract_address tx utcnow
          else (self, None)
      | None => (self, None)
      end
  | None => (self, None)
  end.

(** The tasks [_scan_block_transactions] gathers, run to completion one
    after the other.  They share only the two counters, which each task
    increments in one step, and collaborators that answer the same
    whatever the order. *)
Fixpoint process_all (self : EthereumWebSocketListener) (svc : services)
    (n : node) (work : list (transaction * Q))
    : EthereumWebSocketListener * list TokenInfo :=
  match work with
  | [] => (self, [])
  | (tx, utcnow) :: rest =>
      let '(self, task) := _process_contract_creation self svc n tx utcnow in
      let '(final, tasks) := process_all self svc n rest in
      (final, (option_list task ++ tasks)%list)
  end.

(** [_scan_block_transactions]: only contract creations are processed. *)
Definition _scan_block_transactions (self : EthereumWebSocketListener)
    (svc : services) (n : node) (transactions : list (transaction * Q))
    : EthereumWebSocketListener * list TokenInfo :=
  let contract_creations :=
    List.filter (fun p => _is_contract_creation (fst p)) transactions in
  process_all self svc n contract_creations.

(** A delay of the reconnect loop: the base delay times an attempt number
    between 1 and the maximum. *)
Definition permitted_delay (self : EthereumWebSocketListener) (delay : Z) : Prop :=
  exists k, (1 <= k <= max_reconnect_attempts self)%Z /\
            delay = (reconnect_delay self * k)%Z.

End WithRuntime.
End ListenerMore.

(** ** Sample values for the listener *)

Module SampleListener.
Import Models Listener ListenerMore.

(** A node whose receipts all name the sample address, where the
    contract of the example lives. *)
Definition node_with_foo : node :=
  {| web3 := Sample.web3_of Sample.foo_calls;
     get_transaction_receipt :=
       fun _ => Ok {| contractAddress := Some Sample.address |} |}.

(** A plain transfer. *)
Definition transfer_tx : transaction :=
  {| tx_hash := "0xdef"; tx_to := Some Sample.address;
     tx_input := Some "0x"; tx_blockNumber := Some 19000000%Z |}.

(** A block with a transfer and two contract creations. *)
Definition block : list (transaction * Q) :=
  [ (transfer_tx, 1); (Sample.creation_tx, 2); (Sample.creation_tx, 3) ].

(** Two refused connections, a [stop()] during the second backoff, and
    two more refusals that the loop never sees. *)
Definition stopped_script : list cycle :=
  [ failing OSError;
    {| outcome := ConnectRaises OSError; stop_called := true |};
    failing OSError; failing OSError ].

(** Sessions that break, refusals, a rejected handshake. *)
Definition mixed_script : list cycle :=
  [ failing OSError; failing OSError;
    {| outcome := SessionRaises OSError; stop_called := false |};
    failing InvalidStatusCode; failing OSError;
    {| outcome := SessionEnds; stop_called := false |};
    failing TimeoutError ].

End SampleListener.

(** ** app/telegram_notifier.py: the producers *)

Module NotifierMore.
Import Models Notifier.
Section WithFormatters.
Context {AnalysisResult : Type} (overall_score : AnalysisResult -> pyfloat).
Context {Status : Type}
  (_format_token_notification : TokenInfo -> AnalysisResult -> Q -> result string)
  (_format_alert_message : string -> string -> string -> Q -> string)
  (_format_system_status : Status -> Q -> string).

(** The text of the start-up message, which embeds the wall clock. *)
Context (startup_text : Q -> string).

(** [start]: the worker is created only when [_test_connection]
    succeeds. *)
Definition start (self : TelegramNotifierService) (connection_ok : bool)
    : TelegramNotifierService :=
  if connection_ok then set_running self true else self.

(** [stop]. *)
Definition stop (self : TelegramNotifierService) : TelegramNotifierService :=
  set_running self false.

(** [send_startup_message]. *)
Definition send_startup_message (self : TelegramNotifierService) (now : Q)
    : TelegramNotifierService :=
  _queue_message self (startup_text now) "normal" now.

(** A call of one of the methods that queue a message. *)
Inductive producer : Type :=
| NewToken (token_info : TokenInfo) (analysis_result : AnalysisResult) (now : Q)
| Alert (title msg prio : string) (now : Q)
| SystemStatus (st : Status) (now : Q)
| Startup (now : Q).

Definition produce (cfg : Config.Settings) (self : TelegramNotifierService)
    (p : producer) : TelegramNotifierService :=
  match p with
  | NewToken token_info analysis_result now =>
      notify_new_token overall_score _format_token_notification cfg self
        token_info analysis_result now
  | Alert title msg prio now =>
      notify_alert _format_alert_message self title msg prio now
  | SystemStatus st now =>
      notify_system_status _format_system_status self st now
  | Startup now => send_startup_message self now
  end.

Definition produce_all (cfg : Config.Settings) (self : TelegramNotifierService)
    (ps : list producer) : TelegramNotifierService :=
  fold_left (produce cfg) ps self.

(** The tags the producers write. *)
Definition known_tag (q : queued) : Prop :=
  priority q = "high" \/ priority q = "normal" \/ priority q = "low".

(** *** The worker between its suspension points

    [start] creates the worker as a task of its own; [stop] only clears
    [is_running], which the worker reads at the head of its loop and
    nowhere else. *)

(** Where the worker coroutine stands. *)
Inductive worker_state : Type :=
| NoWorker       (* [start] did not create it *)
| AtLoopHead     (* about to test [self.is_running] *)
| Waiting        (* suspended in [wait_for(self.message_queue.get(), 1.0)] *)
| Finished.      (* the loop was left *)

Record system : Type := {
  notifier : TelegramNotifierService;
  worker : worker_state;
  handed : list string   (* the messages given to [_send_message_to_all_chats] *)
}.

(** What can happen next: a producer queues a message, [stop()] is
    called, the event loop runs the worker up to its next suspension, or
    the second of [wait_for] is over. *)
Inductive action : Type :=
| Put (q : queued)
| Stop
| Resume
| WaitTimeout.

(** [start] and the task it creates. *)
Definition started (self : TelegramNotifierService) (connection_ok : bool) : system :=
  {| notifier := start self connection_ok;
     worker := if connection_ok then AtLoopHead else NoWorker;
     handed := [] |}.

(** One action.  A resumed worker that waits takes the head of the queue,
    hands it to [_send_message_to_all_chats] and, after its pause, is back
    at the head of the loop; on a timeout it is back there at once. *)
Definition act (s : system) (a : action) : system :=
  match a with
  | Put q =>
      {| notifier := set_queue (notifier s) (message_queue (notifier s) ++ [q])%list;
         worker := worker s; handed := handed s |}
  | Stop =>
      {| notifier := stop (notifier s); worker := worker s; handed := handed s |}
  | Resume =>
      match worker s with
      | AtLoopHead =>
          {| notifier := notifier s;
             worker := if is_running (notifier s) then Waiting else Finished;
             handed := handed s |}
      | Waiting =>
          match message_queue (notifier s) with
          | message_data :: rest =>
              {| notifier := set_queue (notifier s) rest;
                 worker := AtLoopHead;
                 handed := (handed s ++ [message message_data])%list |}
          | [] => s
          end
      | NoWorker | Finished => s
      end
  | WaitTimeout =>
      match worker s with
      | Waiting =>
          {| notifier := notifier s; worker := AtLoopHead; handed := handed s |}
      | _ => s
      end
  end.

Definition run (s : system) (actions : list action) : system :=
  fold_left act actions s.

(** The messages an action, and a sequence of actions, queue. *)
Definition put_by (a : action) : list queued :=
  match a with
  | Put q => [q]
  | _ => []
  end.

Definition puts (actions : list action) : list queued := flat_map put_by actions.

(** No worker will take a message: there is none, or it will find
    [is_running] cleared before it waits again. *)
Definition idle (s : system) : Prop :=
  worker s = NoWorker \/
  (is_running (notifier s) = false /\ worker s <> Waiting).

(** How many more messages a worker can take once [is_running] is
    cleared. *)
Definition pending_gets (w : worker_state) : nat :=
  match w with
  | Waiting => 1
  | _ => 0
  end.

End WithFormatters.
End NotifierMore.

(** ** Sample calls of the notifier *)

Module SampleNotifier.
Import Notifier NotifierMore.

Definition startup (now : Q) : string := "CRYPTO SENTINEL DEMARRE".

(** A token alert, a warning, a status report and a critical alert. *)
Definition calls : list (@producer pyfloat string) :=
  [ NewToken Sample.token (Fin 8.2) 0;
    Alert "rpc" "slow answers" "warning" 1;
    SystemStatus "uptime 3h" 2;
    Alert "health" "two services down" "critical" 3 ].

(** A started notifier whose worker waits on the empty queue. *)
Definition waiting : system :=
  run (started (init ["chat-1"]) true) [Resume].

(** A message queued after [stop()]. *)
Definition late : queued :=
  {| message := "late alert"; priority := "normal"; timestamp := 7 |}.

Definition produce_calls (self : TelegramNotifierService) : TelegramNotifierService :=
  produce_all (fun s : pyfloat => s) Sample.format_token Sample.format_alert
    Sample.format_status startup Config.settings self calls.

End SampleNotifier.

(** ** app/dexscanner.py: scanning and filtering pairs *)

Module DexscannerMore.
Import Models.
Section WithRuntime.
Context {rt : PyRuntime}.

(** [datetime.fromtimestamp] on seconds since the epoch: the naive local
    time, as seconds on the scale of [datetime.utcnow()], or the exception
    raised for a value the platform cannot represent. *)
Context (fromtimestamp : Q -> result Q).

(** One side of a pair record. *)
Record token_side : Type := {
  side_address : option string;
  side_name : option string;
  side_symbol : option string
}.

(** A pair record of the market-data API.  The four amounts are the
    outcomes of [float(...)] on the fields (with their defaults): a finite
    number, or the exception raised. *)
Record pair : Type := {
  pairAddress : option string;
  pairCreatedAt : option Q;
  baseToken : token_side;
  quoteToken : token_side;
  priceUsd : result Q;
  liquidity_usd_ : result Q;
  volume_h24 : result Q;
  priceChange_h24 : result Q
}.

(** Truthiness of an optional string and of an optional number. *)
Definition truthy_str (v : option string) : option string :=
  match v with
  | Some s => if String.eqb s "" then None else Some s
  | None => None
  end.

Definition truthy_num (v : option Q) : option Q :=
  match v with
  | Some q => if Qeq_bool q 0 then None else Some q
  | None => None
  end.

(** The [for pair in pairs] loop of [_get_latest_pairs]: the pairs kept so
    far and the set [processed_pairs]; [None] when an exception left the
    loop (the function then returns the empty list). *)
Fixpoint scan_loop (processed : gset string) (cutoff_time : Q)
    (pairs : list pair) (recent_pairs : list pair)
    : option (list pair) * gset string :=
  match pairs with
  | [] => (Some recent_pairs, processed)
  | p :: rest =>
      match truthy_str (pairAddress p) with
      | Some pair_address =>
          if decide (pair_address ∈ processed)
          then scan_loop processed cutoff_time rest recent_pairs
          else
            match truthy_num (pairCreatedAt p) with
            | Some created_at =>
                match fromtimestamp (created_at / 1000) with
                | Ok pair_time =>
                    if Qlt_bool cutoff_time pair_time
                    then scan_loop ({[pair_address]} ∪ processed) cutoff_time rest
                                   (recent_pairs ++ [p])%list
                    else scan_loop processed cutoff_time rest recent_pairs
                | Raise _ => (None, processed)
                end
            | None => scan_loop processed cutoff_time rest recent_pairs
            end
      | None => scan_loop processed cutoff_time rest recent_pairs
      end
  end.

(** [_get_latest_pairs] after the rate-limit step: [fetched] is the list
    under ["pairs"] in the answer, or the exception of the request;
    [utcnow] is the reading used for the cutoff. *)
Definition _get_latest_pairs (processed : gset string) (fetched : result (list pair))
    (utcnow : Q) : list pair * gset string :=
  match fetched with
  | Ok pairs =>
      let cutoff_time := utcnow - 3600 in
      match scan_loop processed cutoff_time pairs [] with
      | (Some recent_pairs, processed) => (recent_pairs, processed)
      | (None, processed) => ([], processed)
      end
  | Raise _ => ([], processed)
  end.

Definition stable_symbols : list string := ["WETH"; "USDT"; "USDC"; "DAI"; "BUSD"].

(** [symbol in stable_symbols] for the value [dict.get] returns. *)
Definition in_stable (symbol : option string) : bool :=
  match symbol with
  | Some s => existsb (String.eqb s) stable_symbols
  | None => false
  end.

(** The choice of the main token in [_process_new_pair], with the test
    [if token_address and token_data]. *)
Definition select_token (p : pair) : option (string * token_side) :=
  let chosen :=
    if negb (in_stable (side_symbol (baseToken p))) then Some (baseToken p)
    else if negb (in_stable (side_symbol (quoteToken p))) then Some (quoteToken p)
    else None in
  match chosen with
  | Some token_data =>
      match truthy_str (side_address token_data) with
      | Some token_address => Some (token_address, token_data)
      | None => None
      end
  | None => None
  end.

(** [calculate_age_hours] of [utils/helpers.py] on a number: the age, 0.0
    when the conversion raises one of the three exceptions it catches, and
    the exception otherwise. *)
Definition calculate_age_hours (timestamp utcnow : Q) : result Q :=
  match fromtimestamp timestamp with
  | Ok target_time => Ok ((utcnow - target_time) / 3600)
  | Raise ValueError => Ok 0.0
  | Raise TypeError => Ok 0.0
  | Raise OSError => Ok 0.0
  | Raise e => Raise e
  end.

(** The [try] block of [_create_token_info_from_pair].  The keyword
    arguments [age_hours], [dex_pair_address] and [dex_name] name no field
    of [TokenInfo]; the model library drops them. *)
Definition create_try (p : pair) (token_address : string) (token_data : token_side)
    (utcnow detected : Q) : result TokenInfo :=
  let* price := priceUsd p in
  let* liquidity := liquidity_usd_ p in
  let* volume := volume_h24 p in
  let* change := priceChange_h24 p in
  let* age_hours :=
    match truthy_num (pairCreatedAt p) with
    | Some created_at => calculate_age_hours (created_at / 1000) utcnow
    | None => Ok 0
    end in
  TokenInfo_new
    {| contract_address := token_address;
       name := side_name token_data;
       symbol := side_symbol token_data;
       decimals := None; total_supply := None;
       price_usd := Some price; market_cap_usd := None;
       liquidity_usd := Some liquidity; volume_24h_usd := Some volume;
       price_change_24h := Some change;
       holder_count := None; transaction_count := None;
       creation_block := None; creation_timestamp := None;
       source := DEXSCREENER; detected_at := detected |}.

(** [_create_token_info_from_pair]. *)
Definition _create_token_info_from_pair (p : pair) (token_address : string)
    (token_data : token_side) (utcnow detected : Q) : option TokenInfo :=
  match create_try p token_address token_data utcnow detected with
  | Ok token_info => Some token_info
  | Raise _ => None
  end.

Definition suspicious_patterns : list string :=
  [ "(?i)(elon|musk|tesla|spacex)";
    "(?i)(moon|rocket|pump|gem)";
    "(?i)(safe|baby|mini)";
    "(?i)(100x|1000x|lambo)";
    "(?i)(inu|shib|floki|doge)";
    "(?i)(test|fake|scam)" ].

(** [_is_suspicious_token]. *)
Definition _is_suspicious_token (token_info : TokenInfo) : bool :=
  match truthy_str (name token_info), truthy_str (symbol token_info) with
  | Some n, Some s =>
      let text_to_check := str_lower (n ++ " " ++ s) in
      existsb (fun pattern => re_search pattern text_to_check) suspicious_patterns
  | _, _ => true
  end.

(** An ordering comparison with a value that may be [None]. *)
Definition compared (v : option Q) : result Q :=
  match v with
  | Some q => Ok q
  | None => Raise TypeError
  end.

(** The [try] block of [_is_interesting_token]; [utcnow] is the reading
    the [age_hours] property takes. *)
Definition interesting_try (token_info : TokenInfo) (utcnow : Q) : result bool :=
  let min_liquidity := 10000 in
  let max_age_hours := 24 in
  let min_volume := 1000 in
  let* liquidity := compared (liquidity_usd token_info) in
  if Qlt_bool liquidity min_liquidity then Ok false
  else
    let* age := compared (ModelsMore.age_hours token_info utcnow) in
    if Qlt_bool max_age_hours age then Ok false
    else
      let* volume := compared (volume_24h_usd token_info) in
      if Qlt_bool volume min_volume then Ok false
      else if _is_suspicious_token token_info then Ok false
      else Ok true.

(** [_is_interesting_token]. *)
Definition _is_interesting_token (token_info : TokenInfo) (utcnow : Q) : bool :=
  match interesting_try token_info utcnow with
  | Ok verdict => verdict
  | Raise _ => false
  end.

(** [_process_new_pair]: the token [_trigger_token_analysis] is called
    with, if it is called. *)
Definition _process_new_pair (p : pair) (utcnow detected age_reading : Q)
    : option TokenInfo :=
  match select_token p with
  | Some (token_address, token_data) =>
      match _create_token_info_from_pair p token_address token_data utcnow detected with
      | Some token_info =>
          if _is_interesting_token token_info age_reading then Some token_info
          else None
      | None => None
      end
  | None => None
  end.

(** The addresses of a list of pairs. *)
Definition addresses (pairs : list pair) : list string :=
  omap (fun p => truthy_str (pairAddress p)) pairs.

(** The pair passes the time test of the loop: its creation time, turned
    into a local time by [fromtimestamp], is later than the cutoff. *)
Definition passes_time_test (cutoff_time : Q) (p : pair) : Prop :=
  exists created_at pair_time,
    truthy_num (pairCreatedAt p) = Some created_at /\
    fromtimestamp (created_at / 1000) = Ok pair_time /\
    cutoff_time < pair_time.

(** The pair was created later than [instant], both in seconds since the
    epoch. *)
Definition created_after (instant : Q) (p : pair) : Prop :=
  exists created_at,
    truthy_num (pairCreatedAt p) = Some created_at /\
    instant < created_at / 1000.

(** The creation time of the pair, if it is looked at, is converted, and
    read on a host whose local time is [utc_offset] seconds ahead of UTC:
    [datetime.fromtimestamp] answers in naive local time, the seconds
    since the epoch plus the offset on the scale of [datetime.utcnow()].
    (It answers to the microsecond, so this is the case of the creation
    times in whole milliseconds that the market-data API gives.) *)
Definition converts (utc_offset : Q) (p : pair) : Prop :=
  forall created_at,
    truthy_num (pairCreatedAt p) = Some created_at ->
    exists pair_time,
      fromtimestamp (created_at / 1000) = Ok pair_time /\
      pair_time == created_at / 1000 + utc_offset.

(** The conversion of the pair's creation time, if it is looked at, does
    not raise. *)
Definition convertible (p : pair) : Prop :=
  forall created_at,
    truthy_num (pairCreatedAt p) = Some created_at ->
    is_ok (fromtimestamp (created_at / 1000)) = true.

End WithRuntime.
End DexscannerMore.

(** ** Sample pairs *)

Module SampleDex.
Import DexscannerMore.

(** A host whose local time is UTC and which cannot represent times
    beyond the year 9999. *)
Definition utc (seconds : Q) : result Q :=
  if Qle_bool seconds 253402300799 then Ok seconds else Raise ValueError.

(** The same on a host two hours ahead of UTC. *)
Definition utc_plus_2 (seconds : Q) : result Q :=
  if Qle_bool seconds 253402300799 then Ok (seconds + 7200) else Raise ValueError.

Definition side (addr sym : string) : token_side :=
  {| side_address := Some addr; side_name := Some sym; side_symbol := Some sym |}.

Definition pair_of (addr : string) (created_ms : Q) (base quote : token_side) : pair :=
  {| pairAddress := Some addr; pairCreatedAt := Some created_ms;
     baseToken := base; quoteToken := quote;
     priceUsd := Ok 0.5; liquidity_usd_ := Ok 50000; volume_h24 := Ok 20000;
     priceChange_h24 := Ok 12 |}.

Definition foo : token_side := side Sample.address "FOO".
Definition weth : token_side := side "0xC02aaA39b223FE8D0A0e5C4F27eAD9083C756Cc2" "WETH".
Definition usdc : token_side := side "0xA0b86991c6218b36c1d19D4a2e9Eb0cE3606eB48" "USDC".

(** The clock reads 1 000 000 s: a pair created 600 s ago, one created
    two hours ago, and one with a creation time in the year 33658. *)
Definition young : pair := pair_of "0xpair-young" 999400000 foo weth.
Definition old : pair := pair_of "0xpair-old" 992800000 foo weth.
Definition broken : pair := pair_of "0xpair-broken" 1000000000000000 foo weth.
Definition stable_pair : pair := pair_of "0xpair-stable" 999400000 usdc weth.
Definition quote_pair : pair := pair_of "0xpair-quote" 999400000 weth foo.

End SampleDex.

(** ** Validators: the rules of the suspicion score *)

Module ValidatorsMore.
Import Validators.
Section WithRuntime.
Context {rt : PyRuntime}.

(** None of the eight [if] statements of [calculate_suspicion_score] adds
    to the score. *)
Definition no_penalty (name symbol description : string) : bool :=
  negb (fst (detect_suspicious_patterns name)) &&
  negb (fst (detect_suspicious_patterns symbol)) &&
  (String.eqb description "" || negb (fst (detect_suspicious_patterns description))) &&
  negb ((len name <? 3)%Z || (50 <? len name)%Z) &&
  negb ((len symbol <? 2)%Z || (10 <? len symbol)%Z) &&
  negb (str_isupper name && (5 <? len name)%Z) &&
  negb (re_search "\d" symbol) &&
  negb (re_search "[^a-zA-Z0-9]" symbol).

(** A score that is 0 exactly when [quiet] holds, and at least one half
    otherwise. *)
Definition graded (score : Q) (quiet : bool) : Prop :=
  0 <= score /\ (score == 0 \/ 0.5 <= score) /\ (score == 0 <-> quiet = true).

End WithRuntime.
End ValidatorsMore.

(** ** Analyzer: the indicators put into the prompt *)

Module Indicators.
Import Models.
Section WithRuntime.
Context {rt : PyRuntime}.

(** The six messages [_detect_suspicious_patterns] can append; the first
    carries the keyword found. *)
Inductive indicator : Type :=
| SuspiciousName (keyword : string)
| ExcessiveSupply
| VeryLowLiquidity
| VeryFewHolders
| ExtremelyRecent
| ExtremelyLowPrice.

Definition suspicious_keywords : list string :=
  [ "safe"; "moon"; "rocket"; "gem"; "baby"; "mini"; "doge"; "inu"; "shib";
    "elon"; "musk"; "tesla"; "100x"; "1000x"; "pump"; "lambo" ].

(** [keyword in text] on strings. *)
Fixpoint contains (keyword text : string) : bool :=
  String.prefix keyword text ||
  match text with
  | EmptyString => false
  | String _ rest => contains keyword rest
  end.

(** [v and test(v)] for an optional amount and for an optional count. *)
Definition amount_and (v : option Q) (test : Q -> bool) : bool :=
  match v with
  | Some q => negb (Qeq_bool q 0) && test q
  | None => false
  end.

Definition count_and (v : option Z) (test : Z -> bool) : bool :=
  match v with
  | Some n => negb (n =? 0)%Z && test n
  | None => false
  end.

(** [v or 0] for an optional amount. *)
Definition or_zero (v : option Q) : Q :=
  match v with
  | Some q => if Qeq_bool q 0 then 0 else q
  | None => 0
  end.

(** One [if cond: indicators.append(i)] statement. *)
Definition when (cond : bool) (i : indicator) : list indicator :=
  if cond then [i] else [].

(** The [for keyword in suspicious_keywords] loop, left at the first
    keyword found. *)
Definition keyword_indicator (name symbol : string) : list indicator :=
  match List.find (fun keyword => contains keyword name || contains keyword symbol)
          suspicious_keywords with
  | Some keyword => [SuspiciousName keyword]
  | None => []
  end.

(** [_detect_suspicious_patterns]; [utcnow] is the reading the
    [age_hours] property takes. *)
Definition _detect_suspicious_patterns (token_info : TokenInfo) (utcnow : Q)
    : list indicator :=
  let name := str_lower (default "" (name token_info)) in
  let symbol := str_lower (default "" (symbol token_info)) in
  let age_hours := or_zero (ModelsMore.age_hours token_info utcnow) in
  (keyword_indicator name symbol
   ++ when (amount_and (total_supply token_info) (fun s => Qlt_bool 1000000000000 s))
           ExcessiveSupply
   ++ when (amount_and (liquidity_usd token_info) (fun l => Qlt_bool l 1000))
           VeryLowLiquidity
   ++ when (count_and (holder_count token_info) (fun h => (h <? 10)%Z))
           VeryFewHolders
   ++ when (Qlt_bool age_hours 0.5) ExtremelyRecent
   ++ when (amount_and (price_usd token_info) (fun p => Qlt_bool p (1 # 10000000000)))
           ExtremelyLowPrice)%list.

End WithRuntime.
End Indicators.

(** ** Sample tokens for the indicators *)

Module SampleIndicators.
Import Models.

(** A token called Safe Moon with no liquidity, no holder, a price of
    zero and no creation time. *)
Definition empty_pool : TokenInfo :=
  {| contract_address := Sample.address;
     name := Some "Safe Moon"; symbol := Some "SMOON";
     decimals := Some 18%Z; total_supply := Some 1000000;
     price_usd := Some 0; market_cap_usd := None;
     liquidity_usd := Some 0; volume_24h_usd := None;
     price_change_24h := None;
     holder_count := Some 0%Z; transaction_count := None;
     creation_block := None; creation_timestamp := None;
     source := ETHEREUM_WEBSOCKET; detected_at := 0 |}.

End SampleIndicators.

(** * Properties *)

(** ** Comparisons of rationals *)

Module PyFacts.

Lemma Qlt_bool_iff (a b : Q) : Qlt_bool a b = true <-> (a < b)%Q.
Proof.
  unfold Qlt_bool. rewrite negb_true_iff. split.
  - intros H. apply Qnot_le_lt. intros Hle.
    apply Qle_bool_iff in Hle. congruence.
  - intros H. destruct (Qle_bool b a) eqn:E; [| reflexivity].
    apply Qle_bool_iff in E. lra.
Qed.

Lemma Qlt_bool_not (a b : Q) : Qlt_bool a b = false <-> (b <= a)%Q.
Proof. unfold Qlt_bool. rewrite negb_false_iff. apply Qle_bool_iff. Qed.

Lemma Qge_bool_not (a b : Q) : Qge_bool a b = false <-> (a < b)%Q.
Proof.
  unfold Qge_bool. split.
  - intros H. apply Qnot_le_lt. intros Hle.
    apply Qle_bool_iff in Hle. congruence.
  - intros H. destruct (Qle_bool b a) eqn:E; [| reflexivity].
    apply Qle_bool_iff in E. lra.
Qed.

End PyFacts.

(** ** The suspicion score *)

Module ValidatorsFacts.
Import Validators.
Section WithRuntime.
Context {rt : PyRuntime}.

Lemma add_if_nonneg (cond : bool) (w score : Q) :
  (0 <= w)%Q -> (0 <= score)%Q -> (0 <= add_if cond w score)%Q.
Proof.
  intros Hw Hs. unfold add_if. destruct cond; [lra | exact Hs].
Qed.

Lemma count_weight_nonneg (l : list string) (w : Q) :
  (0 <= w)%Q -> (0 <= inject_Z (Z.of_nat (length l)) * w)%Q.
Proof.
  intros Hw. apply Qmult_le_0_compat; [| exact Hw].
  change 0%Q with (inject_Z 0). rewrite <- Zle_Qle. lia.
Qed.

Lemma py_min_capped (score cap : Q) :
  (0 <= score)%Q -> (0 <= cap)%Q ->
  (0 <= py_min score cap)%Q /\ (py_min score cap <= cap)%Q.
Proof.
  intros Hs Hc. unfold py_min. destruct (Qlt_bool cap score) eqn:E.
  - split; [exact Hc | lra].
  - apply PyFacts.Qlt_bool_not in E. split; [exact Hs | exact E].
Qed.

(** C10. Whatever the name, the symbol and the description, and whatever
    the regular expressions match, the suspicion score lies between 0.0
    and 10.0: every penalty added is non-negative and the sum is capped. *)
Theorem suspicion_score_in_range (name symbol description : string) :
  (0 <= calculate_suspicion_score name symbol description)%Q /\
  (calculate_suspicion_score name symbol description <= 10)%Q.
Proof.
  unfold calculate_suspicion_score.
  destruct (detect_suspicious_patterns name) as [name_suspicious name_patterns].
  destruct (detect_suspicious_patterns symbol) as [symbol_suspicious symbol_patterns].
  match goal with
  | |- (0 <= py_min ?raw _)%Q /\ _ =>
      cut (0 <= raw)%Q;
      [ intros Hraw; destruct (py_min_capped raw 10.0 Hraw) as [Hlo Hhi];
        [lra | split; [exact Hlo | lra]] |]
  end.
  repeat (apply add_if_nonneg; [lra |]).
  assert (Hbase : (0 <= add_if symbol_suspicious
                         (inject_Z (Z.of_nat (length symbol_patterns)) * 2.0)
                         (add_if name_suspicious
                            (inject_Z (Z.of_nat (length name_patterns)) * 1.5) 0))%Q).
  { apply add_if_nonneg; [apply count_weight_nonneg; lra |].
    apply add_if_nonneg; [apply count_weight_nonneg; lra | lra]. }
  destruct (String.eqb description ""); [exact Hbase |].
  destruct (detect_suspicious_patterns description) as [desc_suspicious desc_patterns].
  apply add_if_nonneg; [apply count_weight_nonneg; lra | exact Hbase].
Qed.

End WithRuntime.
End ValidatorsFacts.

(** ** The chain listener *)

Module ListenerFacts.
Import Models Listener.
Section WithRuntime.
Context {rt : PyRuntime}.

Lemma nonempty_length (s : string) :
  (0 <? Z.of_nat (String.length s))%Z = true <-> s <> "".
Proof.
  destruct s as [| c rest]; simpl.
  - split; [discriminate | congruence].
  - split; [discriminate | intros _; apply Z.ltb_lt; lia].
Qed.

Lemma basic_checks_true (vn vs vd vt : pyval) :
  basic_checks vn vs vd vt = true <->
  exists n s d t,
    as_str vn = Some n /\ n <> "" /\ as_str vs = Some s /\ s <> "" /\
    as_int vd = Some d /\ (0 <= d <= 18)%Z /\ as_int vt = Some t /\ (0 < t)%Z.
Proof.
  unfold basic_checks. split.
  - destruct (as_str vn) as [n |]; [| discriminate].
    destruct (as_str vs) as [s |]; [| discriminate].
    destruct (as_int vd) as [d |]; [| discriminate].
    destruct (as_int vt) as [t |]; [| discriminate].
    rewrite !andb_true_iff, !nonempty_length.
    intros [[[Hn Hs] [Hd0 Hd18]] Ht].
    exists n, s, d, t. repeat split; try assumption; lia.
  - intros (n & s & d & t & -> & Hn & -> & Hs & -> & Hd & -> & Ht).
    rewrite !andb_true_iff, !nonempty_length.
    repeat split; try assumption; lia.
Qed.

Lemma probe_try_ok (c : erc20_calls) (verdict : bool) :
  probe_try c = Ok verdict <->
  exists vn vs vd vt,
    call_name c = Ok vn /\ call_symbol c = Ok vs /\
    call_decimals c = Ok vd /\ call_totalSupply c = Ok vt /\
    verdict = basic_checks vn vs vd vt.
Proof.
  unfold probe_try, bind. split.
  - destruct (call_name c) as [vn |]; [| discriminate].
    destruct (call_symbol c) as [vs |]; [| discriminate].
    destruct (call_decimals c) as [vd |]; [| discriminate].
    destruct (call_totalSupply c) as [vt |]; [| discriminate].
    intros [= <-]. exists vn, vs, vd, vt. repeat split; reflexivity.
  - intros (vn & vs & vd & vt & -> & -> & -> & -> & ->). reflexivity.
Qed.

Lemma probe_try_raises (c : erc20_calls) :
  some_call_fails c -> exists e, probe_try c = Raise e.
Proof.
  unfold some_call_fails, probe_try, bind, is_ok.
  destruct (call_name c) as [vn | e1]; [| intros _; exists e1; reflexivity].
  destruct (call_symbol c) as [vs | e2]; [| intros _; exists e2; reflexivity].
  destruct (call_decimals c) as [vd | e3]; [| intros _; exists e3; reflexivity].
  destruct (call_totalSupply c) as [vt | e4]; [| intros _; exists e4; reflexivity].
  intros [H | [H | [H | H]]]; discriminate.
Qed.

Lemma raised_probe_rejects (w : Web3) (a addr : string) (e : exn) :
  to_checksum_address w addr = Some a ->
  probe_try (contract w a) = Raise e ->
  _is_erc20_token (Some w) addr = false.
Proof.
  intros Ha He. unfold _is_erc20_token. rewrite Ha, He.
  destruct e; reflexivity.
Qed.

(** C2. A probed contract is classified as a token candidate exactly when
    the four interface calls succeed, name and symbol are non-empty
    strings, decimals is an integer in [0,18] and totalSupply is a
    positive integer; when one of the four calls raises, the contract is
    classified as non-token. *)
Theorem probe_conservatism (web3 : option Web3) (contract_address : string) :
  (_is_erc20_token web3 contract_address = true <->
     probe_accepts web3 contract_address) /\
  (forall w a,
     web3 = Some w -> to_checksum_address w contract_address = Some a ->
     some_call_fails (contract w a) ->
     _is_erc20_token web3 contract_address = false).
Proof.
  split.
  - unfold probe_accepts. split.
    + unfold _is_erc20_token.
      destruct web3 as [w |]; [| discriminate].
      destruct (to_checksum_address w contract_address) as [a |] eqn:Ha;
        [| discriminate].
      destruct (probe_try (contract w a)) as [verdict | e] eqn:Hp.
      * intros ->. apply probe_try_ok in Hp.
        destruct Hp as (vn & vs & vd & vt & Hn & Hs & Hd & Ht & Hv).
        symmetry in Hv. apply basic_checks_true in Hv.
        destruct Hv as (n & s & d & t & ? & ? & ? & ? & ? & ? & ? & ?).
        exists w, a, vn, vs, vd, vt, n, s, d, t. repeat split; assumption || lia.
      * destruct e; discriminate.
    + intros (w & a & vn & vs & vd & vt & n & s & d & t & -> & Ha & Hn & Hs
              & Hd & Ht & Hrest).
      unfold _is_erc20_token. rewrite Ha.
      assert (Hp : probe_try (contract w a) = Ok (basic_checks vn vs vd vt)).
      { apply probe_try_ok. exists vn, vs, vd, vt. repeat split; assumption. }
      rewrite Hp. apply basic_checks_true. exists n, s, d, t. exact Hrest.
  - intros w a -> Ha Hfail.
    destruct (probe_try_raises _ Hfail) as [e He].
    exact (raised_probe_rejects w a contract_address e Ha He).
Qed.

End WithRuntime.

(** The specification's example is accepted, and the same contract with a
    reverting [decimals] is rejected. *)
Lemma probe_conservatism_witness :
  _is_erc20_token (Sample.web3_of Sample.foo_calls) Sample.address = true /\
  _is_erc20_token (Sample.web3_of Sample.reverting_calls) Sample.address = false.
Proof.
  split.
  - apply (proj1 (probe_conservatism (Sample.web3_of Sample.foo_calls) Sample.address)).
    exists {| to_checksum_address := fun a => Some a;
              contract := fun _ => Sample.foo_calls |},
           Sample.address, (VStr "Foo"), (VStr "FOO"), (VInt 18), (VInt (10 ^ 21)),
           "Foo", "FOO", 18%Z, (10 ^ 21)%Z.
    repeat split; try reflexivity; try discriminate; lia.
  - apply (proj2 (probe_conservatism (Sample.web3_of Sample.reverting_calls)
                    Sample.address)
             {| to_checksum_address := fun a => Some a;
                contract := fun _ => Sample.reverting_calls |} Sample.address).
    + reflexivity.
    + reflexivity.
    + right. right. left. reflexivity.
Defined.

End ListenerFacts.

(** ** The reconnect loop *)

Module BackoffFacts.
Import Listener.

(** Case analysis on every integer comparison of the goal. *)
Ltac by_ltb :=
  repeat match goal with
         | |- context [(?a <? ?b)%Z] => destruct (Z.ltb_spec a b)
         end;
  reflexivity || lia.

Lemma propagating_attempt (self : EthereumWebSocketListener) (e : exn) :
  propagates e ->
  _connect_and_listen self (outcome (failing e)) = (self, Raise e).
Proof.
  intros [Hc Hi]. unfold _connect_and_listen, failing. simpl.
  destruct e; try reflexivity; congruence.
Qed.

Lemma absorbed_attempt (self : EthereumWebSocketListener) (e : exn) :
  e = ConnectionClosed \/ e = InvalidStatusCode ->
  _connect_and_listen self (outcome (failing e)) = (self, Ok tt).
Proof. intros [-> | ->]; reflexivity. Qed.

(** Once the loop has given up, nothing that the node would do next is
    looked at. *)
Lemma gave_up_is_final (script more : list cycle) :
  forall self final sleeps,
    start_loop self script = (final, sleeps, GaveUp) ->
    start_loop self (script ++ more) = (final, sleeps, GaveUp).
Proof.
  induction script as [| c rest IH]; intros self final sleeps H.
  - simpl in H. destruct (is_running self); discriminate.
  - simpl in *. destruct (negb (is_running self)); [discriminate |].
    destruct (_connect_and_listen self (outcome c)) as [self1 r].
    destruct r as [u | e].
    + apply IH. exact H.
    + destruct (reconnect_attempts self1 <? max_reconnect_attempts self1)%Z.
      * destruct (start_loop _ rest) as [[f sl] ex] eqn:E.
        injection H as <- <- ->.
        rewrite (IH _ _ _ E). reflexivity.
      * exact H.
Qed.

Lemma scaled_seq_nondecreasing (d : Z) (n : nat) :
  (0 <= d)%Z ->
  forall a : Z, nondecreasing (map (fun k => d * k)%Z (seqZ a (Z.of_nat n))).
Proof.
  intros Hd. induction n as [| n IH]; intros a.
  - exact I.
  - rewrite seqZ_cons by lia.
    replace (Z.pred (Z.of_nat (S n))) with (Z.of_nat n) by lia.
    destruct n as [| n'].
    + exact I.
    + specialize (IH (Z.succ a)).
      rewrite seqZ_cons in IH |- * by lia.
      simpl map in IH |- *. split; [nia | exact IH].
Qed.

(** The loop under consecutive propagating failures, from any number of
    attempts already made. *)
Lemma failures_from (es : list exn) :
  forall self,
    is_running self = true ->
    Forall propagates es ->
    let a := reconnect_attempts self in
    let m := max_reconnect_attempts self in
    let d := reconnect_delay self in
    let n := Z.of_nat (length es) in
    let '(final, sleeps, ex) := start_loop self (map failing es) in
    sleeps = map (fun k => d * k)%Z (seqZ (a + 1) (Z.min n (m - a))) /\
    ex = (if (Z.max 0 (m - a) <? n)%Z then GaveUp else Looping).
Proof.
  induction es as [| e es IH]; intros self Hrun Hall.
  - simpl. rewrite Hrun. split.
    + rewrite seqZ_nil; [reflexivity | lia].
    + by_ltb.
  - apply Forall_cons in Hall. destruct Hall as [He Hall].
    cbn [map start_loop length]. rewrite Hrun. cbn [negb].
    rewrite (propagating_attempt self e He).
    destruct (Z.ltb_spec (reconnect_attempts self) (max_reconnect_attempts self))
      as [Hlt | Hge].
    + set (self1 := after_cycle (failing e)
                      (set_attempts self (reconnect_attempts self + 1))).
      specialize (IH self1 Hrun Hall).
      destruct (start_loop self1 (map failing es)) as [[final sleeps] ex].
      cbn [reconnect_attempts max_reconnect_attempts reconnect_delay
           self1 after_cycle failing stop_called set_attempts] in IH |- *.
      destruct IH as [-> ->]. split.
      * rewrite (seqZ_cons (reconnect_attempts self + 1)) by lia.
        cbn [map]. f_equal. f_equal. f_equal; lia.
      * by_ltb.
    + split.
      * rewrite seqZ_nil; [reflexivity | lia].
      * by_ltb.
Qed.

(** The loop under consecutive propagating failures of established
    sessions: connecting resets the count, so every failure is the first. *)
Lemma session_failures_from (es : list exn) :
  forall self,
    is_running self = true ->
    (0 < max_reconnect_attempts self)%Z ->
    Forall propagates es ->
    start_loop self (map failing_session es)
    = (match es with
       | [] => self
       | _ :: _ => set_attempts (connected self) 1
       end,
       map (fun _ => reconnect_delay self) es, Looping).
Proof.
  induction es as [| e es IH]; intros self Hrun Hmax Hall.
  - cbn. rewrite Hrun. reflexivity.
  - apply Forall_cons in Hall. destruct Hall as [[Hc Hi] Hall].
    cbn [map start_loop]. rewrite Hrun. cbn [negb].
    assert (Hstep : _connect_and_listen self (outcome (failing_session e))
                    = (connected self, Raise e)).
    { unfold _connect_and_listen, failing_session. cbn.
      destruct e; try reflexivity; congruence. }
    rewrite Hstep. cbn [reconnect_attempts max_reconnect_attempts connected].
    destruct (Z.ltb_spec 0 (max_reconnect_attempts self)) as [_ | Hle]; [| lia].
    cbn [after_cycle failing_session stop_called].
    rewrite (IH (set_attempts (connected self) (0 + 1)) Hrun Hmax Hall).
    cbn [reconnect_delay set_attempts connected reconnect_attempts].
    replace (reconnect_delay self * (0 + 1))%Z with (reconnect_delay self) by lia.
    destruct es; reflexivity.
Qed.




End BackoffFacts.

(** ** Hand-off of a detected token *)

Module HandOffFacts.
Import Models Listener.
Section WithRuntime.
Context {rt : PyRuntime}.

Lemma handle_try_spec (svc : services) (addr : string) (tx : transaction) (now : Q) :
  handle_try svc addr tx now =
  match token_exists svc addr with
  | Raise e => Raise e
  | Ok true => Ok None
  | Ok false =>
      match validate_contract_address addr with
      | Raise e => Raise e
      | Ok lowered =>
          Ok (Some {| contract_address := lowered;
                      name := None; symbol := None; decimals := None;
                      total_supply := None; price_usd := None;
                      market_cap_usd := None; liquidity_usd := None;
                      volume_24h_usd := None; price_change_24h := None;
                      holder_count := None; transaction_count := None;
                      creation_block := tx_blockNumber tx;
                      creation_timestamp := Some now;
                      source := ETHEREUM_WEBSOCKET;
                      detected_at := now |})
      end
  end.
Proof.
  unfold handle_try, TokenInfo_new, bind. cbn.
  destruct (token_exists svc addr) as [[|] | e]; try reflexivity.
  destruct (validate_contract_address addr); reflexivity.
Qed.

(** C7 (amended). The listener itself asks the store whether the address
    already exists before handing a detected token off: an analysis task
    is created exactly when [token_exists] answers no and the address
    passes the [TokenInfo] validator; a known address is dropped.  The
    task carries the lower-cased address, the chain source and the
    creation block. *)
Theorem hand_off_only_if_unknown (self : EthereumWebSocketListener)
    (svc : services) (addr : string) (tx : transaction) (now : Q) :
  let task := snd (_handle_new_erc20_token self svc addr tx now) in
  (is_Some task <->
     token_exists svc addr = Ok false /\
     is_ok (validate_contract_address addr) = true) /\
  (token_exists svc addr = Ok true -> task = None) /\
  (forall t, task = Some t ->
     validate_contract_address addr = Ok (contract_address t) /\
     source t = ETHEREUM_WEBSOCKET /\
     creation_block t = tx_blockNumber tx) /\
  tokens_processed (fst (_handle_new_erc20_token self svc addr tx now))
  = (tokens_processed self + 1)%Z.
Proof.
  unfold _handle_new_erc20_token. rewrite handle_try_spec.
  destruct (token_exists svc addr) as [[|] | e] eqn:Hex; cbn.
  - split_and!.
    + split; [intros [t Ht]; discriminate | intros [Ha Hb]; discriminate].
    + reflexivity.
    + intros t Ht; discriminate.
    + reflexivity.
  - destruct (validate_contract_address addr) as [lowered | e] eqn:Hv; cbn.
    + split_and!.
      * split; [intros _; split; reflexivity | intros _; eexists; reflexivity].
      * discriminate.
      * intros t [= <-]. split_and!; reflexivity.
      * reflexivity.
    + split_and!.
      * split; [intros [t Ht]; discriminate | intros [Ha Hb]; discriminate].
      * discriminate.
      * intros t Ht; discriminate.
      * reflexivity.
  - split_and!.
    + split; [intros [t Ht]; discriminate | intros [Ha Hb]; discriminate].
    + discriminate.
    + intros t Ht; discriminate.
    + reflexivity.
Qed.

End WithRuntime.

#[local] Existing Instance Sample.runtime.

(** A freshly deployed token whose address the store does not know is
    handed off. *)
Lemma hand_off_only_if_unknown_witness :
  is_Some (snd (_handle_new_erc20_token (init Config.settings)
                  (Sample.services_with false) Sample.address
                  Sample.creation_tx 0)).
Proof.
  apply (proj1 (hand_off_only_if_unknown (init Config.settings)
                  (Sample.services_with false) Sample.address
                  Sample.creation_tx 0)).
  split; reflexivity.
Defined.

(** An accepted token whose address the store already knows: the
    listener's own existence check drops it, no task is created. *)
Lemma known_address_not_handed_off :
  snd (_handle_new_erc20_token (init Config.settings)
         (Sample.services_with true) Sample.address Sample.creation_tx 0)
  = None /\
  Listener._is_erc20_token (Sample.web3_of Sample.foo_calls) Sample.address = true.
Proof. split; reflexivity. Qed.

End HandOffFacts.

(** ** Validation of the scoring collaborator's answer *)

Module ParseFacts.
Import Models Analyzer.
Section WithRuntime.
Context {rt : PyRuntime}.

Lemma field_ge_le_ok (lo hi : Q) (v w : pyfloat) :
  field_ge_le lo hi v = Ok w -> w = v /\ between lo hi v = true.
Proof.
  unfold field_ge_le. destruct (between lo hi v); [| discriminate].
  intros [= <-]. split; reflexivity.
Qed.

(** What a successful construction keeps of its arguments. *)
Lemma AIAnalysis_new_ok
    (s : pyfloat) (rr : json) (rk op : option json) (rec : Recommendation)
    (c : pyfloat) (v l t cm : option json) (mu : string) (ad : Q) (tu : Z)
    (a : AIAnalysis) :
  AIAnalysis_new s rr rk op rec c v l t cm mu ad tu = Ok a ->
  score a = s /\ confidence a = c /\ recommendation a = rec /\
  between 0 10 s = true /\ between 0 1 c = true.
Proof.
  unfold AIAnalysis_new, bind.
  destruct (field_ge_le 0 10 s) as [s' |] eqn:Hs; [| discriminate].
  apply field_ge_le_ok in Hs. destruct Hs as [-> Hs].
  destruct (validated (coerce_str rr)); [| discriminate].
  destruct (match rk with Some _ => _ | None => _ end); [| discriminate].
  destruct (match op with Some _ => _ | None => _ end); [| discriminate].
  destruct (field_ge_le 0 1 c) as [c' |] eqn:Hc; [| discriminate].
  apply field_ge_le_ok in Hc. destruct Hc as [-> Hc].
  destruct (match v with Some _ => _ | None => _ end); [| discriminate].
  destruct (match l with Some _ => _ | None => _ end); [| discriminate].
  destruct (match t with Some _ => _ | None => _ end); [| discriminate].
  destruct (match cm with Some _ => _ | None => _ end); [| discriminate].
  intros [= <-]. cbn. repeat split; assumption.
Qed.

(** Whether the construction succeeds does not depend on the
    recommendation, the model name, the duration or the token count. *)
Lemma AIAnalysis_new_accepts
    (s : pyfloat) (rr : json) (rk op : option json) (rec rec' : Recommendation)
    (c : pyfloat) (v l t cm : option json) (mu mu' : string) (ad ad' : Q)
    (tu tu' : Z) :
  is_ok (AIAnalysis_new s rr rk op rec c v l t cm mu ad tu) =
  is_ok (AIAnalysis_new s rr rk op rec' c v l t cm mu' ad' tu').
Proof.
  unfold AIAnalysis_new, bind.
  destruct (field_ge_le 0 10 s); [| reflexivity].
  destruct (validated (coerce_str rr)); [| reflexivity].
  destruct (match rk with Some _ => _ | None => _ end); [| reflexivity].
  destruct (match op with Some _ => _ | None => _ end); [| reflexivity].
  destruct (field_ge_le 0 1 c); [| reflexivity].
  destruct (match v with Some _ => _ | None => _ end); [| reflexivity].
  destruct (match l with Some _ => _ | None => _ end); [| reflexivity].
  destruct (match t with Some _ => _ | None => _ end); [| reflexivity].
  destruct (match cm with Some _ => _ | None => _ end); reflexivity.
Qed.

(** The four required keys, when the membership loop passes. *)
Lemma required_present (data : gmap string json) :
  forallb (fun field => bool_decide (is_Some (data !! field))) required_fields = true ->
  is_Some (data !! "score") /\ is_Some (data !! "reasoning") /\
  is_Some (data !! "recommendation") /\ is_Some (data !! "confidence").
Proof.
  unfold required_fields. cbn [forallb].
  rewrite !andb_true_iff, !bool_decide_eq_true. tauto.
Qed.

Lemma parse_on_dict (self : GPTAnalyzerService) (r : ai_result)
    (start_time now : Q) (text : string) (data : gmap string json) :
  content r = Some text ->
  json_loads text = Some (JObj data) ->
  _parse_ai_response self r start_time now =
  on_dict data (model r) (now - start_time) (tokens_used_ r).
Proof.
  intros Hc Hj. unfold _parse_ai_response, parse_try, on_dict, getitem, bind.
  rewrite Hc, Hj.
  destruct (forallb _ required_fields) eqn:Hreq; cbn [negb].
  - apply required_present in Hreq.
    destruct Hreq as ([rs ->] & [rr ->] & [rrec ->] & [rc ->]).
    destruct (py_float rs) as [sc | e]; [| destruct e; reflexivity].
    destruct (between 0 10 sc); cbn [negb]; [| reflexivity].
    destruct (py_float rc) as [cf | e]; [| destruct e; reflexivity].
    destruct (between 0 1 cf); cbn [negb]; [| reflexivity].
    destruct rrec; try reflexivity.
    fold (coerced s).
    destruct (AIAnalysis_new _ _ _ _ _ _ _ _ _ _ _ _ _) as [a | e];
      [reflexivity | destruct e; reflexivity].
  - unfold required_fields in Hreq. cbn [forallb] in Hreq.
    rewrite !andb_false_iff, !bool_decide_eq_false in Hreq.
    rewrite <- !eq_None_not_Some in Hreq.
    destruct Hreq as [H | [H | [H | [H | H]]]]; try discriminate;
      rewrite H; repeat case_match; reflexivity.
Qed.

Lemma parse_needs_dict (self : GPTAnalyzerService) (r : ai_result)
    (start_time now : Q) (a : AIAnalysis) :
  _parse_ai_response self r start_time now = Some a ->
  exists text data, content r = Some text /\ json_loads text = Some (JObj data).
Proof.
  unfold _parse_ai_response, parse_try, bind.
  destruct (content r) as [text |] eqn:Hc; [| discriminate].
  destruct (json_loads text) as [[| | | | | | data] |] eqn:Hj; try discriminate.
  intros _. exists text, data. split; [reflexivity | exact Hj].
Qed.

Lemma on_dict_some (data : gmap string json) (mu : string) (ad : Q) (tu : Z)
    (a : AIAnalysis) :
  on_dict data mu ad tu = Some a ->
  exists raw_score raw_confidence recommendation_str,
    data !! "score" = Some raw_score /\
    py_float raw_score = Ok (score a) /\ between 0 10 (score a) = true /\
    data !! "confidence" = Some raw_confidence /\
    py_float raw_confidence = Ok (confidence a) /\
    between 0 1 (confidence a) = true /\
    data !! "recommendation" = Some (JStr recommendation_str) /\
    recommendation a = coerced recommendation_str.
Proof.
  unfold on_dict.
  destruct (data !! "score") as [rs |] eqn:Hrs; [| discriminate].
  destruct (data !! "reasoning") as [rr |]; [| discriminate].
  destruct (data !! "recommendation") as [rrec |] eqn:Hrec; [| discriminate].
  destruct (data !! "confidence") as [rc |] eqn:Hrc; [| discriminate].
  destruct (py_float rs) as [sc |] eqn:Hfs; [| discriminate].
  destruct (between 0 10 sc) eqn:Hsc; [| discriminate].
  destruct (py_float rc) as [cf |] eqn:Hfc; [| discriminate].
  destruct (between 0 1 cf) eqn:Hcf; [| discriminate].
  destruct rrec as [| | | | str | |]; try discriminate.
  destruct (AIAnalysis_new _ _ _ _ _ _ _ _ _ _ _ _ _) as [a' |] eqn:Hnew;
    [| discriminate].
  intros [= ->]. apply AIAnalysis_new_ok in Hnew.
  destruct Hnew as (-> & -> & -> & _ & _).
  exists rs, rc, str. split_and!; assumption || reflexivity.
Qed.

(** Acceptance of a dictionary does not depend on which string it gives
    as recommendation. *)
Lemma on_dict_any_recommendation (data : gmap string json)
    (str str' mu mu' : string) (ad ad' : Q) (tu tu' : Z) :
  is_Some (on_dict (<["recommendation" := JStr str]> data) mu ad tu) <->
  is_Some (on_dict (<["recommendation" := JStr str']> data) mu' ad' tu').
Proof.
  unfold on_dict.
  rewrite !lookup_insert_eq.
  rewrite !(lookup_insert_ne _ "recommendation") by discriminate.
  destruct (data !! "score") as [rs |]; [| reflexivity].
  destruct (data !! "reasoning") as [rr |]; [| reflexivity].
  destruct (data !! "confidence") as [rc |]; [| reflexivity].
  destruct (py_float rs) as [sc |]; [| reflexivity].
  destruct (between 0 10 sc); [| reflexivity].
  destruct (py_float rc) as [cf |]; [| reflexivity].
  destruct (between 0 1 cf); [| reflexivity].
  pose proof (AIAnalysis_new_accepts sc rr (data !! "risks")
                (data !! "opportunities") (coerced str) (coerced str') cf
                (data !! "virality_score") (data !! "liquidity_score")
                (data !! "technical_score") (data !! "community_score")
                mu mu' ad ad' tu tu') as Hacc.
  destruct (AIAnalysis_new sc rr _ _ (coerced str) _ _ _ _ _ mu ad tu);
    destruct (AIAnalysis_new sc rr _ _ (coerced str') _ _ _ _ _ mu' ad' tu');
    cbn in Hacc; try discriminate; split; intros [x Hx]; eauto; discriminate.
Qed.

(** C3. An answer is accepted only with a score in [0,10] and a
    confidence in [0,1]: otherwise [_parse_ai_response] returns nothing.
    The recommendation of an accepted answer is the member named by its
    recommendation string, and [RESEARCH] when the string names none;
    whether an answer is accepted never depends on that string. *)
Theorem response_validation (self : GPTAnalyzerService) (r : ai_result)
    (start_time now : Q) :
  (forall a,
     _parse_ai_response self r start_time now = Some a ->
     exists text data raw_score raw_confidence recommendation_str,
       content r = Some text /\ json_loads text = Some (JObj data) /\
       data !! "score" = Some raw_score /\
       py_float raw_score = Ok (score a) /\ between 0 10 (score a) = true /\
       data !! "confidence" = Some raw_confidence /\
       py_float raw_confidence = Ok (confidence a) /\
       between 0 1 (confidence a) = true /\
       data !! "recommendation" = Some (JStr recommendation_str) /\
       recommendation a = coerced recommendation_str /\
       (Recommendation_of_value (str_lower (str_upper recommendation_str)) = None ->
        recommendation a = RESEARCH)) /\
  (forall r' text text' data str str',
     content r = Some text ->
     json_loads text = Some (JObj (<["recommendation" := JStr str]> data)) ->
     content r' = Some text' ->
     json_loads text' = Some (JObj (<["recommendation" := JStr str']> data)) ->
     (is_Some (_parse_ai_response self r start_time now) <->
      is_Some (_parse_ai_response self r' start_time now))).
Proof.
  split.
  - intros a Ha.
    destruct (parse_needs_dict self r start_time now a Ha)
      as (text & data & Hc & Hj).
    rewrite (parse_on_dict self r start_time now text data Hc Hj) in Ha.
    apply on_dict_some in Ha.
    destruct Ha as (rs & rc & str & H1 & H2 & H3 & H4 & H5 & H6 & H7 & H8).
    exists text, data, rs, rc, str.
    split_and!; try assumption.
    intros Hnone. rewrite H8. unfold coerced. rewrite Hnone. reflexivity.
  - intros r' text text' data str str' Hc Hj Hc' Hj'.
    rewrite (parse_on_dict self r start_time now _ _ Hc Hj).
    rewrite (parse_on_dict self r' start_time now _ _ Hc' Hj').
    apply on_dict_any_recommendation.
Qed.

End WithRuntime.

#[local] Existing Instance Sample.runtime.

(** An answer recommending "STRONG_BUY", which names no member, with
    score 8.2 and confidence 0.9: accepted, as [RESEARCH]. *)
Lemma response_validation_witness :
  exists a,
    _parse_ai_response Sample.analyzer
      {| content := Some "strong-buy"; tokens_used_ := 350; model := "m" |} 0 2
    = Some a /\
    recommendation a = RESEARCH /\
    between 0 10 (score a) = true /\ between 0 1 (confidence a) = true.
Proof.
  destruct (_parse_ai_response Sample.analyzer
              {| content := Some "strong-buy"; tokens_used_ := 350; model := "m" |}
              0 2) as [a |] eqn:E; [| vm_compute in E; discriminate].
  exists a. split; [reflexivity |].
  destruct (proj1 (response_validation Sample.analyzer
              {| content := Some "strong-buy"; tokens_used_ := 350; model := "m" |}
              0 2) a E)
    as (text & data & rs & rc & str & Hc & Hj & _ & _ & Hs & _ & _ & Hcf & Hr & _ & Hres).
  split_and!; try assumption.
  apply Hres.
  injection Hc as <-. vm_compute in Hj. injection Hj as <-.
  vm_compute in Hr. injection Hr as <-. reflexivity.
Defined.

End ParseFacts.

(** ** The result cache and the failure path *)

Module CacheFacts.
Import Models Analyzer.
Section WithRuntime.
Context {rt : PyRuntime}.

(** A lookup leaves the TTL alone, and after a miss the key is absent. *)
Lemma lookup_keeps_ttl (self : GPTAnalyzerService) (addr : string) (now : Q) :
  _cache_ttl (snd (_get_cached_analysis self addr now)) = _cache_ttl self.
Proof.
  unfold _get_cached_analysis.
  destruct (_analysis_cache self !! str_lower addr) as [[cached ts] |];
    [| reflexivity].
  destruct (Qlt_bool _ _); reflexivity.
Qed.

Lemma miss_leaves_no_entry (self : GPTAnalyzerService) (addr : string) (now : Q) :
  fst (_get_cached_analysis self addr now) = None ->
  _analysis_cache (snd (_get_cached_analysis self addr now)) !! str_lower addr = None.
Proof.
  unfold _get_cached_analysis.
  destruct (_analysis_cache self !! str_lower addr) as [[cached ts] |] eqn:E.
  - destruct (Qlt_bool _ _); [discriminate |].
    intros _. cbn. apply lookup_delete_eq.
  - intros _. exact E.
Qed.

(** A fresh entry is served and nothing changes. *)
Lemma fresh_entry_hit (self : GPTAnalyzerService) (addr : string) (now ts : Q)
    (cached : AIAnalysis) :
  _analysis_cache self !! str_lower addr = Some (cached, ts) ->
  (now - ts < inject_Z (_cache_ttl self))%Q ->
  _get_cached_analysis self addr now = (Some cached, self).
Proof.
  intros E Hfresh. unfold _get_cached_analysis. rewrite E.
  apply PyFacts.Qlt_bool_iff in Hfresh. rewrite Hfresh. reflexivity.
Qed.

(** An entry as old as the TTL, or no entry: a miss. *)
Lemma stale_entry_miss (self : GPTAnalyzerService) (addr : string) (now ts : Q)
    (cached : AIAnalysis) :
  _analysis_cache self !! str_lower addr = Some (cached, ts) \/
  _analysis_cache self !! str_lower addr = None ->
  (inject_Z (_cache_ttl self) <= now - ts)%Q ->
  fst (_get_cached_analysis self addr now) = None.
Proof.
  intros [E | E] Hstale; unfold _get_cached_analysis; rewrite E.
  - apply PyFacts.Qlt_bool_not in Hstale. rewrite Hstale. reflexivity.
  - reflexivity.
Qed.

(** What [_cache_analysis] leaves under the key it wrote. *)
Lemma stored_entry (self : GPTAnalyzerService) (addr : string) (ai : AIAnalysis)
    (now cleanup_time : Q) :
  let after := _cache_analysis self addr ai now cleanup_time in
  _cache_ttl after = _cache_ttl self /\
  (_analysis_cache after !! str_lower addr = Some (ai, now) \/
   _analysis_cache after !! str_lower addr = None) /\
  ((cleanup_time - now < inject_Z (_cache_ttl self))%Q ->
   _analysis_cache after !! str_lower addr = Some (ai, now)).
Proof.
  unfold _cache_analysis. cbn.
  destruct (1000 <? _)%Z; cbn.
  - split_and!.
    + reflexivity.
    + destruct (decide (Qge_bool (cleanup_time - now)
                          (inject_Z (_cache_ttl self)) = false)) as [Hkeep | Hdrop].
      * left. apply map_lookup_filter_Some. split;
          [apply lookup_insert_eq | exact Hkeep].
      * right. apply map_lookup_filter_None. right.
        intros x Hx. rewrite lookup_insert_eq in Hx. injection Hx as <-.
        exact Hdrop.
    + intros Hfresh. apply map_lookup_filter_Some. split;
        [apply lookup_insert_eq | apply PyFacts.Qge_bool_not; exact Hfresh].
  - split_and!; [reflexivity | left; apply lookup_insert_eq |
                 intros _; apply lookup_insert_eq].
Qed.

(** [analyze_token] after a hit and after a miss. *)
Lemma analyze_token_hit (self self' : GPTAnalyzerService) (ti : TokenInfo)
    (api : api_outcome) (clk : clock) (cached : AIAnalysis) :
  _get_cached_analysis self (contract_address ti) (t_lookup clk)
  = (Some cached, self') ->
  exists a, analyze_token self ti api clk = (a, self', 0%nat) /\
            status a = COMPLETED /\ ai_analysis a = Some cached.
Proof.
  intros H. unfold analyze_token. rewrite H.
  eexists. split_and!; reflexivity.
Qed.

Lemma analyze_token_miss (self : GPTAnalyzerService) (ti : TokenInfo)
    (api : api_outcome) (clk : clock) :
  fst (_get_cached_analysis self (contract_address ti) (t_lookup clk)) = None ->
  snd (analyze_token self ti api clk) = 1%nat.
Proof.
  unfold analyze_token.
  destruct (_get_cached_analysis self (contract_address ti) (t_lookup clk))
    as [cached self'].
  cbn. intros ->.
  destruct (_call_openai_api api) as [r |]; [| reflexivity].
  destruct (_parse_ai_response self' r (t_start clk) (t_parsed clk));
    reflexivity.
Qed.

(** A first analysis that asked the scoring collaborator and completed
    has cached its result with the reading [t_cached]. *)
Lemma completed_analysis_cached (self s1 : GPTAnalyzerService) (ti : TokenInfo)
    (api : api_outcome) (clk : clock) (a1 : TokenAnalysis) :
  analyze_token self ti api clk = (a1, s1, 1%nat) ->
  status a1 = COMPLETED ->
  exists ai,
    ai_analysis a1 = Some ai /\
    _cache_ttl s1 = _cache_ttl self /\
    (_analysis_cache s1 !! str_lower (contract_address ti) = Some (ai, t_cached clk) \/
     _analysis_cache s1 !! str_lower (contract_address ti) = None) /\
    ((t_cleanup clk - t_cached clk < inject_Z (_cache_ttl self))%Q ->
     _analysis_cache s1 !! str_lower (contract_address ti) = Some (ai, t_cached clk)).
Proof.
  unfold analyze_token.
  pose proof (lookup_keeps_ttl self (contract_address ti) (t_lookup clk)) as Httl.
  destruct (_get_cached_analysis self (contract_address ti) (t_lookup clk))
    as [[cached |] self']; cbn in Httl.
  - intros [= _ _]. 
  - destruct (_call_openai_api api) as [r |].
    + destruct (_parse_ai_response self' r (t_start clk) (t_parsed clk)) as [ai |].
      * intros [= <- <-] _. exists ai.
        pose proof (stored_entry self' (contract_address ti) ai
                      (t_cached clk) (t_cleanup clk)) as (H1 & H2 & H3).
        cbn. rewrite <- Httl. split_and!; [reflexivity | exact H1 | exact H2 | exact H3].
      * intros [= <- _]. discriminate.
    + intros [= <- _]. discriminate.
Qed.

(** C4. After an analysis that asked the scoring collaborator and
    completed, a second analysis of the same address whose lookup comes
    less than the TTL after the entry was stored (the clock not having
    gone back) completes with the cached result and asks nothing; once
    the TTL has elapsed the lookup misses, leaves no entry under the
    address, and the scoring collaborator is asked again. *)
Theorem cache_correctness (self s1 : GPTAnalyzerService) (ti ti' : TokenInfo)
    (api api' : api_outcome) (clk clk' : clock) (a1 : TokenAnalysis) :
  contract_address ti' = contract_address ti ->
  analyze_token self ti api clk = (a1, s1, 1%nat) ->
  status a1 = COMPLETED ->
  let ttl := inject_Z (_cache_ttl self) in
  let age := t_lookup clk' - t_cached clk in
  ((age < ttl)%Q -> (t_cleanup clk <= t_lookup clk')%Q ->
   exists a2,
     analyze_token s1 ti' api' clk' = (a2, s1, 0%nat) /\
     status a2 = COMPLETED /\
     is_Some (ai_analysis a2) /\ ai_analysis a2 = ai_analysis a1) /\
  ((ttl <= age)%Q ->
   snd (analyze_token s1 ti' api' clk') = 1%nat /\
   fst (_get_cached_analysis s1 (contract_address ti') (t_lookup clk')) = None /\
   _analysis_cache
     (snd (_get_cached_analysis s1 (contract_address ti') (t_lookup clk')))
   !! str_lower (contract_address ti') = None).
Proof.
  intros Haddr Hfirst Hdone ttl age.
  destruct (completed_analysis_cached self s1 ti api clk a1 Hfirst Hdone)
    as (ai & Hai & Httl & Hentry & Hkept).
  rewrite Haddr. split.
  - intros Hage Hclock.
    assert (Hin : _analysis_cache s1 !! str_lower (contract_address ti)
                  = Some (ai, t_cached clk)).
    { apply Hkept. unfold age, ttl in Hage. lra. }
    assert (Hhit : _get_cached_analysis s1 (contract_address ti') (t_lookup clk')
                   = (Some ai, s1)).
    { rewrite Haddr. apply (fresh_entry_hit s1 _ _ (t_cached clk)); [exact Hin |].
      rewrite Httl. exact Hage. }
    destruct (analyze_token_hit s1 s1 ti' api' clk' ai Hhit) as (a2 & H2 & Hst & Hres).
    exists a2. split_and!; [exact H2 | exact Hst | | congruence].
    rewrite Hres. eexists. reflexivity.
  - intros Hage.
    assert (Hmiss : fst (_get_cached_analysis s1 (contract_address ti)
                           (t_lookup clk')) = None).
    { apply (stale_entry_miss s1 _ _ (t_cached clk) ai); [exact Hentry |].
      rewrite Httl. exact Hage. }
    split_and!.
    + apply analyze_token_miss. rewrite Haddr. exact Hmiss.
    + exact Hmiss.
    + apply miss_leaves_no_entry. exact Hmiss.
Qed.

(** When the scoring step fails on a miss, the analysis is a [FAILED] record with a message and no result, one request
    was made, and the analyzer is as the lookup left it: no entry under
    the address. *)
Lemma failed_scoring_not_cached (self : GPTAnalyzerService) (ti : TokenInfo)
    (api : api_outcome) (clk : clock) :
  fst (_get_cached_analysis self (contract_address ti) (t_lookup clk)) = None ->
  scoring_fails (snd (_get_cached_analysis self (contract_address ti) (t_lookup clk)))
                api (t_start clk) (t_parsed clk) ->
  exists a msg,
    analyze_token self ti api clk
    = (a, snd (_get_cached_analysis self (contract_address ti) (t_lookup clk)), 1%nat) /\
    status a = FAILED /\ error_message a = Some msg /\ msg <> "" /\
    ai_analysis a = None /\
    _analysis_cache
      (snd (_get_cached_analysis self (contract_address ti) (t_lookup clk)))
    !! str_lower (contract_address ti) = None.
Proof.
  intros Hmiss Hfail.
  pose proof (miss_leaves_no_entry self (contract_address ti) (t_lookup clk) Hmiss)
    as Hgone.
  unfold analyze_token.
  destruct (_get_cached_analysis self (contract_address ti) (t_lookup clk))
    as [cached self'].
  cbn in Hmiss, Hfail, Hgone |- *. subst cached.
  destruct Hfail as [Hcall | (r & Hcall & Hparse)]; rewrite Hcall.
  - eexists _, _. split_and!; try reflexivity; [discriminate | exact Hgone].
  - rewrite Hparse.
    eexists _, _. split_and!; try reflexivity; [discriminate | exact Hgone].
Qed.

(** An answer that passes validation completes the analysis on a miss. *)
Lemma good_answer_completes (self : GPTAnalyzerService) (ti : TokenInfo)
    (r : ai_result) (clk : clock) (ai : AIAnalysis) :
  fst (_get_cached_analysis self (contract_address ti) (t_lookup clk)) = None ->
  _parse_ai_response
    (snd (_get_cached_analysis self (contract_address ti) (t_lookup clk)))
    r (t_start clk) (t_parsed clk) = Some ai ->
  status (fst (fst (analyze_token self ti (ApiReturns r) clk))) = COMPLETED /\
  ai_analysis (fst (fst (analyze_token self ti (ApiReturns r) clk))) = Some ai.
Proof.
  unfold analyze_token.
  destruct (_get_cached_analysis self (contract_address ti) (t_lookup clk))
    as [cached self'].
  cbn. intros -> ->. split; reflexivity.
Qed.

End WithRuntime.

#[local] Existing Instance Sample.runtime.

(** With the default TTL of 300 seconds: an analysis completed at time 0
    is served from the cache at time 100, and the scoring collaborator is
    asked again at time 400. *)
Lemma cache_correctness_witness :
  let first :=
    analyze_token Sample.analyzer Sample.token (Sample.reply "strong-buy")
                  (Sample.at_time 0) in
  snd (analyze_token (snd (fst first)) Sample.token (ApiRaises TimeoutError)
         (Sample.at_time 100)) = 0%nat /\
  snd (analyze_token (snd (fst first)) Sample.token (Sample.reply "strong-buy")
         (Sample.at_time 400)) = 1%nat.
Proof.
  intros first.
  assert (Hfirst : first = (fst (fst first), snd (fst first), 1%nat))
    by (vm_compute; reflexivity).
  assert (Hdone : status (fst (fst first)) = COMPLETED)
    by (vm_compute; reflexivity).
  split.
  - destruct (cache_correctness Sample.analyzer (snd (fst first))
                Sample.token Sample.token (Sample.reply "strong-buy")
                (ApiRaises TimeoutError) (Sample.at_time 0) (Sample.at_time 100)
                (fst (fst first)) eq_refl Hfirst Hdone) as [Hhit _].
    destruct Hhit as (a2 & Hrun & _).
    + vm_compute. reflexivity.
    + vm_compute. discriminate.
    + rewrite Hrun. reflexivity.
  - destruct (cache_correctness Sample.analyzer (snd (fst first))
                Sample.token Sample.token (Sample.reply "strong-buy")
                (Sample.reply "strong-buy") (Sample.at_time 0) (Sample.at_time 400)
                (fst (fst first)) eq_refl Hfirst Hdone) as [_ Hmiss].
    destruct Hmiss as (Hcalls & _).
    + vm_compute. discriminate.
    + exact Hcalls.
Defined.

End CacheFacts.

(** ** A failing scoring step in the pipeline *)

Module FailureFacts.
Import Models Analyzer Listener.
Section WithRuntime.
Context {rt : PyRuntime}.

Lemma timeout_is_failure (self : GPTAnalyzerService) (start_time now : Q) :
  scoring_fails self (ApiRaises TimeoutError) start_time now.
Proof. left. reflexivity. Qed.

(** C6. When the scoring call of a candidate is made and times out,
    raises otherwise, or returns an answer that does not pass validation:
    [analyze_token] returns a [FAILED] analysis with a message instead of
    raising; [_analyze_token_async] ends without calling the notifier and
    leaves the analyzer without a cache entry for the address; and that
    analyzer completes a later candidate whose answer is valid. *)
Theorem scoring_failure_contained (svc : services) (cfg : Config.Settings)
    (gpt : GPTAnalyzerService) (token_info complete : TokenInfo)
    (api : api_outcome) (clk : clock) :
  scan_token svc (contract_address token_info) = Ok (Some complete) ->
  let looked := _get_cached_analysis gpt (contract_address complete) (t_lookup clk) in
  fst looked = None ->
  scoring_fails (snd looked) api (t_start clk) (t_parsed clk) ->
  (exists a msg,
     analyze_token gpt (with_origin complete token_info) api clk
     = (a, snd looked, 1%nat) /\
     status a = FAILED /\ error_message a = Some msg /\ msg <> "" /\
     ai_analysis a = None) /\
  fst (_analyze_token_async svc cfg gpt token_info api clk) = snd looked /\
  alerts (snd (_analyze_token_async svc cfg gpt token_info api clk)) = [] /\
  api_calls (snd (_analyze_token_async svc cfg gpt token_info api clk)) = 1%nat /\
  _analysis_cache (fst (_analyze_token_async svc cfg gpt token_info api clk))
  !! str_lower (contract_address complete) = None /\
  (forall next r clk' ai,
     fst (_get_cached_analysis (snd looked) (contract_address next) (t_lookup clk'))
     = None ->
     _parse_ai_response
       (snd (_get_cached_analysis (snd looked) (contract_address next) (t_lookup clk')))
       r (t_start clk') (t_parsed clk') = Some ai ->
     status (fst (fst (analyze_token (snd looked) next (ApiReturns r) clk')))
     = COMPLETED).
Proof.
  intros Hscan looked Hmiss Hfail.
  destruct (CacheFacts.failed_scoring_not_cached gpt (with_origin complete token_info)
              api clk Hmiss Hfail)
    as (a & msg & Hrun & Hst & Hmsg & Hne & Hai & Hgone).
  cbn [with_origin contract_address] in Hrun, Hgone. fold looked in Hrun, Hgone.
  assert (Hasync : _analyze_token_async svc cfg gpt token_info api clk
                   = (snd looked,
                      {| saved := [a]; alerts := []; api_calls := 1;
                         logged := match save_token_analysis svc a with
                                   | Raise e => Some e
                                   | Ok _ => Some TypeError
                                   end |})).
  { unfold _analyze_token_async. rewrite Hscan, Hrun.
    destruct (save_token_analysis svc a); [| reflexivity].
    unfold score_ge, ai_score. rewrite Hai. reflexivity. }
  rewrite Hasync. cbn [fst snd alerts api_calls].
  split_and!; try reflexivity.
  - exists a, msg. split_and!; assumption.
  - exact Hgone.
  - intros next r clk' ai Hmiss' Hgood.
    exact (proj1 (CacheFacts.good_answer_completes (snd looked) next r clk' ai
                    Hmiss' Hgood)).
Qed.

End WithRuntime.

#[local] Existing Instance Sample.runtime.

(** A timeout on a first analysis with the sample collaborators: no
    alert, one request, nothing cached. *)
Lemma scoring_failure_contained_witness :
  alerts (snd (_analyze_token_async (Sample.services_with false) Config.settings
                 Sample.analyzer Sample.token (ApiRaises TimeoutError)
                 (Sample.at_time 10))) = [] /\
  _analysis_cache (fst (_analyze_token_async (Sample.services_with false)
                          Config.settings Sample.analyzer Sample.token
                          (ApiRaises TimeoutError) (Sample.at_time 10)))
  !! str_lower Sample.address = None.
Proof.
  pose proof (scoring_failure_contained (Sample.services_with false) Config.settings
                Sample.analyzer Sample.token Sample.token (ApiRaises TimeoutError)
                (Sample.at_time 10) eq_refl eq_refl
                (timeout_is_failure _ _ _)) as (_ & _ & Halerts & _ & Hcache & _).
  split; [exact Halerts | exact Hcache].
Defined.

End FailureFacts.

(** ** The notification queue *)

Module NotifierFacts.
Import Models Notifier.
Section WithFormatters.
Context {AnalysisResult : Type} (overall_score : AnalysisResult -> pyfloat).
Context (_format_token_notification : TokenInfo -> AnalysisResult -> Q -> result string).

Lemma worker_turn_keeps (self : TelegramNotifierService) :
  is_running (fst (worker_turn self)) = is_running self /\
  chat_ids (fst (worker_turn self)) = chat_ids self /\
  message_queue (fst (worker_turn self)) = drop 1 (message_queue self) /\
  snd (worker_turn self)
  = flat_map (fun q => _send_message_to_all_chats self (message q))
             (take 1 (message_queue self)).
Proof.
  unfold worker_turn. destruct (message_queue self) as [| q rest] eqn:E; cbn.
  - rewrite E. split_and!; reflexivity.
  - rewrite drop_0, take_0. cbn. rewrite app_nil_r. split_and!; reflexivity.
Qed.

(** [n] turns of a running worker: what is left, and what was sent. *)
Lemma worker_turns (n : nat) (self : TelegramNotifierService) :
  is_running self = true ->
  message_queue (fst (_message_worker n self)) = drop n (message_queue self) /\
  snd (_message_worker n self)
  = flat_map (fun q => _send_message_to_all_chats self (message q))
             (take n (message_queue self)).
Proof.
  revert self. induction n as [| n IH]; intros self Hrun.
  - cbn. rewrite drop_0. split; reflexivity.
  - cbn [_message_worker]. rewrite Hrun. cbn [negb].
    destruct (worker_turn_keeps self) as (Hr & Hc & Hq & Hs).
    destruct (worker_turn self) as [self1 sent1]. cbn [fst snd] in *.
    assert (Hrun1 : is_running self1 = true) by congruence.
    specialize (IH self1 Hrun1).
    destruct (_message_worker n self1) as [final more]. cbn [fst snd] in *.
    destruct IH as [IHq IHs]. rewrite IHq, IHs, Hq, Hs. split.
    + rewrite drop_drop. reflexivity.
    + unfold _send_message_to_all_chats. rewrite Hc.
      destruct (message_queue self) as [| q rest]; cbn.
      * rewrite take_nil. reflexivity.
      * rewrite drop_0, app_nil_r. reflexivity.
Qed.

(** C8 (amended). The worker takes the messages in arrival order,
    whatever their priority tags: after [n] turns it has sent, to every
    chat, exactly the [n] oldest messages of the queue, oldest first, and
    the others are still queued in their order; a turn on a non-empty
    queue sends its head. *)
Theorem worker_is_fifo (n : nat) (self : TelegramNotifierService) :
  is_running self = true ->
  message_queue (fst (_message_worker n self)) = drop n (message_queue self) /\
  snd (_message_worker n self)
  = flat_map (fun q => _send_message_to_all_chats self (message q))
             (take n (message_queue self)) /\
  (forall oldest pending,
     message_queue self = oldest :: pending ->
     worker_turn self
     = (set_queue self pending, _send_message_to_all_chats self (message oldest))).
Proof.
  intros Hrun. destruct (worker_turns n self Hrun) as [Hq Hs].
  split_and!; [exact Hq | exact Hs |].
  intros oldest pending Hqueue. unfold worker_turn. rewrite Hqueue. reflexivity.
Qed.

End WithFormatters.

Section WithHelpers.
Context {AnalysisResult : Type} (overall_score : AnalysisResult -> pyfloat).
Context (get_score_emoji : pyfloat -> result string)
        (get_price_change_emoji : option Q -> result string)
        (score_lines : AnalysisResult -> string -> result string)
        (detail_lines : AnalysisResult -> result string)
        (token_lines : TokenInfo -> string -> string)
        (market_lines : TokenInfo -> string -> string)
        (age_line : Q -> string)
        (links : TokenInfo -> option string -> string)
        (footer : TokenInfo -> Q -> string).

#[local] Notation "'format_'" :=
  (NotifierFormat._format_token_notification overall_score get_score_emoji
     get_price_change_emoji score_lines detail_lines token_lines market_lines
     age_line links footer) (only parsing).

(** The token message is never built: without a creation time the age
    has no format, and with one the message stops at the pair address. *)
Lemma token_message_raises (ti : TokenInfo) (r : AnalysisResult) (now : Q) :
  is_ok (format_ ti r now) = false.
Proof.
  unfold NotifierFormat._format_token_notification, bind,
    NotifierFormat.age_text, NotifierFormat.dex_pair_address.
  destruct (get_score_emoji (overall_score r)) as [score_emoji |]; [| reflexivity].
  destruct (get_price_change_emoji (price_change_24h ti)) as [price_emoji |];
    [| reflexivity].
  destruct (score_lines r score_emoji) as [scores |]; [| reflexivity].
  destruct (ModelsMore.age_hours ti now) as [age |]; [| reflexivity].
  destruct (detail_lines r); reflexivity.
Qed.

Lemma token_alert_never_queued (cfg : Config.Settings)
    (self : TelegramNotifierService) (ti : TokenInfo) (r : AnalysisResult) (now : Q) :
  notify_new_token overall_score format_ cfg self ti r now = self.
Proof.
  unfold notify_new_token.
  destruct (flt _ _); [reflexivity |].
  pose proof (token_message_raises ti r now) as Hraise.
  destruct (NotifierFormat._format_token_notification _ _ _ _ _ _ _ _ _ _ ti r now);
    [discriminate | reflexivity].
Qed.

(** C1 (what the code does). Two qualifying results for the same token,
    notified one after the other on an idle, started notifier: both times
    [_format_token_notification] raises, [notify_new_token] absorbs the
    exception and queues nothing, and the worker sends nothing, however
    many turns it is given.  No notification leaves where the claim has
    exactly one. *)
Theorem qualifying_alerts_never_dispatched (cfg : Config.Settings)
    (self : TelegramNotifierService) (ti : TokenInfo) (r1 r2 : AnalysisResult)
    (now1 now2 : Q) :
  is_running self = true -> message_queue self = [] ->
  flt (overall_score r1) (Fin (Config.MIN_NOTIFICATION_SCORE cfg)) = false ->
  flt (overall_score r2) (Fin (Config.MIN_NOTIFICATION_SCORE cfg)) = false ->
  let notify := notify_new_token overall_score format_ cfg in
  let after := notify (notify self ti r1 now1) ti r2 now2 in
  is_ok (format_ ti r1 now1) = false /\
  is_ok (format_ ti r2 now2) = false /\
  message_queue (notify self ti r1 now1) = [] /\
  message_queue after = [] /\
  (forall turns, snd (_message_worker turns after) = []).
Proof.
  intros Hrun Hempty _ _ notify after.
  assert (Hafter : after = self).
  { unfold after, notify. rewrite !token_alert_never_queued. reflexivity. }
  split_and!.
  - exact (token_message_raises ti r1 now1).
  - exact (token_message_raises ti r2 now2).
  - unfold notify. rewrite token_alert_never_queued. exact Hempty.
  - rewrite Hafter. exact Hempty.
  - intros turns. rewrite Hafter.
    destruct (worker_turns turns self Hrun) as [_ Hsent].
    rewrite Hsent, Hempty, take_nil. reflexivity.
Qed.

End WithHelpers.

(** The specification's scenario: score 8.2 against the threshold 7.0,
    and the same token again five minutes later, inside the 30 minute
    window of [NOTIFICATION_COOLDOWN_MINUTES]: nothing is queued and
    nothing leaves. *)
Lemma qualifying_alerts_never_dispatched_witness :
  Sample.format_token Sample.token (Fin 8.2) 0 = Raise TypeError /\
  message_queue
    (notify_new_token (fun s : pyfloat => s) Sample.format_token Config.settings
       (notify_new_token (fun s : pyfloat => s) Sample.format_token
          Config.settings Sample.notifier Sample.token (Fin 8.2) 0)
       Sample.token (Fin 8.2) 300) = [] /\
  snd (_message_worker 2
         (notify_new_token (fun s : pyfloat => s) Sample.format_token Config.settings
            (notify_new_token (fun s : pyfloat => s) Sample.format_token
               Config.settings Sample.notifier Sample.token (Fin 8.2) 0)
            Sample.token (Fin 8.2) 300)) = [].
Proof.
  split; [reflexivity |].
  pose proof (qualifying_alerts_never_dispatched (fun s : pyfloat => s)
                (fun _ => Ok "*") (fun _ => Ok "+")
                (fun _ emoji => Ok (" score " ++ emoji)) (fun _ => Ok "")
                (fun t emoji => "NOUVEAU TOKEN " ++ contract_address t ++ " " ++ emoji)
                (fun _ emoji => " " ++ emoji) (fun _ => " age") (fun _ _ => "")
                (fun _ _ => "")
                Config.settings Sample.notifier Sample.token (Fin 8.2) (Fin 8.2) 0 300
                eq_refl eq_refl eq_refl eq_refl) as H.
  cbv zeta in H. destruct H as (_ & _ & _ & Hqueue & Hsent).
  split; [exact Hqueue | exact (Hsent 2%nat)].
Defined.

(** With a status report queued before a critical alert, the worker's
    first turn sends the status report. *)
Lemma worker_is_fifo_witness :
  snd (_message_worker 1 Sample.status_then_critical) = [("chat-1", "uptime 3h")].
Proof.
  exact (proj1 (proj2 (worker_is_fifo 1 Sample.status_then_critical eq_refl))).
Defined.

(** A low-priority message is sent while a higher-priority one is
    pending. *)
Lemma low_priority_sent_before_critical :
  exists low high,
    message_queue Sample.status_then_critical = [low; high] /\
    (rank (priority low) < rank (priority high))%Z /\
    snd (worker_turn Sample.status_then_critical) = [("chat-1", message low)] /\
    message_queue (fst (worker_turn Sample.status_then_critical)) = [high].
Proof.
  eexists _, _. split_and!; [reflexivity | | reflexivity | reflexivity].
  vm_compute. reflexivity.
Qed.

End NotifierFacts.

(** ** The rate limiter of the market-data poller *)

Module DexscannerFacts.
Import Dexscanner.

Lemma sleep_time_some (self : DexscannerService) (current_time d : Q) :
  sleep_time self current_time = Some d ->
  (current_time - last_request_time self < min_request_interval self)%Q /\
  d = min_request_interval self - (current_time - last_request_time self).
Proof.
  unfold sleep_time.
  destruct (Qlt_bool _ _) eqn:E; [| discriminate].
  intros [= <-]. split; [| reflexivity].
  apply PyFacts.Qlt_bool_iff. exact E.
Qed.

Lemma sleep_time_none (self : DexscannerService) (current_time : Q) :
  sleep_time self current_time = None ->
  (min_request_interval self <= current_time - last_request_time self)%Q.
Proof.
  unfold sleep_time.
  destruct (Qlt_bool _ _) eqn:E; [discriminate |].
  intros _. apply PyFacts.Qlt_bool_not. exact E.
Qed.

(** A request leaves no sooner than one interval after the previous
    one, whether the caller had to sleep or not. *)
Lemma leaves_after_interval (self : DexscannerService) (current_time after : Q) :
  (current_time + default 0 (sleep_time self current_time) <= after)%Q ->
  (last_request_time self + min_request_interval self <= after)%Q.
Proof.
  destruct (sleep_time self current_time) as [d |] eqn:E; cbn.
  - apply sleep_time_some in E. destruct E as [_ ->]. intros H. lra.
  - apply sleep_time_none in E. intros H. lra.
Qed.

Lemma requests_in_turn_sent (calls : list (Q * Q)) :
  forall self, snd (requests_in_turn self calls) = map snd calls.
Proof.
  induction calls as [| [current_time after] rest IH]; intros self.
  - reflexivity.
  - cbn. specialize (IH (set_last self after)).
    destruct (requests_in_turn (set_last self after) rest) as [final sent].
    cbn in *. rewrite IH. reflexivity.
Qed.

Lemma in_turn_spaced (calls : list (Q * Q)) :
  forall self t0,
    well_timed self t0 calls ->
    spaced (min_request_interval self) (map snd calls) /\
    (forall first rest, map snd calls = first :: rest ->
       (last_request_time self + min_request_interval self <= first)%Q).
Proof.
  induction calls as [| [current_time after] rest IH]; intros self t0 Hw.
  - split; [exact I | intros first rest' H; discriminate].
  - cbn in Hw. destruct Hw as (_ & Hsleep & Hrest).
    apply leaves_after_interval in Hsleep.
    destruct (IH (set_last self after) after Hrest) as [Hsp Hfirst].
    cbn [set_last min_request_interval last_request_time] in Hsp, Hfirst.
    split.
    + cbn [map snd]. destruct (map snd rest) as [| b more] eqn:E.
      * exact I.
      * split; [exact (Hfirst b more eq_refl) | exact Hsp].
    + intros first rest' [= <- _]. exact Hsleep.
Qed.

(** The accounting of permits holds in every reachable state. *)
Lemma in_flight_le_size (ts : gmap nat phase) : (in_flight ts <= size ts)%nat.
Proof. unfold in_flight. apply map_subseteq_size, map_filter_subseteq. Qed.

Lemma step_accounted (w w' : world) (ev : event) :
  permits_accounted w -> step w ev = Some w' -> permits_accounted w'.
Proof.
  intros (Hsum & Hover & Hint). unfold permits_accounted.
  destruct ev as [id current_time after | id now | id now]; cbn [step].
  - destruct (tasks w !! id) eqn:Hid; [discriminate |].
    destruct (rate_limiter (service w)) as [| free] eqn:Hfree; [discriminate |].
    destruct (_ && _); [| discriminate].
    destruct (sleep_time _ current_time).
    + intros [= <-]. cbn. rewrite map_size_insert_None by exact Hid.
      split_and!; [lia | exact Hover | exact Hint].
    + intros [= <-]. cbn.
      pose proof (in_flight_le_size (<[id:=InFlight]> (tasks w))) as Hle.
      rewrite map_size_insert_None in Hle |- * by exact Hid.
      split_and!; [lia | lia | exact Hint].
  - destruct (tasks w !! id) as [[until |] |] eqn:Hid; try discriminate.
    destruct (_ && _); [| discriminate].
    intros [= <-]. cbn.
    pose proof (in_flight_le_size (<[id:=InFlight]> (tasks w))) as Hle.
    rewrite map_size_insert_Some in Hle |- * by (eexists; exact Hid).
    split_and!; [lia | lia | exact Hint].
  - destruct (tasks w !! id) as [[until |] |] eqn:Hid; try discriminate.
    destruct (Qle_bool _ _); [| discriminate].
    intros [= <-]. cbn.
    pose proof (map_size_delete_Some id (tasks w) (ltac:(eexists; exact Hid))) as Hdel.
    assert (Hpos : size (tasks w) <> 0%nat).
    { intros H0. apply map_size_empty_iff in H0.
      rewrite H0, lookup_empty in Hid. discriminate. }
    split_and!; [lia | exact Hover | exact Hint].
Qed.

Lemma run_accounted (evs : list event) :
  forall w w', permits_accounted w -> run w evs = Some w' -> permits_accounted w'.
Proof.
  induction evs as [| ev rest IH]; intros w w' Hw; cbn.
  - intros [= <-]. exact Hw.
  - destruct (step w ev) as [w1 |] eqn:E; [| discriminate].
    apply IH. exact (step_accounted w w1 ev Hw E).
Qed.

Lemma init_accounted : permits_accounted init_world.
Proof.
  unfold permits_accounted. cbn. rewrite map_size_empty.
  split_and!; [reflexivity | lia | reflexivity].
Qed.

(** C9 (amended). Requests made one after the other by an instance
    (each call starting after the previous one's rate-limit step, on a
    clock that does not go back and with sleeps that last as long as
    asked) all leave, in the order of the calls, each at least the
    minimum interval after the one before; a call that comes early is
    given the remaining time to sleep rather than refused.  Callers may
    overlap: at most five requests of an instance are under way at once. *)
Theorem rate_limit_in_turn_and_five_at_once :
  (forall self t0 calls,
     well_timed self t0 calls ->
     snd (requests_in_turn self calls) = map snd calls /\
     spaced (min_request_interval self) (snd (requests_in_turn self calls))) /\
  (forall self current_time,
     (current_time - last_request_time self < min_request_interval self)%Q ->
     snd (_respect_rate_limit self current_time current_time)
     = Some (min_request_interval self - (current_time - last_request_time self))) /\
  (forall evs w,
     run init_world evs = Some w ->
     (overlap w <= 5)%nat /\ (in_flight (tasks w) <= 5)%nat).
Proof.
  split_and!.
  - intros self t0 calls Hw. rewrite requests_in_turn_sent.
    split; [reflexivity |]. exact (proj1 (in_turn_spaced calls self t0 Hw)).
  - intros self current_time Hearly. cbn. unfold sleep_time.
    apply PyFacts.Qlt_bool_iff in Hearly. rewrite Hearly. reflexivity.
  - intros evs w Hrun.
    destruct (run_accounted evs init_world w init_accounted Hrun) as (Hsum & Hover & _).
    pose proof (in_flight_le_size (tasks w)). split; lia.
Qed.

(** Three calls in turn, the second one 0.2 s after the first request:
    the requests leave at 100, 101 and 102. *)
Lemma rate_limit_in_turn_and_five_at_once_witness :
  snd (requests_in_turn init Sample.calls_in_turn) = [100; 101; 102]%Q /\
  spaced (min_request_interval init) (snd (requests_in_turn init Sample.calls_in_turn)).
Proof.
  apply (proj1 rate_limit_in_turn_and_five_at_once init 0 Sample.calls_in_turn).
  cbn. repeat split; vm_compute; discriminate.
Defined.

(** Three interleaved callers: the second and third requests leave at the
    same instant, and three requests are in flight together. *)
Lemma interleaved_callers_break_the_limit :
  (exists w,
     run init_world Sample.three_callers = Some w /\
     sent w = [(1%nat, 100); (2%nat, 101); (3%nat, 101)]%Q /\
     overlap w = 3%nat) /\
  ~ rate_limit_claim.
Proof.
  destruct (run init_world Sample.three_callers) as [w |] eqn:E;
    [| vm_compute in E; discriminate].
  assert (Hw : sent w = [(1%nat, 100); (2%nat, 101); (3%nat, 101)]%Q
               /\ overlap w = 3%nat).
  { vm_compute in E. injection E as <-. split; reflexivity. }
  split.
  - exists w. split; [reflexivity | exact Hw].
  - intros Hclaim. destruct (Hclaim Sample.three_callers w E) as [_ Hover].
    destruct Hw as [_ Hw]. lia.
Qed.

End DexscannerFacts.

(** ** The model run on small inputs *)

Module Examples.
#[local] Existing Instance Sample.runtime.

(** An upper-case name, a symbol with a digit and a special character:
    0.5 + 1.0 + 1.5. *)
Example suspicion_of_shouting_name :
  Qeq_bool (Validators.calculate_suspicion_score "SAFEMOON" "S4FE!" "") 3 = true.
Proof. vm_compute. reflexivity. Qed.

(** A one-letter name and an empty symbol: 1.0 + 1.5. *)
Example suspicion_of_short_name :
  Qeq_bool (Validators.calculate_suspicion_score "x" "" "") 2.5 = true.
Proof. vm_compute. reflexivity. Qed.

(** A score of 11 is rejected. *)
Example score_out_of_range_rejected :
  Analyzer._parse_ai_response Sample.analyzer
    {| Analyzer.content := Some "score-11"; Analyzer.tokens_used_ := 350;
       Analyzer.model := "m" |} 0 2 = None.
Proof. vm_compute. reflexivity. Qed.

(** Text that is not JSON, and a response without content, are rejected. *)
Example undecodable_rejected :
  Analyzer._parse_ai_response Sample.analyzer
    {| Analyzer.content := Some "not json"; Analyzer.tokens_used_ := 0;
       Analyzer.model := "m" |} 0 2 = None /\
  Analyzer._parse_ai_response Sample.analyzer
    {| Analyzer.content := None; Analyzer.tokens_used_ := 0;
       Analyzer.model := "m" |} 0 2 = None.
Proof. split; vm_compute; reflexivity. Qed.

(** Twelve refused connections with the default settings: ten backoff
    cycles of 5, 10, ..., 50 seconds, then the loop gives up. *)
Example twelve_failures_give_up :
  let '(final, sleeps, ex) :=
    Listener.start (Listener.init Config.settings)
      (map Listener.failing (replicate 12 OSError)) in
  sleeps = [5; 10; 15; 20; 25; 30; 35; 40; 45; 50]%Z /\
  ex = Listener.GaveUp /\
  Listener.reconnect_attempts final = 10%Z.
Proof. vm_compute. repeat split. Qed.

(** A session that is established and then dropped resets the attempt
    counter: the next failure waits for the base delay again. *)
Example session_resets_attempts :
  snd (fst (Listener.start (Listener.init Config.settings)
              [ Listener.failing OSError; Listener.failing OSError;
                {| Listener.outcome := Listener.SessionRaises ConnectionClosed;
                   Listener.stop_called := false |};
                Listener.failing OSError ]))
  = [5; 10; 5]%Z.
Proof. vm_compute. reflexivity. Qed.

(** A transaction without recipient and with code is a contract
    creation. *)
Example creation_detected :
  Listener._is_contract_creation Sample.creation_tx = true.
Proof. reflexivity. Qed.

(** A score below the threshold is not queued. *)
Example low_score_not_queued :
  Notifier.message_queue
    (Notifier.notify_new_token (fun s : pyfloat => s) Sample.format_token
       Config.settings Sample.notifier Sample.token (Fin 6.9) 0) = [].
Proof. vm_compute. reflexivity. Qed.

(** A caller that comes 0.2 s after the last request is told to sleep
    0.8 s. *)
Example early_caller_sleeps :
  match Dexscanner.sleep_time (Dexscanner.set_last Dexscanner.init 100) 100.2 with
  | Some d => Qeq_bool d 0.8
  | None => false
  end = true.
Proof. vm_compute. reflexivity. Qed.

End Examples.

(** ** More on the result cache *)

Module CacheMoreFacts.
Import Models Analyzer.
Section WithRuntime.
Context {rt : PyRuntime}.

(** What a lookup returns, read off the cache. *)
Lemma lookup_result (self : GPTAnalyzerService) (addr : string) (t : Q) :
  fst (_get_cached_analysis self addr t) =
  match _analysis_cache self !! str_lower addr with
  | Some (ai, ts) =>
      if Qlt_bool (t - ts) (inject_Z (_cache_ttl self)) then Some ai else None
  | None => None
  end.
Proof.
  unfold _get_cached_analysis.
  destruct (_analysis_cache self !! str_lower addr) as [[ai ts] |]; [| reflexivity].
  destruct (Qlt_bool _ _); reflexivity.
Qed.

Lemma cleanup_lookup (self : GPTAnalyzerService) (cl : Q) (k : string) :
  _analysis_cache (_cleanup_cache self cl) !! k =
  match _analysis_cache self !! k with
  | Some (ai, ts) =>
      if Qlt_bool (cl - ts) (inject_Z (_cache_ttl self)) then Some (ai, ts) else None
  | None => None
  end.
Proof.
  unfold _cleanup_cache. cbn.
  destruct (_analysis_cache self !! k) as [[ai ts] |] eqn:E.
  - destruct (Qlt_bool (cl - ts) (inject_Z (_cache_ttl self))) eqn:Hfresh.
    + apply map_lookup_filter_Some. split; [exact E |]. cbn.
      apply PyFacts.Qge_bool_not. apply PyFacts.Qlt_bool_iff. exact Hfresh.
    + apply map_lookup_filter_None. right. intros x Hx.
      rewrite E in Hx. injection Hx as <-. cbn.
      apply PyFacts.Qlt_bool_not in Hfresh.
      intros Hkeep. apply PyFacts.Qge_bool_not in Hkeep. lra.
  - apply map_lookup_filter_None. left. exact E.
Qed.

Lemma cleanup_transparent (self : GPTAnalyzerService) (cl : Q) (addr : string) (t : Q) :
  (cl <= t)%Q ->
  fst (_get_cached_analysis (_cleanup_cache self cl) addr t)
  = fst (_get_cached_analysis self addr t).
Proof.
  intros Hle. rewrite !lookup_result, cleanup_lookup.
  change (_cache_ttl (_cleanup_cache self cl)) with (_cache_ttl self).
  destruct (_analysis_cache self !! str_lower addr) as [[ai ts] |]; [| reflexivity].
  destruct (Qlt_bool (cl - ts) _) eqn:Hcl; [reflexivity |].
  destruct (Qlt_bool (t - ts) _) eqn:Ht; [| reflexivity].
  apply PyFacts.Qlt_bool_not in Hcl. apply PyFacts.Qlt_bool_iff in Ht. lra.
Qed.

(** X1. A stored analysis is served back: after [_cache_analysis], a
    lookup under any spelling of the address with the same lower-case
    form, made less than the TTL after the entry's timestamp (the cleanup
    reading too), returns the stored analysis and leaves the service as it
    is. *)
Theorem stored_analysis_is_served (self : GPTAnalyzerService)
    (addr addr' : string) (ai : AIAnalysis) (now cleanup_time t : Q) :
  str_lower addr' = str_lower addr ->
  (cleanup_time - now < inject_Z (_cache_ttl self))%Q ->
  (t - now < inject_Z (_cache_ttl self))%Q ->
  _get_cached_analysis (_cache_analysis self addr ai now cleanup_time) addr' t
  = (Some ai, _cache_analysis self addr ai now cleanup_time).
Proof.
  intros Hkey Hcl Ht.
  destruct (CacheFacts.stored_entry self addr ai now cleanup_time) as (Httl & _ & Hin).
  apply (CacheFacts.fresh_entry_hit _ _ _ now).
  - rewrite Hkey. apply Hin. exact Hcl.
  - rewrite Httl. exact Ht.
Qed.

(** X2. What a lookup returns is not changed by the operations that came
    before it on a clock that does not go back: neither by a cleanup, nor
    by an earlier lookup (whether it hit, missed or evicted), nor by
    storing an analysis under another key. *)
Theorem cache_operations_are_transparent (self : GPTAnalyzerService)
    (addr : string) (t : Q) :
  (forall cl, (cl <= t)%Q ->
     fst (_get_cached_analysis (_cleanup_cache self cl) addr t)
     = fst (_get_cached_analysis self addr t)) /\
  (forall other t0, (t0 <= t)%Q ->
     fst (_get_cached_analysis (snd (_get_cached_analysis self other t0)) addr t)
     = fst (_get_cached_analysis self addr t)) /\
  (forall other ai now cl,
     str_lower other <> str_lower addr -> (cl <= t)%Q ->
     fst (_get_cached_analysis (_cache_analysis self other ai now cl) addr t)
     = fst (_get_cached_analysis self addr t)).
Proof.
  split_and!.
  - intros cl Hle. apply cleanup_transparent. exact Hle.
  - intros other t0 Hle. rewrite !lookup_result.
    rewrite CacheFacts.lookup_keeps_ttl.
    unfold _get_cached_analysis.
    destruct (_analysis_cache self !! str_lower other) as [[ai0 ts0] |] eqn:Eo;
      [| reflexivity].
    destruct (Qlt_bool (t0 - ts0) _) eqn:H0; [reflexivity |].
    cbn. destruct (decide (str_lower other = str_lower addr)) as [Heq | Hne].
    + rewrite <- Heq, lookup_delete_eq, Eo.
      destruct (Qlt_bool (t - ts0) _) eqn:Ht; [| reflexivity].
      apply PyFacts.Qlt_bool_not in H0. apply PyFacts.Qlt_bool_iff in Ht. lra.
    + rewrite lookup_delete_ne by exact Hne. reflexivity.
  - intros other ai now cl Hne Hle. unfold _cache_analysis. cbn.
    destruct (1000 <? _)%Z.
    + rewrite cleanup_transparent by exact Hle.
      rewrite !lookup_result. cbn. rewrite lookup_insert_ne by exact Hne.
      reflexivity.
    + rewrite !lookup_result. cbn. rewrite lookup_insert_ne by exact Hne.
      reflexivity.
Qed.

End WithRuntime.

#[local] Existing Instance Sample.runtime.

(** An analysis stored at time 0 under the mixed-case spelling is served
    at time 100 under the lower-case one. *)
Lemma stored_analysis_is_served_witness :
  fst (_get_cached_analysis
         (_cache_analysis Sample.analyzer "0xABCDEF" SampleMore.strong 0 0)
         "0xabcdef" 100)
  = Some SampleMore.strong.
Proof.
  rewrite (stored_analysis_is_served Sample.analyzer "0xABCDEF" "0xabcdef"
             SampleMore.strong 0 0 100).
  - reflexivity.
  - reflexivity.
  - vm_compute. reflexivity.
  - vm_compute. reflexivity.
Defined.

(** With the strong result stored at time 0, the lookup at time 100 is a
    hit, and it still is after a cleanup at time 50, after an earlier
    lookup at time 50, and after storing another result under another
    address at time 60. *)
Lemma cache_operations_are_transparent_witness :
  fst (_get_cached_analysis SampleMore.stored Sample.address 100)
  = Some SampleMore.strong /\
  fst (_get_cached_analysis (_cleanup_cache SampleMore.stored 50) Sample.address 100)
  = Some SampleMore.strong /\
  fst (_get_cached_analysis
         (snd (_get_cached_analysis SampleMore.stored Sample.address 50))
         Sample.address 100)
  = Some SampleMore.strong /\
  fst (_get_cached_analysis
         (_cache_analysis SampleMore.stored "0xABCDEF" SampleMore.middling 60 60)
         Sample.address 100)
  = Some SampleMore.strong.
Proof.
  assert (Hhit : fst (_get_cached_analysis SampleMore.stored Sample.address 100)
                 = Some SampleMore.strong).
  { vm_compute. reflexivity. }
  destruct (cache_operations_are_transparent SampleMore.stored Sample.address 100)
    as (Hclean & Hlook & Hstore).
  split_and!.
  - exact Hhit.
  - rewrite <- Hhit. apply Hclean. vm_compute. discriminate.
  - rewrite <- Hhit. apply Hlook. vm_compute. discriminate.
  - rewrite <- Hhit. apply Hstore.
    + vm_compute. discriminate.
    + vm_compute. discriminate.
Defined.

End CacheMoreFacts.

(** ** Statistics of the analyzer and the liquidity ratio *)

Module AnalyzerMoreFacts.
Import Models Analyzer AnalyzerMore.
Section WithRuntime.
Context {rt : PyRuntime}.

Lemma lookup_keeps_counters (self : GPTAnalyzerService) (addr : string) (t : Q) :
  analyses_completed (snd (_get_cached_analysis self addr t))
  = analyses_completed self /\
  total_tokens_used (snd (_get_cached_analysis self addr t))
  = total_tokens_used self.
Proof.
  unfold _get_cached_analysis.
  destruct (_analysis_cache self !! str_lower addr) as [[ai ts] |];
    [| split; reflexivity].
  destruct (Qlt_bool _ _); split; reflexivity.
Qed.

Lemma store_keeps_counters (self : GPTAnalyzerService) (addr : string)
    (ai : AIAnalysis) (now cl : Q) :
  analyses_completed (_cache_analysis self addr ai now cl) = analyses_completed self /\
  total_tokens_used (_cache_analysis self addr ai now cl) = total_tokens_used self.
Proof.
  unfold _cache_analysis. cbn. destruct (1000 <? _)%Z; split; reflexivity.
Qed.

(** One call: the counters move exactly when the call asked the scoring
    collaborator and completed. *)
Lemma analyze_token_counts (self : GPTAnalyzerService) (ti : TokenInfo)
    (api : api_outcome) (clk : clock) :
  let outcome := analyze_token self ti api clk in
  let analysis := fst (fst outcome) in
  let after := snd (fst outcome) in
  let requests := snd outcome in
  (requests <= 1)%nat /\
  match scored_by (analysis, requests) with
  | Some ai =>
      analyses_completed after = (analyses_completed self + 1)%Z /\
      total_tokens_used after
      = (total_tokens_used self + default 0 (tokens_used ai))%Z /\
      requests = 1%nat
  | None =>
      analyses_completed after = analyses_completed self /\
      total_tokens_used after = total_tokens_used self
  end.
Proof.
  cbv zeta. unfold analyze_token, scored_by.
  pose proof (lookup_keeps_counters self (contract_address ti) (t_lookup clk))
    as [Hc Ht].
  destruct (_get_cached_analysis self (contract_address ti) (t_lookup clk))
    as [[cached |] self1]; cbn [fst snd] in Hc, Ht |- *.
  - cbn. split; [lia |]. split; [exact Hc | exact Ht].
  - destruct (_call_openai_api api) as [r |]; cbn; [| split; [lia | split; assumption]].
    destruct (_parse_ai_response self1 r (t_start clk) (t_parsed clk)) as [ai |];
      cbn; [| split; [lia | split; assumption]].
    destruct (store_keeps_counters self1 (contract_address ti) ai
                (t_cached clk) (t_cleanup clk)) as [Hc' Ht'].
    split; [lia |]. rewrite Hc', Ht', Hc, Ht. split_and!; reflexivity.
Qed.

(** X3. The statistics count the analyses the scoring collaborator
    completed, and nothing else: after any sequence of calls of
    [analyze_token], whatever the tokens, the answers and the clocks,
    [analyses_completed] has grown by the number of calls that asked the
    collaborator and completed, and [total_tokens_used] by the token
    counts of their results; calls served from the cache and failed calls
    leave both unchanged.  Every call makes at most one request, so the
    counter never grows by more than the number of requests. *)
Theorem statistics_count_scored_analyses (self : GPTAnalyzerService)
    (calls : list call) :
  let outcomes := fst (analyze_all self calls) in
  let final := snd (analyze_all self calls) in
  length outcomes = length calls /\
  analyses_completed final
  = (analyses_completed self + Z.of_nat (length (scored outcomes)))%Z /\
  total_tokens_used final
  = (total_tokens_used self + tokens_of (scored outcomes))%Z /\
  (length (scored outcomes) <= requests_of outcomes <= length calls)%nat.
Proof.
  cbv zeta. revert self.
  induction calls as [| c rest IH]; intros self.
  - cbn. split_and!; lia.
  - cbn [analyze_all].
    pose proof (analyze_token_counts self (call_token c) (call_api c) (call_clock c))
      as Hone.
    cbv zeta in Hone.
    destruct (analyze_token self (call_token c) (call_api c) (call_clock c))
      as [[analysis self1] requests].
    cbn [fst snd] in Hone. destruct Hone as [Hreq Hone].
    specialize (IH self1).
    destruct (analyze_all self1 rest) as [more final].
    cbn [fst snd] in IH |- *.
    destruct IH as (Hlen & Hcount & Htok & Hle1 & Hle2).
    unfold scored in *. cbn [omap list_omap length requests_of fold_right snd].
    fold (requests_of more).
    destruct (scored_by (analysis, requests)) as [ai |].
    + destruct Hone as (Hc1 & Ht1 & ->).
      cbn [length tokens_of fold_right]. fold (tokens_of (omap scored_by more)).
      rewrite Hcount, Htok, Hc1, Ht1. split_and!; lia.
    + destruct Hone as (Hc1 & Ht1).
      rewrite Hcount, Htok, Hc1, Ht1. split_and!; lia.
Qed.

End WithRuntime.

#[local] Existing Instance Sample.runtime.

(** The three sample calls: the first is scored, the second is served
    from the cache, the third fails; two requests were made, one analysis
    is counted, with its 350 tokens. *)
Lemma statistics_count_scored_analyses_witness :
  map (fun o => (status (fst o), snd o)) (fst (analyze_all Sample.analyzer
                                                  SampleMore.three_calls))
  = [(COMPLETED, 1%nat); (COMPLETED, 0%nat); (FAILED, 1%nat)] /\
  analyses_completed (snd (analyze_all Sample.analyzer SampleMore.three_calls)) = 1%Z /\
  total_tokens_used (snd (analyze_all Sample.analyzer SampleMore.three_calls)) = 350%Z.
Proof.
  split; [vm_compute; reflexivity |].
  destruct (statistics_count_scored_analyses Sample.analyzer SampleMore.three_calls)
    as (_ & Hcount & Htok & _).
  rewrite Hcount, Htok. split; vm_compute; reflexivity.
Defined.

End AnalyzerMoreFacts.

(** ** The data models *)

Module ModelsMoreFacts.
Import Models ModelsMore.
Section WithRuntime.
Context {rt : PyRuntime}.

Lemma positive_amount_ok (v w : option Q) :
  validate_positive_amounts v = Ok w ->
  w = v /\ (forall q, v = Some q -> 0 <= q).
Proof.
  unfold validate_positive_amounts. destruct v as [q |].
  - destruct (Qlt_bool q 0) eqn:E; [discriminate |].
    intros [= <-]. split; [reflexivity |].
    intros q' [= <-]. apply PyFacts.Qlt_bool_not. exact E.
  - intros [= <-]. split; [reflexivity | intros q H; discriminate].
Qed.

Lemma positive_amount_rejects (q : Q) :
  q < 0 -> validate_positive_amounts (Some q) = Raise ValidationError.
Proof.
  intros H. unfold validate_positive_amounts.
  apply PyFacts.Qlt_bool_iff in H. rewrite H. reflexivity.
Qed.

Lemma address_ok (v w : string) :
  validate_contract_address v = Ok w ->
  w = str_lower v /\ String.length v = 42%nat /\ String.prefix "0x" v = true.
Proof.
  unfold validate_contract_address, startswith_0x.
  destruct (String.eqb v ""); [discriminate |].
  destruct (Nat.eqb (String.length v) 42) eqn:Hlen; [| discriminate].
  destruct (String.prefix "0x" v) eqn:Hpre; [| discriminate].
  cbn. intros [= <-]. apply Nat.eqb_eq in Hlen. split_and!; auto.
Qed.

(** What a constructed [TokenInfo] guarantees. *)
Lemma constructed_token (raw t : TokenInfo) :
  TokenInfo_new raw = Ok t ->
  contract_address t = str_lower (contract_address raw) /\
  String.length (contract_address raw) = 42%nat /\
  String.prefix "0x" (contract_address raw) = true /\
  price_usd t = price_usd raw /\ market_cap_usd t = market_cap_usd raw /\
  liquidity_usd t = liquidity_usd raw /\ volume_24h_usd t = volume_24h_usd raw /\
  (forall q, price_usd t = Some q -> 0 <= q) /\
  (forall q, market_cap_usd t = Some q -> 0 <= q) /\
  (forall q, liquidity_usd t = Some q -> 0 <= q) /\
  (forall q, volume_24h_usd t = Some q -> 0 <= q).
Proof.
  unfold TokenInfo_new, bind.
  destruct (validate_contract_address (contract_address raw)) as [addr |] eqn:Ha;
    [| discriminate].
  destruct (validate_positive_amounts (price_usd raw)) as [p |] eqn:Hp;
    [| discriminate].
  destruct (validate_positive_amounts (market_cap_usd raw)) as [m |] eqn:Hm;
    [| discriminate].
  destruct (validate_positive_amounts (liquidity_usd raw)) as [l |] eqn:Hl;
    [| discriminate].
  destruct (validate_positive_amounts (volume_24h_usd raw)) as [v |] eqn:Hv;
    [| discriminate].
  intros [= <-]. cbn.
  apply address_ok in Ha. destruct Ha as (-> & Hlen & Hpre).
  apply positive_amount_ok in Hp, Hm, Hl, Hv.
  destruct Hp as [_ Hp], Hm as [_ Hm], Hl as [_ Hl], Hv as [_ Hv].
  split_and!; auto.
Qed.


(** X5. The notification flag is one-shot: [should_notify] holds only for
    a completed analysis, not yet notified, with a score of at least 7.0
    and a confidence of at least 0.7, the threshold being the double that
    [0.7] denotes, so that a confidence of that very value qualifies (such
    an analysis also passes the pipeline's own test against the default
    threshold); and after [mark_notified] it never holds again, whatever
    the analysis. *)
Theorem notification_flag_is_one_shot (t : TokenAnalysis) (sent_at updated : Q) :
  should_notify (mark_notified t sent_at updated) = false /\
  ai_analysis (mark_notified t sent_at updated) = ai_analysis t /\
  (should_notify t = true ->
     notification_sent t = false /\ status t = COMPLETED /\
     exists ai,
       ai_analysis t = Some ai /\
       fge (score ai) 7.0 = true /\ fge (confidence ai) double_0_7 = true /\
       (forall c, confidence ai = Fin c -> double_0_7 <= c) /\
       Listener.score_ge (ai_score t)
         (Config.MIN_NOTIFICATION_SCORE Config.settings) = Ok true) /\
  (forall ai s c,
     notification_sent t = false -> status t = COMPLETED ->
     ai_analysis t = Some ai -> score ai = Fin s -> confidence ai = Fin c ->
     7 <= s -> double_0_7 <= c ->
     should_notify t = true).
Proof.
  split_and!; [reflexivity | reflexivity | |].
  - unfold should_notify, is_high_potential, ai_score.
    rewrite !andb_true_iff, negb_true_iff.
    intros [[Hsent Hai] Hst].
    destruct (ai_analysis t) as [ai |]; [| discriminate].
    apply andb_true_iff in Hai. destruct Hai as [Hs Hc].
    split_and!; [exact Hsent | destruct (status t); try discriminate; reflexivity |].
    exists ai. split_and!; [reflexivity | exact Hs | exact Hc | |].
    + intros c Hconf. rewrite Hconf in Hc. unfold fge, fle in Hc.
      apply Qle_bool_iff. exact Hc.
    + cbn. f_equal. exact Hs.
  - intros ai s c Hsent Hst Hai Hs Hc Hs7 Hc7.
    unfold should_notify, is_high_potential. rewrite Hsent, Hst, Hai, Hs, Hc.
    unfold fge, fle. cbn [negb andb is_completed].
    apply Qle_bool_iff in Hc7. rewrite Hc7.
    assert (H7 : Qle_bool 7.0 s = true) by (apply Qle_bool_iff; lra).
    rewrite H7. reflexivity.
Qed.

Lemma fge_true (x b : Q) : fge (Fin x) b = true <-> b <= x.
Proof. unfold fge, fle. apply Qle_bool_iff. Qed.

Lemma fge_false (x b : Q) : fge (Fin x) b = false <-> x < b.
Proof.
  unfold fge, fle. split.
  - intros H. apply Qnot_le_lt. intros Hle. apply Qle_bool_iff in Hle. congruence.
  - intros H. destruct (Qle_bool b x) eqn:E; [| reflexivity].
    apply Qle_bool_iff in E. lra.
Qed.

(** Every comparison of a finite score as an inequality. *)
Ltac by_fge :=
  repeat match goal with
         | |- context [fge (Fin ?x) ?b] =>
             let E := fresh "E" in
             destruct (fge (Fin x) b) eqn:E;
             [apply fge_true in E | apply fge_false in E]
         end.

(** X6. The risk level follows the score: of two analyses with finite
    scores, the one with the higher score never has the worse level; a
    score of at least 8 is [LOW] and a score below 4 is [CRITICAL]. *)
Theorem risk_level_follows_score (a b : AIAnalysis) (x y : Q) :
  score a = Fin x -> score b = Fin y -> x <= y ->
  (severity (risk_level b) <= severity (risk_level a))%nat /\
  (8 <= x -> risk_level a = LOW) /\
  (x < 4 -> risk_level a = CRITICAL).
Proof.
  intros Ha Hb Hle. unfold risk_level. rewrite Ha, Hb.
  split_and!.
  - by_fge; cbn; try lia; lra.
  - intros H8. by_fge; try reflexivity; lra.
  - intros H4. by_fge; try reflexivity; lra.
Qed.

End WithRuntime.

#[local] Existing Instance Sample.runtime.


(** The completed sample analysis (score 8.2, confidence 0.9) is to be
    notified, and no longer once it is marked; a confidence of exactly the
    double 0.7 with a score of exactly 7 is to be notified too. *)
Lemma notification_flag_is_one_shot_witness :
  status SampleMore.completed = COMPLETED /\
  should_notify SampleMore.completed = true /\
  should_notify (mark_notified SampleMore.completed 5 5) = false /\
  should_notify SampleMore.borderline = true.
Proof.
  destruct (notification_flag_is_one_shot SampleMore.completed 5 5)
    as (Hafter & _ & Hbefore & _).
  destruct (Hbefore eq_refl) as (_ & Hst & _).
  split_and!; [exact Hst | reflexivity | exact Hafter |].
  apply (proj2 (proj2 (proj2
           (notification_flag_is_one_shot SampleMore.borderline 5 5)))
           (SampleMore.analysis_of 7 double_0_7 200) 7 double_0_7);
    try reflexivity; vm_compute; discriminate.
Defined.

(** Scores 5.5 and 8.2: high risk and low risk. *)
Lemma risk_level_follows_score_witness :
  (severity (risk_level SampleMore.strong)
   <= severity (risk_level SampleMore.middling))%nat /\
  risk_level SampleMore.strong = LOW.
Proof.
  destruct (risk_level_follows_score SampleMore.middling SampleMore.strong 5.5 8.2
              eq_refl eq_refl) as (Hmono & _ & _).
  - vm_compute. discriminate.
  - split; [exact Hmono |].
    apply (proj1 (proj2 (risk_level_follows_score SampleMore.strong SampleMore.strong
                           8.2 8.2 eq_refl eq_refl ltac:(vm_compute; discriminate)))).
    vm_compute. discriminate.
Defined.

End ModelsMoreFacts.

(** ** The liquidity ratio *)

Module RatioFacts.
Import Models Analyzer AnalyzerMore.
Section WithRuntime.
Context {rt : PyRuntime} (truediv : Q -> Q -> Q).

#[local] Notation "'ratio_'" := (_calculate_liquidity_ratio truediv) (only parsing).


End WithRuntime.

#[local] Existing Instance Sample.runtime.


End RatioFacts.

(** ** From a block to the hand-off *)

Module ListenerMoreFacts.
Import Models Listener ListenerMore.
Section WithRuntime.
Context {rt : PyRuntime}.

Lemma handle_counts (self : EthereumWebSocketListener) (svc : services)
    (addr : string) (tx : transaction) (now : Q) :
  contracts_detected (fst (_handle_new_erc20_token self svc addr tx now))
  = contracts_detected self /\
  tokens_processed (fst (_handle_new_erc20_token self svc addr tx now))
  = (tokens_processed self + 1)%Z /\
  (forall t, snd (_handle_new_erc20_token self svc addr tx now) = Some t ->
     token_exists svc addr = Ok false /\
     validate_contract_address addr = Ok (contract_address t)).
Proof.
  unfold _handle_new_erc20_token. rewrite HandOffFacts.handle_try_spec.
  destruct (token_exists svc addr) as [[|] | e]; cbn;
    try (split_and!; [reflexivity | reflexivity | intros t H; discriminate]).
  destruct (validate_contract_address addr) as [lowered | e]; cbn.
  - split_and!; [reflexivity | reflexivity |].
    intros t [= <-]. split; reflexivity.
  - split_and!; [reflexivity | reflexivity | intros t H; discriminate].
Qed.

(** X8. One contract-creation transaction: [contracts_detected] grows by
    one whatever happens, [tokens_processed] by at most one, and an
    analysis task is created only when the receipt names a contract
    address, the ERC20 probe accepts it and the store does not know it
    yet; the task is for that address. *)
Theorem contract_creation_pipeline (self : EthereumWebSocketListener)
    (svc : services) (n : node) (tx : transaction) (now : Q) :
  let final := fst (_process_contract_creation self svc n tx now) in
  let task := snd (_process_contract_creation self svc n tx now) in
  contracts_detected final = (contracts_detected self + 1)%Z /\
  (tokens_processed self <= tokens_processed final <= tokens_processed self + 1)%Z /\
  (forall t, task = Some t ->
     exists addr,
       _get_transaction_receipt n (tx_hash tx)
       = Some {| contractAddress := Some addr |} /\
       addr <> "" /\
       _is_erc20_token (web3 n) addr = true /\
       token_exists svc addr = Ok false /\
       validate_contract_address addr = Ok (contract_address t) /\
       tokens_processed final = (tokens_processed self + 1)%Z).
Proof.
  unfold _process_contract_creation.
  destruct (_get_transaction_receipt n (tx_hash tx)) as [[[addr |]] |] eqn:Hr; cbn;
    try (split; [reflexivity | split; [lia | intros t H; discriminate]]).
  destruct (String.eqb addr "") eqn:Hempty; cbn;
    [split; [reflexivity | split; [lia | intros t H; discriminate]] |].
  destruct (_is_erc20_token (web3 n) addr) eqn:Hprobe; cbn;
    [| split; [reflexivity | split; [lia | intros t H; discriminate]]].
  destruct (handle_counts (bump_contracts_detected self) svc addr tx now)
    as (Hc & Hp & Htask).
  cbn in Hc, Hp. split; [exact Hc |]. split; [lia |].
  intros t Ht. destruct (Htask t Ht) as [Hex Hval].
  exists addr. split_and!; try assumption; try reflexivity.
  apply String.eqb_neq. exact Hempty.
Qed.

Lemma creation_counts (self : EthereumWebSocketListener)
    (svc : services) (n : node) (tx : transaction) (now : Q) :
  let final := fst (_process_contract_creation self svc n tx now) in
  let task := snd (_process_contract_creation self svc n tx now) in
  contracts_detected final = (contracts_detected self + 1)%Z /\
  (tokens_processed self <= tokens_processed final <= tokens_processed self + 1)%Z /\
  (is_Some task -> tokens_processed final = (tokens_processed self + 1)%Z).
Proof.
  unfold _process_contract_creation.
  destruct (_get_transaction_receipt n (tx_hash tx)) as [[[addr |]] |]; cbn;
    try (split; [reflexivity | split; [lia | intros [t H]; discriminate]]).
  destruct (String.eqb addr ""); cbn;
    [split; [reflexivity | split; [lia | intros [t H]; discriminate]] |].
  destruct (_is_erc20_token (web3 n) addr); cbn;
    [| split; [reflexivity | split; [lia | intros [t H]; discriminate]]].
  destruct (handle_counts (bump_contracts_detected self) svc addr tx now)
    as (Hc & Hp & _).
  cbn in Hc, Hp. split; [exact Hc | split; [lia | intros _; exact Hp]].
Qed.

Lemma process_all_counts (work : list (transaction * Q)) :
  forall (self : EthereumWebSocketListener) (svc : services) (n : node),
    let final := fst (process_all self svc n work) in
    let tasks := snd (process_all self svc n work) in
    contracts_detected final = (contracts_detected self + Z.of_nat (length work))%Z /\
    (tokens_processed self <= tokens_processed final)%Z /\
    (tokens_processed final - tokens_processed self <= Z.of_nat (length work))%Z /\
    (Z.of_nat (length tasks) <= tokens_processed final - tokens_processed self)%Z.
Proof.
  induction work as [| [tx now] rest IH]; intros self svc n.
  - cbn. split_and!; lia.
  - cbn [process_all].
    destruct (creation_counts self svc n tx now) as (Hc & Hp & Ht).
    destruct (_process_contract_creation self svc n tx now) as [self1 task].
    cbn [fst snd] in Hc, Hp, Ht.
    specialize (IH self1 svc n).
    destruct (process_all self1 svc n rest) as [final tasks].
    cbn [fst snd] in IH |- *. destruct IH as (IHc & IHp & IHd & IHt).
    rewrite length_app. cbn [length].
    assert (Htask : (Z.of_nat (length (option_list task))
                     <= tokens_processed self1 - tokens_processed self)%Z).
    { destruct task as [t |]; cbn.
      - specialize (Ht ltac:(eexists; reflexivity)). lia.
      - lia. }
    split_and!; lia.
Qed.

(** X9. A scan of a block's transactions looks at the contract creations
    only: [contracts_detected] grows by their number, [tokens_processed]
    by no more than that, so a listener with
    [tokens_processed <= contracts_detected] keeps it so; and no more
    analysis tasks are created than tokens were processed. *)
Theorem block_scan_counters (self : EthereumWebSocketListener)
    (svc : services) (n : node) (transactions : list (transaction * Q)) :
  let creations :=
    List.filter (fun p => _is_contract_creation (fst p)) transactions in
  let final := fst (_scan_block_transactions self svc n transactions) in
  let tasks := snd (_scan_block_transactions self svc n transactions) in
  contracts_detected final
  = (contracts_detected self + Z.of_nat (length creations))%Z /\
  (Z.of_nat (length tasks) <= tokens_processed final - tokens_processed self
   <= Z.of_nat (length creations))%Z /\
  ((tokens_processed self <= contracts_detected self)%Z ->
   (tokens_processed final <= contracts_detected final)%Z) /\
  (creations = [] -> final = self /\ tasks = []).
Proof.
  intros creations final tasks.
  unfold final, tasks, _scan_block_transactions. fold creations.
  destruct (process_all_counts creations self svc n) as (Hc & Hp & Hd & Ht).
  split_and!; try lia.
  intros ->. split; reflexivity.
Qed.

Lemma start_loop_cons (self : EthereumWebSocketListener) (c : cycle)
    (rest : list cycle) :
  start_loop self (c :: rest) =
  if negb (is_running self) then (self, [], Stopped)
  else
    let '(self1, r) := _connect_and_listen self (outcome c) in
    match r with
    | Ok _ => start_loop (after_cycle c self1) rest
    | Raise _ =>
        if (reconnect_attempts self1 <? max_reconnect_attempts self1)%Z
        then
          let self2 := set_attempts self1 (reconnect_attempts self1 + 1) in
          let wait_time := (reconnect_delay self2 * reconnect_attempts self2)%Z in
          let '(final, sleeps, ex) := start_loop (after_cycle c self2) rest in
          (final, wait_time :: sleeps, ex)
        else (self1, [], GaveUp)
    end.
Proof. reflexivity. Qed.

(** After a [stop()], the loop looks at nothing more. *)
Lemma stopped_is_final (rest : list cycle) (self : EthereumWebSocketListener) :
  is_running self = false -> start_loop self rest = (self, [], Stopped).
Proof.
  intros Hstop. destruct rest as [| c rest]; cbn; rewrite Hstop; reflexivity.
Qed.

(** X10. [stop()] ends the reconnect loop: when [stop()] runs during a
    turn of the loop, no connection attempt is made after that turn,
    whatever the node would have answered, and the loop has ended. *)
Theorem no_attempt_after_stop (pre rest : list cycle) (c : cycle)
    (self : EthereumWebSocketListener) :
  stop_called c = true ->
  start_loop self (pre ++ c :: rest) = start_loop self (pre ++ [c]) /\
  snd (start_loop self (pre ++ c :: rest)) <> Looping.
Proof.
  intros Hstop. revert self.
  induction pre as [| p pre IH]; intros self.
  - cbn [app]. rewrite !start_loop_cons.
    destruct (negb (is_running self)); [split; [reflexivity | discriminate] |].
    destruct (_connect_and_listen self (outcome c)) as [self1 r].
    assert (Hoff : forall s, is_running (after_cycle c s) = false).
    { intros s. unfold after_cycle. rewrite Hstop. reflexivity. }
    destruct r as [u | e].
    + rewrite !stopped_is_final by apply Hoff. split; [reflexivity | discriminate].
    + destruct (reconnect_attempts self1 <? max_reconnect_attempts self1)%Z.
      * cbv zeta. rewrite !stopped_is_final by apply Hoff.
        split; [reflexivity | discriminate].
      * split; [reflexivity | discriminate].
  - cbn [app]. rewrite !start_loop_cons.
    destruct (negb (is_running self)); [split; [reflexivity | discriminate] |].
    destruct (_connect_and_listen self (outcome p)) as [self1 r].
    destruct r as [u | e].
    + apply IH.
    + destruct (reconnect_attempts self1 <? max_reconnect_attempts self1)%Z.
      * cbv zeta.
        destruct (IH (after_cycle p
                        (set_attempts self1 (reconnect_attempts self1 + 1))))
          as [Heq Hne].
        rewrite Heq in Hne |- *.
        destruct (start_loop _ (pre ++ [c])) as [[final sleeps] ex].
        split; [reflexivity | exact Hne].
      * split; [reflexivity | discriminate].
Qed.

Lemma connect_keeps_settings (self : EthereumWebSocketListener) (o : connect_outcome) :
  let self1 := fst (_connect_and_listen self o) in
  max_reconnect_attempts self1 = max_reconnect_attempts self /\
  reconnect_delay self1 = reconnect_delay self /\
  (reconnect_attempts self1 = reconnect_attempts self \/ reconnect_attempts self1 = 0%Z).
Proof.
  unfold _connect_and_listen.
  destruct o as [e | e |]; cbn; try destruct e; cbn; split_and!; auto.
Qed.

Lemma loop_bounds (script : list cycle) :
  forall self,
    (0 <= reconnect_attempts self <= max_reconnect_attempts self)%Z ->
    let final := fst (fst (start_loop self script)) in
    let sleeps := snd (fst (start_loop self script)) in
    (0 <= reconnect_attempts final <= max_reconnect_attempts self)%Z /\
    max_reconnect_attempts final = max_reconnect_attempts self /\
    Forall (permitted_delay self) sleeps.
Proof.
  induction script as [| c rest IH]; intros self Hb.
  - cbn. split; [lia | split; [reflexivity | constructor]].
  - cbn [start_loop].
    destruct (negb (is_running self)); [cbn; split; [lia | split; [reflexivity | constructor]] |].
    destruct (connect_keeps_settings self (outcome c)) as (Hm & Hd & Ha).
    destruct (_connect_and_listen self (outcome c)) as [self1 r].
    cbn [fst] in Hm, Hd, Ha.
    assert (Hb1 : (0 <= reconnect_attempts self1 <= max_reconnect_attempts self1)%Z)
      by (destruct Ha as [-> | ->]; lia).
    assert (Hkeep : forall s,
               max_reconnect_attempts (after_cycle c s) = max_reconnect_attempts s /\
               reconnect_delay (after_cycle c s) = reconnect_delay s /\
               reconnect_attempts (after_cycle c s) = reconnect_attempts s).
    { intros s. unfold after_cycle. destruct (stop_called c); split_and!; reflexivity. }
    assert (Hsame : forall s d,
               max_reconnect_attempts s = max_reconnect_attempts self ->
               reconnect_delay s = reconnect_delay self ->
               permitted_delay s d -> permitted_delay self d).
    { intros s d Hms Hds (k & Hk & ->). exists k. rewrite <- Hms, <- Hds.
      split; [exact Hk | reflexivity]. }
    destruct r as [u | e].
    + destruct (Hkeep self1) as (Hk1 & Hk2 & Hk3).
      specialize (IH (after_cycle c self1) ltac:(lia)).
      destruct (start_loop (after_cycle c self1) rest) as [[final sleeps] ex].
      cbn [fst snd] in IH |- *. destruct IH as (I1 & I2 & I3).
      split; [lia |]. split; [congruence |].
      eapply Forall_impl; [exact I3 |].
      intros d Hd'. apply (Hsame (after_cycle c self1)); [congruence | congruence | exact Hd'].
    + destruct (Z.ltb_spec (reconnect_attempts self1) (max_reconnect_attempts self1))
        as [Hlt | Hge].
      * set (self2 := set_attempts self1 (reconnect_attempts self1 + 1)).
        destruct (Hkeep self2) as (Hk1 & Hk2 & Hk3).
        specialize (IH (after_cycle c self2)
                      ltac:(rewrite Hk1, Hk3; cbn; lia)).
        destruct (start_loop (after_cycle c self2) rest) as [[final sleeps] ex].
        cbn [fst snd] in IH |- *. destruct IH as (I1 & I2 & I3).
        rewrite Hk1 in I1, I2. cbn in I1, I2.
        split; [lia |]. split; [congruence |].
        constructor.
        -- exists (reconnect_attempts self1 + 1)%Z. cbn. split; [lia |].
           rewrite Hd. reflexivity.
        -- eapply Forall_impl; [exact I3 |].
           intros d Hd'. apply (Hsame (after_cycle c self2));
             [rewrite Hk1; exact Hm | rewrite Hk2; exact Hd | exact Hd'].
      * cbn. split; [lia | split; [exact Hm | constructor]].
Qed.

(** X11. Whatever the node does, in whatever order (refusals, sessions
    that break or end, absorbed failures, stops), the attempt counter of a
    listener started fresh stays between 0 and the maximum, and every
    delay the loop sleeps is the base delay times an attempt number
    between 1 and the maximum. *)
Theorem attempts_and_delays_bounded (cfg : Config.Settings) (script : list cycle) :
  (0 <= Config.MAX_RECONNECT_ATTEMPTS cfg)%Z ->
  let final := fst (fst (start (init cfg) script)) in
  let sleeps := snd (fst (start (init cfg) script)) in
  (0 <= reconnect_attempts final <= Config.MAX_RECONNECT_ATTEMPTS cfg)%Z /\
  Forall (fun delay =>
            exists k, (1 <= k <= Config.MAX_RECONNECT_ATTEMPTS cfg)%Z /\
                      delay = (Config.WEBSOCKET_RECONNECT_DELAY cfg * k)%Z) sleeps.
Proof.
  intros Hmax final sleeps. unfold final, sleeps, start.
  destruct (loop_bounds script (set_running (init cfg) true)) as (H1 & _ & H3).
  - cbn. lia.
  - cbn in H1. split; [exact H1 |].
    eapply Forall_impl; [exact H3 |].
    intros d (k & Hk & ->). exists k. cbn in Hk |- *. split; [exact Hk | reflexivity].
Qed.

End WithRuntime.

#[local] Existing Instance Sample.runtime.

(** A creation whose receipt names the Foo contract, unknown to the
    store: a task for the lower-cased address. *)
Lemma contract_creation_pipeline_witness :
  exists t,
    snd (_process_contract_creation (init Config.settings)
           (Sample.services_with false) SampleListener.node_with_foo
           Sample.creation_tx 0) = Some t /\
    validate_contract_address Sample.address = Ok (contract_address t).
Proof.
  destruct (snd (_process_contract_creation (init Config.settings)
                   (Sample.services_with false) SampleListener.node_with_foo
                   Sample.creation_tx 0)) as [t |] eqn:E;
    [| vm_compute in E; discriminate].
  exists t. split; [reflexivity |].
  destruct (proj2 (proj2 (contract_creation_pipeline (init Config.settings)
                            (Sample.services_with false)
                            SampleListener.node_with_foo Sample.creation_tx 0))
              t E) as (addr & Hr & _ & _ & _ & Hv & _).
  vm_compute in Hr. injection Hr as <-. exact Hv.
Defined.

(** A block with one transfer and two creations: two contracts detected,
    and the counters stay in order. *)
Lemma block_scan_counters_witness :
  contracts_detected
    (fst (_scan_block_transactions (init Config.settings)
            (Sample.services_with true) SampleListener.node_with_foo
            SampleListener.block)) = 2%Z /\
  (tokens_processed
     (fst (_scan_block_transactions (init Config.settings)
             (Sample.services_with true) SampleListener.node_with_foo
             SampleListener.block))
   <= contracts_detected
        (fst (_scan_block_transactions (init Config.settings)
                (Sample.services_with true) SampleListener.node_with_foo
                SampleListener.block)))%Z.
Proof.
  destruct (block_scan_counters (init Config.settings) (Sample.services_with true)
              SampleListener.node_with_foo SampleListener.block)
    as (Hc & _ & Hinv & _).
  split; [exact Hc |].
  apply Hinv. cbn. lia.
Defined.

(** A [stop()] during the second backoff: the two refusals that would
    follow are never tried. *)
Lemma no_attempt_after_stop_witness :
  start_loop (set_running (init Config.settings) true) SampleListener.stopped_script
  = start_loop (set_running (init Config.settings) true)
      [ failing OSError;
        {| outcome := ConnectRaises OSError; stop_called := true |} ].
Proof.
  exact (proj1 (no_attempt_after_stop [failing OSError]
                  [failing OSError; failing OSError]
                  {| outcome := ConnectRaises OSError; stop_called := true |}
                  (set_running (init Config.settings) true) eq_refl)).
Defined.

(** A mixed history with the default settings: the counter ends within
    its bounds. *)
Lemma attempts_and_delays_bounded_witness :
  (0 <= reconnect_attempts
          (fst (fst (start (init Config.settings) SampleListener.mixed_script)))
   <= 10)%Z.
Proof.
  apply (attempts_and_delays_bounded Config.settings SampleListener.mixed_script).
  cbn. lia.
Defined.

End ListenerMoreFacts.

(** ** Producers and worker of the notification queue *)

Module NotifierMoreFacts.
Import Models Notifier NotifierMore.
Section WithFormatters.
Context {AnalysisResult : Type} (overall_score : AnalysisResult -> pyfloat).
Context {Status : Type}
  (_format_token_notification : TokenInfo -> AnalysisResult -> Q -> result string)
  (_format_alert_message : string -> string -> string -> Q -> string)
  (_format_system_status : Status -> Q -> string)
  (startup_text : Q -> string).

#[local] Notation "'produce_'" :=
  (produce overall_score _format_token_notification _format_alert_message
     _format_system_status startup_text) (only parsing).
#[local] Notation "'produce_all_'" :=
  (produce_all overall_score _format_token_notification _format_alert_message
     _format_system_status startup_text) (only parsing).

(** One call appends at most one message, with a known tag, and touches
    nothing else. *)
Lemma produce_appends (cfg : Config.Settings) (self : TelegramNotifierService)
    (p : producer) :
  exists added,
    message_queue (produce_ cfg self p) = (message_queue self ++ added)%list /\
    (length added <= 1)%nat /\ Forall known_tag added /\
    is_running (produce_ cfg self p) = is_running self /\
    chat_ids (produce_ cfg self p) = chat_ids self.
Proof.
  destruct p as [ti r now | title msg prio now | st now | now]; cbn.
  - unfold notify_new_token.
    destruct (flt _ _).
    + exists []. rewrite app_nil_r. split_and!; auto.
    + destruct (_format_token_notification ti r now) as [m | e].
      * eexists [_]. cbn. split_and!; auto.
        constructor; [| constructor]. right. left. reflexivity.
      * exists []. rewrite app_nil_r. split_and!; auto.
  - eexists [_]. cbn. split_and!; auto.
    constructor; [| constructor]. unfold known_tag. cbn.
    destruct (String.eqb prio "critical"); auto.
  - eexists [_]. cbn. split_and!; auto.
    constructor; [| constructor]. right. right. reflexivity.
  - eexists [_]. cbn. split_and!; auto.
    constructor; [| constructor]. right. left. reflexivity.
Qed.

(** X12. The producers only append: after any sequence of calls of
    [notify_new_token], [notify_alert], [notify_system_status] and
    [send_startup_message], the queue is the old queue followed by at most
    one new message per call, every new message is tagged "high",
    "normal" or "low", and neither the running flag nor the chats have
    changed. *)
Theorem producers_only_append (cfg : Config.Settings) (ps : list producer)
    (self : TelegramNotifierService) :
  exists added,
    message_queue (produce_all_ cfg self ps) = (message_queue self ++ added)%list /\
    (length added <= length ps)%nat /\ Forall known_tag added /\
    is_running (produce_all_ cfg self ps) = is_running self /\
    chat_ids (produce_all_ cfg self ps) = chat_ids self.
Proof.
  revert self. induction ps as [| p rest IH]; intros self.
  - exists []. cbn. rewrite app_nil_r. split_and!; auto.
  - cbn [produce_all fold_left].
    destruct (produce_appends cfg self p) as (a1 & Hq1 & Hl1 & Ht1 & Hr1 & Hc1).
    destruct (IH (produce_ cfg self p)) as (a2 & Hq2 & Hl2 & Ht2 & Hr2 & Hc2).
    unfold produce_all in Hq2, Hr2, Hc2.
    exists (a1 ++ a2)%list. split_and!.
    + rewrite Hq2, Hq1, app_assoc. reflexivity.
    + rewrite length_app. cbn [length]. lia.
    + apply Forall_app. split; assumption.
    + congruence.
    + congruence.
Qed.

End WithFormatters.

(** Once [is_running] is cleared it stays so, and an action hands over at
    most what the worker's pending [get] allows. *)
Lemma act_after_stop (s : system) (a : action) :
  is_running (notifier s) = false ->
  is_running (notifier (act s a)) = false /\
  exists taken,
    handed (act s a) = (handed s ++ taken)%list /\
    (length taken + pending_gets (worker (act s a)) <= pending_gets (worker s))%nat.
Proof.
  intros Hoff.
  assert (Hnothing : forall s' : system,
            is_running (notifier s') = false -> handed s' = handed s ->
            (pending_gets (worker s') <= pending_gets (worker s))%nat ->
            is_running (notifier s') = false /\
            exists taken,
              handed s' = (handed s ++ taken)%list /\
              (length taken + pending_gets (worker s') <= pending_gets (worker s))%nat).
  { intros s' Hoff' Hh Hle. split; [exact Hoff' |].
    exists []. rewrite app_nil_r. split; [exact Hh | cbn; lia]. }
  destruct a as [q | | |]; cbn [act].
  - apply Hnothing; cbn; [exact Hoff | reflexivity | lia].
  - apply Hnothing; cbn; [reflexivity | reflexivity | lia].
  - destruct (worker s) eqn:Hw.
    + apply Hnothing; [exact Hoff | reflexivity | rewrite Hw; lia].
    + apply Hnothing; cbn; [exact Hoff | reflexivity |].
      rewrite Hoff. cbn. lia.
    + destruct (message_queue (notifier s)) as [| m rest].
      * apply Hnothing; [exact Hoff | reflexivity | rewrite Hw; lia].
      * cbn. split; [exact Hoff |]. exists [message m].
        split; [reflexivity | cbn; lia].
    + apply Hnothing; [exact Hoff | reflexivity | rewrite Hw; lia].
  - destruct (worker s) eqn:Hw.
    + apply Hnothing; [exact Hoff | reflexivity | rewrite Hw; lia].
    + apply Hnothing; [exact Hoff | reflexivity | rewrite Hw; lia].
    + apply Hnothing; cbn; [exact Hoff | reflexivity | lia].
    + apply Hnothing; [exact Hoff | reflexivity | rewrite Hw; lia].
Qed.

Lemma run_after_stop (actions : list action) :
  forall s,
    is_running (notifier s) = false ->
    exists taken,
      handed (run s actions) = (handed s ++ taken)%list /\
      (length taken <= pending_gets (worker s))%nat.
Proof.
  induction actions as [| a rest IH]; intros s Hoff.
  - exists []. cbn. rewrite app_nil_r. split; [reflexivity | lia].
  - cbn [run fold_left].
    destruct (act_after_stop s a Hoff) as (Hoff' & t1 & H1 & Hl1).
    destruct (IH (act s a) Hoff') as (t2 & H2 & Hl2).
    exists (t1 ++ t2)%list. unfold run in H2. rewrite H2, H1, app_assoc.
    split; [reflexivity |]. rewrite length_app. lia.
Qed.

Lemma act_when_idle (s : system) (a : action) :
  idle s ->
  idle (act s a) /\ handed (act s a) = handed s /\
  message_queue (notifier (act s a)) = (message_queue (notifier s) ++ put_by a)%list.
Proof.
  unfold idle. intros Hidle.
  destruct a as [q | | |]; cbn [act put_by]; rewrite ?app_nil_r.
  - cbn. split_and!; [exact Hidle | reflexivity | reflexivity].
  - cbn. split_and!; [| reflexivity | reflexivity].
    destruct Hidle as [Hw | [_ Hw]]; [left; exact Hw | right; split; [reflexivity | exact Hw]].
  - destruct (worker s) eqn:Hw.
    + rewrite Hw. split_and!; [exact Hidle | reflexivity | reflexivity].
    + destruct Hidle as [Hno | [Hoff _]]; [discriminate |].
      cbn [worker notifier handed]. rewrite Hoff.
      split_and!; [| reflexivity | reflexivity].
      right. split; [reflexivity | discriminate].
    + destruct Hidle as [Hno | [_ Hne]]; [discriminate | contradiction].
    + rewrite Hw. split_and!; [exact Hidle | reflexivity | reflexivity].
  - destruct (worker s) eqn:Hw.
    + rewrite Hw. split_and!; [exact Hidle | reflexivity | reflexivity].
    + rewrite Hw. split_and!; [exact Hidle | reflexivity | reflexivity].
    + destruct Hidle as [Hno | [_ Hne]]; [discriminate | contradiction].
    + rewrite Hw. split_and!; [exact Hidle | reflexivity | reflexivity].
Qed.

Lemma run_when_idle (actions : list action) :
  forall s, idle s ->
    handed (run s actions) = handed s /\
    message_queue (notifier (run s actions))
    = (message_queue (notifier s) ++ puts actions)%list.
Proof.
  induction actions as [| a rest IH]; intros s Hidle.
  - cbn. rewrite app_nil_r. split; reflexivity.
  - cbn [run fold_left puts flat_map].
    destruct (act_when_idle s a Hidle) as (Hidle' & Hh & Hq).
    destruct (IH (act s a) Hidle') as [Hh2 Hq2]. unfold run, puts in Hh2, Hq2.
    rewrite Hh2, Hq2, Hh, Hq, app_assoc. split; reflexivity.
Qed.

(** X13. What [stop] stops.  [stop()] only clears [is_running], which the
    worker reads at the head of its loop: a worker that is suspended in
    its [get] when [stop()] runs still takes the next message that is
    queued and hands it to [_send_message_to_all_chats], and no other.
    A worker that stood elsewhere takes none: whatever is queued
    afterwards stays in the queue, in order.  The same holds when the
    connection test of [start] fails, for then no worker exists. *)
Theorem stop_lets_one_message_through (s : system) (self : TelegramNotifierService)
    (actions : list action) (q : queued) :
  is_running (notifier s) = false ->
  (exists taken,
     handed (run s actions) = (handed s ++ taken)%list /\ (length taken <= 1)%nat) /\
  (worker s <> Waiting ->
   handed (run s actions) = handed s /\
   message_queue (notifier (run s actions))
   = (message_queue (notifier s) ++ puts actions)%list) /\
  (worker s = Waiting -> message_queue (notifier s) = [] ->
   handed (run s (Put q :: Resume :: actions)) = (handed s ++ [message q])%list /\
   message_queue (notifier (run s (Put q :: Resume :: actions))) = puts actions) /\
  (handed (run (started self false) actions) = [] /\
   message_queue (notifier (run (started self false) actions))
   = (message_queue self ++ puts actions)%list).
Proof.
  intros Hoff. split_and!.
  - destruct (run_after_stop actions s Hoff) as (taken & Hh & Hl).
    exists taken. split; [exact Hh |].
    destruct (worker s); cbn in Hl; lia.
  - intros Hw. apply run_when_idle. right. split; [exact Hoff | exact Hw].
  - intros Hw Hq.
    assert (Hidle : idle (run s [Put q; Resume])).
    { cbn. rewrite Hw, Hq. cbn. right. split; [exact Hoff | discriminate]. }
    destruct (run_when_idle actions (run s [Put q; Resume]) Hidle) as [Hh Hqueue].
    change (run s (Put q :: Resume :: actions))
      with (run (run s [Put q; Resume]) actions).
    rewrite Hh, Hqueue. cbn. rewrite Hw, Hq. cbn. split; reflexivity.
  - apply (run_when_idle actions (started self false)). left. reflexivity.
  - apply (run_when_idle actions (started self false)). left. reflexivity.
Qed.

Lemma fan_out_length (self : TelegramNotifierService) (q : list queued) :
  length (flat_map (fun m => _send_message_to_all_chats self (message m)) q)
  = (length q * length (chat_ids self))%nat.
Proof.
  induction q as [| m rest IH]; [reflexivity |].
  cbn [flat_map]. rewrite length_app, IH.
  unfold _send_message_to_all_chats. rewrite length_map. cbn. lia.
Qed.

(** X14. A running worker given at least as many turns as there are
    queued messages empties the queue and loses nothing: every queued
    message is sent to every chat, in queue order, once, which makes as
    many requests as messages times chats. *)
Theorem queue_drains_completely (n : nat) (self : TelegramNotifierService) :
  is_running self = true ->
  (length (message_queue self) <= n)%nat ->
  message_queue (fst (_message_worker n self)) = [] /\
  snd (_message_worker n self)
  = flat_map (fun m => _send_message_to_all_chats self (message m))
             (message_queue self) /\
  length (snd (_message_worker n self))
  = (length (message_queue self) * length (chat_ids self))%nat.
Proof.
  intros Hrun Hn.
  destruct (NotifierFacts.worker_turns n self Hrun) as [Hq Hs].
  rewrite Hq, Hs, drop_ge, take_ge by exact Hn.
  split_and!; [reflexivity | reflexivity | apply fan_out_length].
Qed.

(** Four calls on a started notifier: the token message cannot be built
    and is not queued; the three others are, tagged in order normal, low,
    high. *)
Lemma producers_only_append_witness :
  map priority (message_queue (SampleNotifier.produce_calls Sample.notifier))
  = ["normal"; "low"; "high"] /\
  exists added,
    message_queue (SampleNotifier.produce_calls Sample.notifier)
    = (message_queue Sample.notifier ++ added)%list /\ (length added <= 4)%nat.
Proof.
  split; [reflexivity |].
  destruct (producers_only_append (fun s : pyfloat => s) Sample.format_token
              Sample.format_alert Sample.format_status SampleNotifier.startup
              Config.settings SampleNotifier.calls Sample.notifier)
    as (added & Hq & Hl & _).
  exists added. split; [exact Hq | exact Hl].
Defined.

(** A worker waiting on the empty queue, [stop()], then two messages:
    the first is taken, the second stays queued, whatever comes next. *)
Lemma stop_lets_one_message_through_witness :
  is_running (notifier (run SampleNotifier.waiting [Stop])) = false /\
  handed (run SampleNotifier.waiting
            [Stop; Put SampleNotifier.late; Resume; Put SampleNotifier.late;
             Resume; Resume; WaitTimeout; Resume])
  = ["late alert"] /\
  message_queue (notifier (run SampleNotifier.waiting
            [Stop; Put SampleNotifier.late; Resume; Put SampleNotifier.late;
             Resume; Resume; WaitTimeout; Resume]))
  = [SampleNotifier.late].
Proof.
  split; [reflexivity |].
  destruct (stop_lets_one_message_through (run SampleNotifier.waiting [Stop])
              (init ["chat-1"])
              [Put SampleNotifier.late; Resume; Resume; WaitTimeout; Resume]
              SampleNotifier.late eq_refl)
    as (_ & _ & Hone & _).
  exact (Hone eq_refl eq_refl).
Defined.

(** The status report and the critical alert, five turns: both sent, in
    queue order. *)
Lemma queue_drains_completely_witness :
  message_queue (fst (_message_worker 5 Sample.status_then_critical)) = [] /\
  length (snd (_message_worker 5 Sample.status_then_critical)) = 2%nat.
Proof.
  destruct (queue_drains_completely 5 Sample.status_then_critical eq_refl)
    as (Hq & _ & Hl).
  - cbn. lia.
  - split; [exact Hq | exact Hl].
Defined.

End NotifierMoreFacts.

(** ** Scanning pairs *)

Module ScanFacts.
Import Models DexscannerMore.
Section WithRuntime.
Context {rt : PyRuntime} (fromtimestamp : Q -> result Q).

#[local] Notation "'scan_loop_'" := (scan_loop fromtimestamp) (only parsing).
#[local] Notation "'_get_latest_pairs_'" := (_get_latest_pairs fromtimestamp)
  (only parsing).
#[local] Notation "'passes_'" := (passes_time_test fromtimestamp) (only parsing).
#[local] Notation "'converts_'" := (converts fromtimestamp) (only parsing).
#[local] Notation "'convertible_'" := (convertible fromtimestamp) (only parsing).

Lemma addresses_app (l1 l2 : list pair) :
  addresses (l1 ++ l2) = (addresses l1 ++ addresses l2)%list.
Proof. unfold addresses. apply omap_app. Qed.

(** What a run of the loop that ends normally has added. *)
Lemma scan_loop_kept (cutoff_time : Q) (pairs : list pair) :
  forall processed recent_pairs out processed',
    scan_loop_ processed cutoff_time pairs recent_pairs = (Some out, processed') ->
    exists new,
      out = (recent_pairs ++ new)%list /\
      length (addresses new) = length new /\
      NoDup (addresses new) /\
      (forall a, a ∈ addresses new -> a ∉ processed) /\
      processed' = list_to_set (addresses new) ∪ processed /\
      Forall (passes_ cutoff_time) new.
Proof.
  induction pairs as [| p rest IH]; intros processed recent_pairs out processed'.
  - cbn. intros [= <- <-]. exists []. rewrite app_nil_r. cbn.
    split_and!; [reflexivity | reflexivity | constructor | | | constructor].
    + intros a Ha. apply elem_of_nil in Ha. contradiction.
    + symmetry. apply (left_id_L ∅ (∪)).
  - cbn [scan_loop].
    destruct (truthy_str (pairAddress p)) as [a |] eqn:Ha; [| apply IH].
    destruct (decide (a ∈ processed)) as [Hin | Hnew]; [apply IH |].
    destruct (truthy_num (pairCreatedAt p)) as [c |] eqn:Hc; [| apply IH].
    destruct (fromtimestamp (c / 1000)) as [t |] eqn:Ht; [| discriminate].
    destruct (Qlt_bool cutoff_time t) eqn:Hlt; [| apply IH].
    intros Hrun. apply IH in Hrun.
    destruct Hrun as (new & -> & Hlen & Hnd & Hfresh & -> & Hrec).
    exists (p :: new). 
    assert (Hap : addresses (p :: new) = a :: addresses new).
    { unfold addresses. cbn. rewrite Ha. reflexivity. }
    rewrite Hap. split_and!.
    + rewrite <- app_assoc. reflexivity.
    + cbn. rewrite Hlen. reflexivity.
    + constructor; [| exact Hnd].
      intros Hdup. specialize (Hfresh a Hdup). set_solver.
    + intros x Hx. apply elem_of_cons in Hx. destruct Hx as [-> | Hx].
      * exact Hnew.
      * specialize (Hfresh x Hx). intros Hin. apply Hfresh.
        apply elem_of_union_r. exact Hin.
    + cbn [list_to_set foldr].
      rewrite (assoc_L (∪)), (comm_L (∪) _ {[a]}). reflexivity.
    + constructor; [| exact Hrec].
      exists c, t. split_and!; [exact Hc | exact Ht |].
      apply PyFacts.Qlt_bool_iff. exact Hlt.
Qed.

(** The set only grows, also when the loop is left by an exception. *)
Lemma scan_loop_grows (cutoff_time : Q) (pairs : list pair) :
  forall processed recent_pairs,
    processed ⊆ snd (scan_loop_ processed cutoff_time pairs recent_pairs).
Proof.
  induction pairs as [| p rest IH]; intros processed recent_pairs.
  - cbn. set_solver.
  - cbn [scan_loop].
    destruct (truthy_str (pairAddress p)) as [a |]; [| apply IH].
    destruct (decide (a ∈ processed)); [apply IH |].
    destruct (truthy_num (pairCreatedAt p)) as [c |]; [| apply IH].
    destruct (fromtimestamp (c / 1000)) as [t |]; [| cbn; set_solver].
    destruct (Qlt_bool cutoff_time t); [| apply IH].
    etransitivity; [| apply IH]. set_solver.
Qed.

(** What one call returns and remembers. *)
Lemma latest_pairs_kept (processed : gset string) (fetched : result (list pair))
    (utcnow : Q) :
  let out := fst (_get_latest_pairs_ processed fetched utcnow) in
  let processed' := snd (_get_latest_pairs_ processed fetched utcnow) in
  processed ⊆ processed' /\
  length (addresses out) = length out /\
  NoDup (addresses out) /\
  (forall a, a ∈ addresses out -> (a ∉ processed) /\ (a ∈ processed')) /\
  Forall (passes_ (utcnow - 3600)) out.
Proof.
  unfold _get_latest_pairs.
  destruct fetched as [pairs | e]; cbn;
    [| split_and!; [set_solver | reflexivity | constructor | set_solver | constructor]].
  pose proof (scan_loop_grows (utcnow - 3600) pairs processed []) as Hgrow.
  destruct (scan_loop_ processed (utcnow - 3600) pairs []) as [[out |] processed']
    eqn:Hrun; cbn in Hgrow |- *.
  - apply scan_loop_kept in Hrun.
    destruct Hrun as (new & -> & Hlen & Hnd & Hfresh & -> & Hrec).
    cbn [app]. split_and!; try assumption.
    intros a Ha. split; [apply Hfresh; exact Ha |].
    apply elem_of_union_l. apply elem_of_list_to_set. exact Ha.
  - split_and!; [exact Hgrow | reflexivity | constructor | set_solver | constructor].
Qed.

(** X15. The poller's local deduplication: the pairs a scan returns have
    distinct, non-empty addresses that were not in [processed_pairs]
    before and are in it afterwards; the set only grows; so no pair
    address is returned by two scans, whatever the later answer. *)
Theorem no_pair_returned_twice (processed : gset string)
    (fetched fetched' : result (list pair)) (utcnow utcnow' : Q) :
  let first := _get_latest_pairs_ processed fetched utcnow in
  let second := _get_latest_pairs_ (snd first) fetched' utcnow' in
  NoDup (addresses (fst first)) /\
  length (addresses (fst first)) = length (fst first) /\
  processed ⊆ snd first /\ snd first ⊆ snd second /\
  (forall a, a ∈ addresses (fst first) -> a ∉ addresses (fst second)).
Proof.
  intros first second.
  destruct (latest_pairs_kept processed fetched utcnow) as (H1 & H2 & H3 & H4 & _).
  destruct (latest_pairs_kept (snd first) fetched' utcnow') as (G1 & _ & _ & G4 & _).
  fold first in H1, H2, H3, H4. fold second in G1, G4.
  split_and!; try assumption.
  intros a Ha Ha'. destruct (H4 a Ha) as [_ Hin]. destruct (G4 a Ha') as [Hout _].
  contradiction.
Qed.

(** Without a failed conversion the loop runs to its end. *)
Lemma scan_loop_ends (cutoff_time : Q) (pairs : list pair) :
  forall processed recent_pairs,
    Forall convertible_ pairs ->
    fst (scan_loop_ processed cutoff_time pairs recent_pairs) <> None.
Proof.
  induction pairs as [| q rest IH]; intros processed recent_pairs Hall.
  - cbn. discriminate.
  - apply Forall_cons in Hall. destruct Hall as [Hq Hall].
    cbn [scan_loop].
    destruct (truthy_str (pairAddress q)) as [a |]; [| apply IH; exact Hall].
    destruct (decide (a ∈ processed)); [apply IH; exact Hall |].
    destruct (truthy_num (pairCreatedAt q)) as [c |] eqn:Hc;
      [| apply IH; exact Hall].
    specialize (Hq c Hc).
    destruct (fromtimestamp (c / 1000)) as [t |]; [| discriminate].
    destruct (Qlt_bool cutoff_time t); apply IH; exact Hall.
Qed.

(** What the loop returns was in the answer. *)
Lemma scan_loop_from_answer (cutoff_time : Q) (pairs : list pair) :
  forall processed recent_pairs out processed',
    scan_loop_ processed cutoff_time pairs recent_pairs = (Some out, processed') ->
    forall p, p ∈ out -> p ∈ recent_pairs \/ p ∈ pairs.
Proof.
  induction pairs as [| q rest IH]; intros processed recent_pairs out processed'.
  - cbn. intros [= <- <-] p Hp. left. exact Hp.
  - cbn [scan_loop]. intros Hrun p Hp.
    destruct (truthy_str (pairAddress q)) as [a |];
      [| destruct (IH _ _ _ _ Hrun p Hp); [left | right; right]; assumption].
    destruct (decide (a ∈ processed));
      [destruct (IH _ _ _ _ Hrun p Hp); [left | right; right]; assumption |].
    destruct (truthy_num (pairCreatedAt q)) as [c |];
      [| destruct (IH _ _ _ _ Hrun p Hp); [left | right; right]; assumption].
    destruct (fromtimestamp (c / 1000)) as [t |]; [| discriminate].
    destruct (Qlt_bool cutoff_time t);
      [| destruct (IH _ _ _ _ Hrun p Hp); [left | right; right]; assumption].
    destruct (IH _ _ _ _ Hrun p Hp) as [Hacc | Hrest]; [| right; right; exact Hrest].
    apply elem_of_app in Hacc. destruct Hacc as [Hacc | Hq]; [left; exact Hacc |].
    apply list_elem_of_singleton in Hq. subst p. right. left.
Qed.

(** A pair of the answer that has an address and passes the time test
    has its address in the set afterwards. *)
Lemma scan_loop_remembers (cutoff_time : Q) (pairs : list pair) :
  forall processed recent_pairs,
    Forall convertible_ pairs ->
    forall p a,
      p ∈ pairs -> truthy_str (pairAddress p) = Some a ->
      passes_ cutoff_time p ->
      a ∈ snd (scan_loop_ processed cutoff_time pairs recent_pairs).
Proof.
  induction pairs as [| q rest IH]; intros processed recent_pairs Hall p a Hp Ha Hpass.
  - apply elem_of_nil in Hp. contradiction.
  - apply Forall_cons in Hall. destruct Hall as [Hq Hall].
    apply elem_of_cons in Hp.
    assert (Hgrow : forall pr acc, a ∈ pr -> a ∈ snd (scan_loop_ pr cutoff_time rest acc)).
    { intros pr acc Hin. apply (scan_loop_grows cutoff_time rest pr acc). exact Hin. }
    cbn [scan_loop].
    destruct Hp as [-> | Hp].
    + rewrite Ha.
      destruct (decide (a ∈ processed)) as [Hin | Hnew]; [apply Hgrow; exact Hin |].
      destruct Hpass as (c & t & Hc & Ht & Hlt).
      rewrite Hc, Ht. apply PyFacts.Qlt_bool_iff in Hlt. rewrite Hlt.
      apply Hgrow. apply elem_of_union_l. apply elem_of_singleton. reflexivity.
    + destruct (truthy_str (pairAddress q)) as [b |]; [| exact (IH _ _ Hall p a Hp Ha Hpass)].
      destruct (decide (b ∈ processed)); [exact (IH _ _ Hall p a Hp Ha Hpass) |].
      destruct (truthy_num (pairCreatedAt q)) as [c |] eqn:Hc;
        [| exact (IH _ _ Hall p a Hp Ha Hpass)].
      specialize (Hq c Hc).
      destruct (fromtimestamp (c / 1000)) as [t |]; [| discriminate].
      destruct (Qlt_bool cutoff_time t); exact (IH _ _ Hall p a Hp Ha Hpass).
Qed.

Lemma converts_convertible (utc_offset : Q) (pairs : list pair) :
  Forall (converts_ utc_offset) pairs -> Forall convertible_ pairs.
Proof.
  intros Hall. apply (Forall_impl _ _ _ Hall). intros p Hp c Hc.
  destruct (Hp c Hc) as (t & -> & _). reflexivity.
Qed.

(** X16. The window of a scan, on a host whose local time is
    [utc_offset] seconds ahead of UTC.  The creation time of a pair is
    read as local time and compared with a cutoff taken from the UTC
    clock, one hour back: when the creation times convert, the pairs
    returned were all created later than one hour plus the offset before
    the reading of the clock, every pair of the answer with an address
    that was created later than that is remembered, and the scan remembers
    exactly the pairs it returns.  The window is one hour wide on a host
    at UTC only; two hours east of UTC it is three hours wide. *)
Theorem scan_keeps_recent_pairs_only (processed : gset string)
    (pairs : list pair) (utcnow utc_offset : Q) :
  Forall (converts_ utc_offset) pairs ->
  let out := fst (_get_latest_pairs_ processed (Ok pairs) utcnow) in
  let processed' := snd (_get_latest_pairs_ processed (Ok pairs) utcnow) in
  Forall (created_after (utcnow - 3600 - utc_offset)) out /\
  (forall p a,
     p ∈ pairs -> truthy_str (pairAddress p) = Some a ->
     created_after (utcnow - 3600 - utc_offset) p -> a ∈ processed') /\
  processed' = list_to_set (addresses out) ∪ processed /\
  (forall p, p ∈ out -> p ∈ pairs).
Proof.
  intros Hlocal. cbv zeta.
  pose proof (converts_convertible utc_offset pairs Hlocal) as Hconv.
  assert (Hremember : forall p a,
            p ∈ pairs -> truthy_str (pairAddress p) = Some a ->
            created_after (utcnow - 3600 - utc_offset) p ->
            a ∈ snd (scan_loop_ processed (utcnow - 3600) pairs [])).
  { intros p a Hp Ha (c & Hc & Hlt).
    apply (scan_loop_remembers (utcnow - 3600) pairs processed [] Hconv p a Hp Ha).
    destruct (proj1 (Forall_forall _ _) Hlocal p Hp c Hc) as (t & Ht & Heq).
    exists c, t. split_and!; [exact Hc | exact Ht | lra]. }
  unfold _get_latest_pairs.
  pose proof (scan_loop_ends (utcnow - 3600) pairs processed [] Hconv) as Hends.
  destruct (scan_loop_ processed (utcnow - 3600) pairs []) as [[out |] processed']
    eqn:Hrun; [| contradiction].
  cbn [fst snd] in Hremember |- *.
  pose proof (scan_loop_from_answer _ _ _ _ _ _ Hrun) as Hin.
  apply scan_loop_kept in Hrun.
  destruct Hrun as (new & -> & _ & _ & _ & -> & Hrec).
  cbn [app] in *. split_and!.
  - apply Forall_forall. intros p Hp.
    pose proof (proj1 (Forall_forall _ _) Hrec p Hp) as (c & t & Hc & Ht & Hlt).
    exists c. split; [exact Hc |].
    assert (Hpairs : p ∈ pairs).
    { destruct (Hin p Hp) as [H | H]; [apply elem_of_nil in H; contradiction | exact H]. }
    destruct (proj1 (Forall_forall _ _) Hlocal p Hpairs c Hc) as (t' & Ht' & Heq).
    rewrite Ht in Ht'. injection Ht' as <-. lra.
  - exact Hremember.
  - reflexivity.
  - intros p Hp. destruct (Hin p Hp) as [H | H]; [| exact H].
    apply elem_of_nil in H. contradiction.
Qed.

Lemma scan_loop_app (cutoff_time : Q) (pre more : list pair) :
  forall processed recent_pairs,
    scan_loop_ processed cutoff_time (pre ++ more) recent_pairs =
    match scan_loop_ processed cutoff_time pre recent_pairs with
    | (Some kept, processed') => scan_loop_ processed' cutoff_time more kept
    | (None, processed') => (None, processed')
    end.
Proof.
  induction pre as [| p rest IH]; intros processed recent_pairs.
  - reflexivity.
  - cbn [app scan_loop].
    destruct (truthy_str (pairAddress p)) as [a |]; [| apply IH].
    destruct (decide (a ∈ processed)); [apply IH |].
    destruct (truthy_num (pairCreatedAt p)) as [c |]; [| apply IH].
    destruct (fromtimestamp (c / 1000)) as [t |]; [| reflexivity].
    destruct (Qlt_bool cutoff_time t); apply IH.
Qed.

(** X17. A creation time that cannot be converted costs the whole scan:
    when the pairs before it made the loop keep some recent pairs, the
    function still returns the empty list, but those pairs stay in
    [processed_pairs], so that no later scan returns them either. *)
Theorem failed_conversion_loses_kept_pairs (processed : gset string)
    (pre rest : list pair) (bad : pair) (utcnow utcnow' : Q)
    (kept : list pair) (processed' : gset string)
    (a : string) (created_at : Q) (e : exn) (later : result (list pair)) :
  scan_loop_ processed (utcnow - 3600) pre [] = (Some kept, processed') ->
  truthy_str (pairAddress bad) = Some a -> a ∉ processed' ->
  truthy_num (pairCreatedAt bad) = Some created_at ->
  fromtimestamp (created_at / 1000) = Raise e ->
  _get_latest_pairs_ processed (Ok (pre ++ bad :: rest)%list) utcnow = ([], processed') /\
  (forall x, x ∈ addresses kept ->
     x ∈ processed' /\
     x ∉ addresses (fst (_get_latest_pairs_ processed' later utcnow'))).
Proof.
  intros Hpre Ha Hnew Hc He.
  assert (Hcall : _get_latest_pairs_ processed (Ok (pre ++ bad :: rest)%list) utcnow
                  = ([], processed')).
  { unfold _get_latest_pairs. rewrite scan_loop_app, Hpre.
    cbn [scan_loop]. rewrite Ha.
    destruct (decide (a ∈ processed')); [contradiction |].
    rewrite Hc, He. reflexivity. }
  split; [exact Hcall |].
  intros x Hx.
  apply scan_loop_kept in Hpre.
  destruct Hpre as (new & -> & _ & _ & _ & -> & _). cbn [app] in Hx.
  assert (Hin : x ∈ list_to_set (addresses new) ∪ processed).
  { apply elem_of_union_l. apply elem_of_list_to_set. exact Hx. }
  split; [exact Hin |].
  intros Hlater.
  destruct (latest_pairs_kept (list_to_set (addresses new) ∪ processed) later utcnow')
    as (_ & _ & _ & Hfresh & _).
  destruct (Hfresh x Hlater) as [Hout _]. contradiction.
Qed.

End WithRuntime.

(** The young pair is returned by the first scan and not by a second scan
    of the same answer. *)
Lemma no_pair_returned_twice_witness :
  addresses (fst (_get_latest_pairs SampleDex.utc ∅
                    (Ok [SampleDex.young; SampleDex.old]) 1000000))
  = ["0xpair-young"] /\
  "0xpair-young" ∉
    addresses (fst (_get_latest_pairs SampleDex.utc
                      (snd (_get_latest_pairs SampleDex.utc ∅
                              (Ok [SampleDex.young; SampleDex.old]) 1000000))
                      (Ok [SampleDex.young; SampleDex.old]) 1000060)).
Proof.
  split; [vm_compute; reflexivity |].
  apply (proj2 (proj2 (proj2 (proj2
           (no_pair_returned_twice SampleDex.utc ∅
              (Ok [SampleDex.young; SampleDex.old])
              (Ok [SampleDex.young; SampleDex.old]) 1000000 1000060))))).
  vm_compute. left.
Defined.

End ScanFacts.


(** ** Pairs that are filtered out *)

Module PairFacts.
Import Models DexscannerMore.

Lemma sample_pairs_convert_east :
  Forall (converts SampleDex.utc_plus_2 7200) [SampleDex.young; SampleDex.old].
Proof.
  repeat constructor; intros c; cbn; intros [= <-]; eexists;
    (split; [vm_compute; reflexivity | vm_compute; reflexivity]).
Qed.

(** On a host two hours ahead of UTC the pair created two hours ago is
    returned with the young one: both are less than three hours old. *)
Lemma scan_keeps_recent_pairs_only_witness :
  fst (_get_latest_pairs SampleDex.utc_plus_2 ∅
         (Ok [SampleDex.young; SampleDex.old]) 1000000)
  = [SampleDex.young; SampleDex.old] /\
  Forall (created_after (1000000 - 3600 - 7200))
    (fst (_get_latest_pairs SampleDex.utc_plus_2 ∅
            (Ok [SampleDex.young; SampleDex.old]) 1000000)) /\
  fst (_get_latest_pairs SampleDex.utc ∅
         (Ok [SampleDex.young; SampleDex.old]) 1000000)
  = [SampleDex.young].
Proof.
  split; [vm_compute; reflexivity |].
  split; [| vm_compute; reflexivity].
  exact (proj1 (ScanFacts.scan_keeps_recent_pairs_only SampleDex.utc_plus_2 ∅
                  [SampleDex.young; SampleDex.old] 1000000 7200
                  sample_pairs_convert_east)).
Defined.

(** The young pair is kept, then a creation time in the year 33658 ends
    the scan: nothing is returned, and the young pair is remembered. *)
Lemma failed_conversion_loses_kept_pairs_witness :
  scan_loop SampleDex.utc ∅ (1000000 - 3600) [SampleDex.young] []
  = (Some [SampleDex.young], {["0xpair-young"]} ∪ ∅) /\
  _get_latest_pairs SampleDex.utc ∅
    (Ok ([SampleDex.young] ++ SampleDex.broken :: [SampleDex.old])%list) 1000000
  = ([], {["0xpair-young"]} ∪ ∅).
Proof.
  assert (Hpre : scan_loop SampleDex.utc ∅ (1000000 - 3600) [SampleDex.young] []
                 = (Some [SampleDex.young], {["0xpair-young"]} ∪ ∅)).
  { reflexivity. }
  split; [exact Hpre |].
  refine (proj1 (ScanFacts.failed_conversion_loses_kept_pairs SampleDex.utc ∅
                   [SampleDex.young] [SampleDex.old] SampleDex.broken
                   1000000 1000060 [SampleDex.young] ({["0xpair-young"]} ∪ ∅)
                   "0xpair-broken" 1000000000000000 ValueError
                   (Ok [SampleDex.young]) Hpre eq_refl _ eq_refl eq_refl)).
  apply not_elem_of_union. split.
  - apply not_elem_of_singleton. discriminate.
  - apply not_elem_of_empty.
Defined.

Section WithRuntime.
Context {rt : PyRuntime} (fromtimestamp : Q -> result Q).

#[local] Notation "'_create_token_info_from_pair_'" :=
  (_create_token_info_from_pair fromtimestamp) (only parsing).
#[local] Notation "'_process_new_pair_'" :=
  (_process_new_pair fromtimestamp) (only parsing).

(** X18. The choice of the main token of a pair: the token chosen never
    carries one of the five stable symbols and has a non-empty address; it
    is the base token, or, only when the base symbol is stable, the quote
    token.  There is no falling back: a base token that is not stable but
    has no address leaves the pair without a main token, whatever the
    quote token is. *)
Theorem main_token_is_never_stable (p : pair) (token_address : string)
    (token_data : token_side) :
  select_token p = Some (token_address, token_data) ->
  in_stable (side_symbol token_data) = false /\
  truthy_str (side_address token_data) = Some token_address /\
  token_address <> "" /\
  (token_data = baseToken p \/
   (in_stable (side_symbol (baseToken p)) = true /\ token_data = quoteToken p)) /\
  (forall q : pair,
     in_stable (side_symbol (baseToken q)) = false ->
     truthy_str (side_address (baseToken q)) = None ->
     select_token q = None).
Proof.
  intros Hsel.
  assert (Hfall : forall q : pair,
             in_stable (side_symbol (baseToken q)) = false ->
             truthy_str (side_address (baseToken q)) = None ->
             select_token q = None).
  { intros q Hb Ha. unfold select_token. rewrite Hb. cbn. rewrite Ha. reflexivity. }
  assert (Hne : forall v a, truthy_str v = Some a -> a <> "").
  { intros [s |] a; cbn; [| discriminate].
    destruct (String.eqb s "") eqn:E; [discriminate |].
    intros [= <-]. apply String.eqb_neq. exact E. }
  unfold select_token in Hsel.
  destruct (in_stable (side_symbol (baseToken p))) eqn:Hb; cbn in Hsel.
  - destruct (in_stable (side_symbol (quoteToken p))) eqn:Hq; cbn in Hsel;
      [discriminate |].
    destruct (truthy_str (side_address (quoteToken p))) as [a |] eqn:Ha;
      [| discriminate].
    injection Hsel as <- <-.
    split_and!; [exact Hq | exact Ha | exact (Hne _ _ Ha) | | exact Hfall].
    right. split; reflexivity.
  - destruct (truthy_str (side_address (baseToken p))) as [a |] eqn:Ha;
      [| discriminate].
    injection Hsel as <- <-.
    split_and!; [exact Hb | exact Ha | exact (Hne _ _ Ha) | | exact Hfall].
    left. reflexivity.
Qed.

Lemma constructed_keeps_timestamp (raw t : TokenInfo) :
  TokenInfo_new raw = Ok t ->
  creation_timestamp t = creation_timestamp raw /\
  source t = source raw /\ liquidity_usd t = liquidity_usd raw.
Proof.
  unfold TokenInfo_new, bind.
  destruct (validate_contract_address (contract_address raw)); [| discriminate].
  destruct (validate_positive_amounts (price_usd raw)); [| discriminate].
  destruct (validate_positive_amounts (market_cap_usd raw)); [| discriminate].
  destruct (validate_positive_amounts (liquidity_usd raw)); [| discriminate].
  destruct (validate_positive_amounts (volume_24h_usd raw)); [| discriminate].
  intros [= <-]. cbn. split_and!; reflexivity.
Qed.

Lemma created_token (p : pair) (token_address : string) (token_data : token_side)
    (utcnow detected : Q) (t : TokenInfo) :
  _create_token_info_from_pair_ p token_address token_data utcnow detected = Some t ->
  creation_timestamp t = None /\ source t = DEXSCREENER /\
  exists l, liquidity_usd_ p = Ok l /\ liquidity_usd t = Some l.
Proof.
  unfold _create_token_info_from_pair, create_try, bind.
  destruct (priceUsd p) as [price |]; [| discriminate].
  destruct (liquidity_usd_ p) as [l |]; [| discriminate].
  destruct (volume_h24 p) as [v |]; [| discriminate].
  destruct (priceChange_h24 p) as [c |]; [| discriminate].
  assert (Hbuilt : forall raw : TokenInfo,
             creation_timestamp raw = None -> source raw = DEXSCREENER ->
             liquidity_usd raw = Some l ->
             match TokenInfo_new raw with
             | Ok token_info => Some token_info
             | Raise _ => None
             end = Some t ->
             creation_timestamp t = None /\ source t = DEXSCREENER /\
             exists l', Ok l = Ok l' /\ liquidity_usd t = Some l').
  { intros raw Hts Hsrc Hl.
    destruct (TokenInfo_new raw) as [t' |] eqn:Hnew; [| discriminate].
    intros [= <-]. apply constructed_keeps_timestamp in Hnew.
    destruct Hnew as (Hts' & Hsrc' & Hl').
    split_and!; [congruence | congruence |].
    exists l. split; [reflexivity | congruence]. }
  destruct (truthy_num (pairCreatedAt p)) as [created_at |].
  - destruct (calculate_age_hours fromtimestamp (created_at / 1000) utcnow)
      as [age_hours |]; [| discriminate].
    apply Hbuilt; reflexivity.
  - apply Hbuilt; reflexivity.
Qed.

Lemma no_timestamp_not_interesting (t : TokenInfo) (utcnow : Q) :
  creation_timestamp t = None ->
  _is_interesting_token t utcnow = false /\
  (forall l, liquidity_usd t = Some l -> 10000 <= l ->
     interesting_try t utcnow = Raise TypeError).
Proof.
  intros Hts.
  assert (Hage : ModelsMore.age_hours t utcnow = None).
  { unfold ModelsMore.age_hours. rewrite Hts. reflexivity. }
  unfold _is_interesting_token, interesting_try, bind. rewrite Hage.
  destruct (liquidity_usd t) as [l |]; cbn.
  - split.
    + destruct (Qlt_bool l 10000); reflexivity.
    + intros l' [= <-] Hl. apply PyFacts.Qlt_bool_not in Hl. rewrite Hl. reflexivity.
  - split; [reflexivity | discriminate].
Qed.

(** X19. No pair of the poller reaches [_trigger_token_analysis].  The
    record [_create_token_info_from_pair] builds has no
    [creation_timestamp] (the age is passed under [age_hours], which is no
    field), so that its [age_hours] property is [None]: with a liquidity
    of at least 10000 the comparison with [max_age_hours] raises
    [TypeError] inside [_is_interesting_token], which answers [False];
    with less, the liquidity test answers [False]. *)
Theorem pair_tokens_never_reach_analysis (p : pair) (utcnow detected age_reading : Q) :
  _process_new_pair_ p utcnow detected age_reading = None /\
  (forall token_address token_data t,
     _create_token_info_from_pair_ p token_address token_data utcnow detected
     = Some t ->
     creation_timestamp t = None /\
     ModelsMore.age_hours t age_reading = None /\
     _is_interesting_token t age_reading = false /\
     (forall l, liquidity_usd t = Some l -> 10000 <= l ->
        interesting_try t age_reading = Raise TypeError)).
Proof.
  assert (Hall : forall token_address token_data t,
     _create_token_info_from_pair_ p token_address token_data utcnow detected
     = Some t ->
     creation_timestamp t = None /\
     ModelsMore.age_hours t age_reading = None /\
     _is_interesting_token t age_reading = false /\
     (forall l, liquidity_usd t = Some l -> 10000 <= l ->
        interesting_try t age_reading = Raise TypeError)).
  { intros a d t Hc. apply created_token in Hc. destruct Hc as (Hts & _ & _).
    destruct (no_timestamp_not_interesting t age_reading Hts) as [Hno Hraise].
    split_and!; [exact Hts | | exact Hno | exact Hraise].
    unfold ModelsMore.age_hours. rewrite Hts. reflexivity. }
  split; [| exact Hall].
  unfold _process_new_pair.
  destruct (select_token p) as [[a d] |]; [| reflexivity].
  destruct (_create_token_info_from_pair_ p a d utcnow detected) as [t |] eqn:Hc;
    [| reflexivity].
  destruct (Hall a d t Hc) as (_ & _ & -> & _). reflexivity.
Qed.

End WithRuntime.

#[local] Existing Instance Sample.runtime.

(** The main token of the young sample pair is its base token; that of a
    pair quoted the other way round is its quote token. *)
Lemma main_token_is_never_stable_witness :
  select_token SampleDex.young = Some (Sample.address, SampleDex.foo) /\
  select_token SampleDex.quote_pair = Some (Sample.address, SampleDex.foo) /\
  in_stable (side_symbol SampleDex.foo) = false.
Proof.
  split; [reflexivity |]. split; [reflexivity |].
  exact (proj1 (main_token_is_never_stable SampleDex.young Sample.address
                  SampleDex.foo eq_refl)).
Defined.

(** The token of the young sample pair is built, is liquid enough and not
    suspicious, and is still turned down: the age comparison raises. *)
Lemma pair_tokens_never_reach_analysis_witness :
  exists t,
    _create_token_info_from_pair SampleDex.utc SampleDex.young Sample.address
      SampleDex.foo 1000000 1000000 = Some t /\
    liquidity_usd t = Some 50000 /\
    _is_suspicious_token t = false /\
    interesting_try t 1000000 = Raise TypeError.
Proof.
  eexists. split; [vm_compute; reflexivity |].
  split; [reflexivity |]. split; [vm_compute; reflexivity |].
  lazymatch goal with
  | |- interesting_try ?t _ = _ =>
      apply (proj2 (proj2 (proj2
               (proj2 (pair_tokens_never_reach_analysis (rt := Sample.runtime)
                         SampleDex.utc SampleDex.young 1000000 1000000 1000000)
                  Sample.address SampleDex.foo t ltac:(vm_compute; reflexivity))))
               50000 eq_refl)
  end.
  vm_compute. discriminate.
Defined.

End PairFacts.


(** ** The rules of the suspicion score *)

Module ValidatorsMoreFacts.
Import Validators ValidatorsMore.
Section WithRuntime.
Context {rt : PyRuntime}.

Lemma detected_flag (text : string) (flag : bool) (patterns : list string) :
  detect_suspicious_patterns text = (flag, patterns) ->
  flag = true -> 1 <= inject_Z (Z.of_nat (length patterns)).
Proof.
  unfold detect_suspicious_patterns.
  generalize (List.filter (fun pattern => re_search pattern text) SUSPICIOUS_PATTERNS).
  intros matched Heq Hflag.
  destruct (String.eqb text "").
  - apply (f_equal fst) in Heq. cbn [fst] in Heq. congruence.
  - pose proof (f_equal fst Heq) as Hf. pose proof (f_equal snd Heq) as Hs.
    cbn [fst snd] in Hf, Hs. subst patterns.
    rewrite Hflag in Hf. apply Nat.ltb_lt in Hf.
    change 1 with (inject_Z 1). rewrite <- Zle_Qle. lia.
Qed.

Lemma graded_add_if (cond : bool) (w score : Q) (quiet : bool) :
  (cond = true -> 0.5 <= w) -> graded score quiet ->
  graded (add_if cond w score) (quiet && negb cond).
Proof.
  intros Hw (Hpos & Hgrid & Hzero). unfold graded, add_if.
  destruct cond; cbn [negb].
  - specialize (Hw eq_refl). rewrite andb_false_r.
    split_and!; [lra | right; lra |].
    split; [intros H; lra | discriminate].
  - rewrite andb_true_r. split_and!; assumption.
Qed.

Lemma graded_min (score : Q) (quiet : bool) :
  graded score quiet -> graded (py_min score 10.0) quiet.
Proof.
  intros (Hpos & Hgrid & Hzero). unfold graded, py_min.
  destruct (Qlt_bool 10.0 score) eqn:E; [| split_and!; assumption].
  apply PyFacts.Qlt_bool_iff in E.
  split_and!; [lra | right; lra |].
  split; [intros H; lra |].
  intros Hq. apply Hzero in Hq. lra.
Qed.

Lemma count_weight (n w : Q) : 1 <= n -> 0.5 <= w -> 0.5 <= n * w.
Proof. intros Hn Hw. nra. Qed.

(** X20. The suspicion score is 0.0 exactly when none of its eight rules
    fires, and at least 0.5 as soon as one does: there is no score strictly
    between the two. *)
Theorem suspicion_score_zero_iff_no_rule (name symbol description : string) :
  let score := calculate_suspicion_score name symbol description in
  (score == 0 \/ 0.5 <= score) /\
  (score == 0 <-> no_penalty name symbol description = true).
Proof.
  cbv zeta.
  cut (graded (calculate_suspicion_score name symbol description)
         (no_penalty name symbol description)).
  { intros (_ & Hgrid & Hzero). split; assumption. }
  unfold calculate_suspicion_score, no_penalty.
  destruct (detect_suspicious_patterns name) as [nf np] eqn:Hn.
  destruct (detect_suspicious_patterns symbol) as [sf sp] eqn:Hs.
  cbn [fst].
  apply graded_min.
  do 5 (apply graded_add_if; [intros _; lra |]).
  assert (Hbase : graded
            (add_if sf (inject_Z (Z.of_nat (length sp)) * 2.0)
               (add_if nf (inject_Z (Z.of_nat (length np)) * 1.5) 0))
            (negb nf && negb sf)).
  { apply graded_add_if.
    - intros Hf. apply count_weight; [exact (detected_flag _ _ _ Hs Hf) | lra].
    - rewrite <- (andb_true_l (negb nf)). apply graded_add_if.
      + intros Hf. apply count_weight; [exact (detected_flag _ _ _ Hn Hf) | lra].
      + unfold graded. split_and!; [lra | left; reflexivity |].
        split; reflexivity. }
  destruct (String.eqb description "").
  - rewrite orb_true_l, andb_true_r. exact Hbase.
  - destruct (detect_suspicious_patterns description) as [df dp] eqn:Hd.
    cbn [fst orb]. apply graded_add_if; [| exact Hbase].
    intros Hf. apply count_weight; [exact (detected_flag _ _ _ Hd Hf) | lra].
Qed.

End WithRuntime.
End ValidatorsMoreFacts.


(** ** The indicators put into the prompt *)

Module IndicatorsFacts.
Import Models Indicators.
Section WithRuntime.
Context {rt : PyRuntime}.

Lemma elem_of_when (x i : indicator) (cond : bool) :
  x ∈ when cond i <-> cond = true /\ x = i.
Proof.
  unfold when. destruct cond.
  - rewrite list_elem_of_singleton. intuition congruence.
  - split; [intros H; apply elem_of_nil in H; contradiction | intros [H _]; discriminate].
Qed.

Lemma length_when (cond : bool) (i : indicator) : (length (when cond i) <= 1)%nat.
Proof. unfold when. destruct cond; cbn; lia. Qed.

Lemma elem_of_keyword_indicator (x : indicator) (name symbol : string) :
  x ∈ keyword_indicator name symbol ->
  exists keyword, x = SuspiciousName keyword /\ In keyword suspicious_keywords /\
    (contains keyword name || contains keyword symbol) = true.
Proof.
  unfold keyword_indicator.
  destruct (List.find _ suspicious_keywords) as [k |] eqn:Hfind.
  - intros Hx. apply list_elem_of_singleton in Hx. subst x.
    apply find_some in Hfind. exists k. tauto.
  - intros Hx. apply elem_of_nil in Hx. contradiction.
Qed.

Lemma length_keyword_indicator (name symbol : string) :
  (length (keyword_indicator name symbol) <= 1)%nat.
Proof.
  unfold keyword_indicator.
  destruct (List.find _ suspicious_keywords); cbn; lia.
Qed.

Lemma amount_and_spec (v : option Q) (test : Q -> bool) :
  amount_and v test = true <->
  exists q, v = Some q /\ ~ q == 0 /\ test q = true.
Proof.
  unfold amount_and. destruct v as [q |].
  - rewrite andb_true_iff, negb_true_iff. split.
    + intros [Hz Ht]. exists q. split_and!; [reflexivity | | exact Ht].
      intros Heq. apply Qeq_bool_iff in Heq. congruence.
    + intros (q' & [= <-] & Hz & Ht). split; [| exact Ht].
      destruct (Qeq_bool q 0) eqn:E; [| reflexivity].
      apply Qeq_bool_iff in E. contradiction.
  - split; [discriminate | intros (q & H & _); discriminate].
Qed.

Ltac membership :=
  unfold _detect_suspicious_patterns;
  rewrite !elem_of_app, !elem_of_when.

(** X21. The indicators of the prompt.  There are at most six; one that
    names a keyword names one of the sixteen and stands first.  A token
    without creation time is always
    reported as extremely recent.  Low liquidity is reported exactly for a
    liquidity that is not zero and is below 1000: a liquidity of zero, like
    a holder count of zero and a price of zero, is never reported. *)
Theorem indicators_of_the_prompt (token_info : TokenInfo) (utcnow : Q) :
  let indicators := _detect_suspicious_patterns token_info utcnow in
  (length indicators <= 6)%nat /\
  (forall keyword, SuspiciousName keyword ∈ indicators ->
     In keyword suspicious_keywords /\
     indicators !! 0%nat = Some (SuspiciousName keyword)) /\
  (creation_timestamp token_info = None -> ExtremelyRecent ∈ indicators) /\
  (VeryLowLiquidity ∈ indicators <->
     exists l, liquidity_usd token_info = Some l /\ ~ l == 0 /\ l < 1000) /\
  (liquidity_usd token_info = Some 0 -> VeryLowLiquidity ∉ indicators) /\
  (holder_count token_info = Some 0%Z -> VeryFewHolders ∉ indicators) /\
  (price_usd token_info = Some 0 -> ExtremelyLowPrice ∉ indicators).
Proof.
  cbv zeta.
  assert (Hlow : VeryLowLiquidity ∈ _detect_suspicious_patterns token_info utcnow <->
            exists l, liquidity_usd token_info = Some l /\ ~ l == 0 /\ l < 1000).
  { membership. split.
    - intros [Hk | [[_ H] | [[Hc _] | [[_ H] | [[_ H] | [_ H]]]]]];
        try discriminate.
      + apply elem_of_keyword_indicator in Hk. destruct Hk as (k & H & _).
        discriminate.
      + apply amount_and_spec in Hc. destruct Hc as (l & Hl & Hz & Ht).
        exists l. split_and!; [exact Hl | exact Hz |].
        apply PyFacts.Qlt_bool_iff. exact Ht.
    - intros (l & Hl & Hz & Ht). right. right. left. split; [| reflexivity].
      apply amount_and_spec. exists l. split_and!; [exact Hl | exact Hz |].
      apply PyFacts.Qlt_bool_iff. exact Ht. }
  split_and!.
  - unfold _detect_suspicious_patterns. rewrite !length_app.
    pose proof (length_keyword_indicator
                  (str_lower (default "" (name token_info)))
                  (str_lower (default "" (symbol token_info)))).
    repeat match goal with
           | |- context [length (when ?c ?i)] =>
               pose proof (length_when c i); generalize dependent (length (when c i));
               intros
           end.
    lia.
  - intros keyword. unfold _detect_suspicious_patterns.
    set (kw := keyword_indicator _ _). rewrite elem_of_app.
    intros [Hk | Hrest].
    + pose proof (elem_of_keyword_indicator _ _ _ Hk) as (k & [= <-] & Hin & _).
      split; [exact Hin |].
      subst kw. unfold keyword_indicator in Hk |- *.
      destruct (List.find _ suspicious_keywords) as [k' |].
      * apply list_elem_of_singleton in Hk. injection Hk as ->. reflexivity.
      * apply elem_of_nil in Hk. contradiction.
    + rewrite !elem_of_app, !elem_of_when in Hrest.
      destruct Hrest as [[_ H] | [[_ H] | [[_ H] | [[_ H] | [_ H]]]]]; discriminate.
  - intros Hts. membership.
    right. right. right. right. left. split; [| reflexivity].
    unfold ModelsMore.age_hours. rewrite Hts. cbn [or_zero].
    apply PyFacts.Qlt_bool_iff. lra.
  - exact Hlow.
  - intros Hl Hin. apply Hlow in Hin. destruct Hin as (l & Hl' & Hz & _).
    rewrite Hl in Hl'. injection Hl' as <-. apply Hz. reflexivity.
  - intros Hh. membership.
    intros [Hk | [[_ H] | [[_ H] | [[Hc _] | [[_ H] | [_ H]]]]]]; try discriminate.
    + apply elem_of_keyword_indicator in Hk. destruct Hk as (k & H & _). discriminate.
    + rewrite Hh in Hc. discriminate.
  - intros Hp. membership.
    intros [Hk | [[_ H] | [[_ H] | [[_ H] | [[_ H] | [Hc _]]]]]]; try discriminate.
    + apply elem_of_keyword_indicator in Hk. destruct Hk as (k & H & _). discriminate.
    + rewrite Hp in Hc. discriminate.
Qed.

End WithRuntime.

#[local] Existing Instance Sample.runtime.

(** The Safe Moon sample: two indicators, the keyword and the age, and
    nothing about its empty pool. *)
Lemma indicators_of_the_prompt_witness :
  _detect_suspicious_patterns SampleIndicators.empty_pool 1000000
  = [SuspiciousName "safe"; ExtremelyRecent] /\
  ExtremelyRecent ∈ _detect_suspicious_patterns SampleIndicators.empty_pool 1000000 /\
  VeryLowLiquidity ∉ _detect_suspicious_patterns SampleIndicators.empty_pool 1000000.
Proof.
  split; [vm_compute; reflexivity |].
  pose proof (indicators_of_the_prompt (rt := Sample.runtime)
                SampleIndicators.empty_pool 1000000) as H.
  cbv zeta in H. destruct H as (_ & _ & Hrecent & _ & Hzero & _).
  split; [exact (Hrecent eq_refl) | exact (Hzero eq_refl)].
Defined.

End IndicatorsFacts.
